(** * DLA detection: line-profile model, prior sample set and search orchestrator

    A shallow embedding of three modules of the DLA finder:

    - [gpy_dla_detection/dla_samples.py] (module [DlaSamples]),
    - [gpy_dla_detection/voigt.py]       (module [Voigt]),
    - [dlasearch.py]                     (module [DlaSearch]).

    ** Numbers

    The numerical code is written once, against the arithmetic interface
    [Num] (and [Special] for [np.exp], [np.sqrt], [np.pi] and [wofz]), and is
    read in two ways:

    - [FloatNum]: IEEE binary64, the arithmetic the Python code runs on;
      every definition is executable in it with [vm_compute].  [np.exp] and
      [scipy.special.wofz] are library code and stay parameters of this
      reading.
    - [RealNum]: the real numbers the floats stand for, with the real [exp],
      [sqrt] and [PI]; only [wofz] stays a parameter.  It is used where a
      statement is about order or algebra; rounding, overflow, underflow and
      NaN are outside it.

    Statements about control flow, array lengths, masks and flags are proved
    for every instance of the interface, hence for both readings.

    ** Exceptions and mutation

    Python exceptions are values of [exn]; a function that may raise returns
    a [result].  The one array the code writes to in place (a target's
    inverse-variance row, zeroed by the BAL mask) is threaded through the
    loop as part of the spectra object.

    ** Collaborators

    Code that is not part of these three files is taken as given:
    [Parameters.min_z_dla] and [Parameters.max_z_dla] (fields of
    [DlaSamples.Parameters]), the constants of [constants.py] and the flag
    [DLAFLAG.POTENTIAL_BAL] ([DlaSearch.Constants]), and the continuum
    template with both fitting routines ([DlaSearch.Fitter]). *)

From Stdlib Require Import Bool String.
From Stdlib Require Import ZArith List Lia.
From Stdlib Require Import Reals Lra.
From Stdlib Require Import Floats.
From Stdlib Require DecimalString.
Import ListNotations.

Set Warnings "-inexact-float".

(* ================================================================== *)
(** ** Exceptions *)

Inductive exn : Type :=
| AssertionError
| ValueError
| IndexError
| NameError.

Inductive result (A : Type) : Type :=
| Ok (a : A)
| Raise (e : exn).

Arguments Ok {A} a.
Arguments Raise {A} e.

Definition bind {A B : Type} (r : result A) (k : A -> result B) : result B :=
  match r with
  | Ok a => k a
  | Raise e => Raise e
  end.

Declare Scope result_scope.
Delimit Scope result_scope with result.
Notation "x <- r ;; k" := (bind r (fun x => k))
  (at level 61, r at next level, right associativity) : result_scope.
Notation "' pat <- r ;; k" := (bind r (fun x => match x with pat => k end))
  (at level 61, pat pattern, r at next level, right associativity) : result_scope.

(** [a[i]] on a Python list or a one-dimensional array, for [0 <= i]. *)
Definition index {A : Type} (l : list A) (i : nat) : result A :=
  match nth_error l i with
  | Some a => Ok a
  | None => Raise IndexError
  end.

(** [assert b] *)
Definition py_assert (b : bool) : result unit :=
  if b then Ok tt else Raise AssertionError.

Lemma index_nth {A : Type} (l : list A) (i : nat) (d : A) :
  (i < length l)%nat -> index l i = Ok (nth i l d).
Proof.
  intros H. unfold index.
  rewrite (nth_error_nth' l d H). reflexivity.
Qed.

Lemma index_out_of_range {A : Type} (l : list A) (i : nat) :
  (length l <= i)%nat -> index l i = Raise IndexError.
Proof.
  intros H. unfold index.
  apply nth_error_None in H. rewrite H. reflexivity.
Qed.

(* ================================================================== *)
(** ** The arithmetic interface *)

Class Num (num : Type) : Type := {
  nadd : num -> num -> num;
  nsub : num -> num -> num;
  nmul : num -> num -> num;
  ndiv : num -> num -> num;
  nopp : num -> num;
  nltb : num -> num -> bool;      (* x < y  *)
  nleb : num -> num -> bool;      (* x <= y *)
  neqb : num -> num -> bool;      (* x == y *)
  nisnan : num -> bool;           (* np.isnan *)
  of_int : Z -> num;              (* int -> float conversion *)
}.

(** [np.exp], [np.sqrt], [np.pi] and the real part of
    [scipy.special.wofz (a + 1j * b)]. *)
Class Special (num : Type) : Type := {
  np_exp : num -> num;
  np_sqrt : num -> num;
  np_pi : num;
  wofz_re : num -> num -> num;
}.

Declare Scope num_scope.
Delimit Scope num_scope with num.
Infix "+" := nadd : num_scope.
Infix "-" := nsub : num_scope.
Infix "*" := nmul : num_scope.
Infix "/" := ndiv : num_scope.
Notation "- x" := (nopp x) : num_scope.
Infix "<?" := nltb (at level 70, no associativity) : num_scope.
Infix "<=?" := nleb (at level 70, no associativity) : num_scope.
Infix "=?" := neqb (at level 70, no associativity) : num_scope.
Notation "x >? y" := (nltb y x) (at level 70, no associativity) : num_scope.
Notation "x >=? y" := (nleb y x) (at level 70, no associativity) : num_scope.
Notation "x !=? y" := (negb (neqb x y)) (at level 70, no associativity) : num_scope.

(** A decimal literal [m * 10^-k]:  [0.2] is [dec 2 1]. *)
Definition dec {num : Type} {N : Num num} (m : Z) (k : nat) : num :=
  (of_int m / of_int (10 ^ Z.of_nat k))%num.

(** *** binary64 *)

Definition float_of_int (z : Z) : float :=
  match z with
  | Z0 => 0%float
  | Zpos _ => PrimFloat.of_uint63 (Uint63.of_Z z)
  | Zneg p => (- PrimFloat.of_uint63 (Uint63.of_Z (Zpos p)))%float
  end.

#[export] Instance FloatNum : Num float := {|
  nadd := PrimFloat.add;
  nsub := PrimFloat.sub;
  nmul := PrimFloat.mul;
  ndiv := PrimFloat.div;
  nopp := PrimFloat.opp;
  nltb := PrimFloat.ltb;
  nleb := PrimFloat.leb;
  neqb := PrimFloat.eqb;
  nisnan := PrimFloat.is_nan;
  of_int := float_of_int;
|}.

(** [np.exp] and [wofz] are library code: the binary64 reading takes them as
    given. *)
Definition FloatSpecial (exp_f : float -> float)
                        (wofz_f : float -> float -> float) : Special float := {|
  np_exp := exp_f;
  np_sqrt := PrimFloat.sqrt;
  np_pi := 3.141592653589793%float;
  wofz_re := wofz_f;
|}.

(** *** exact reals *)

Definition Rltb (x y : R) : bool := if Rlt_dec x y then true else false.
Definition Rleb (x y : R) : bool := if Rle_dec x y then true else false.
Definition Reqb (x y : R) : bool := if Req_dec_T x y then true else false.

#[export] Instance RealNum : Num R := {|
  nadd := Rplus;
  nsub := Rminus;
  nmul := Rmult;
  ndiv := Rdiv;
  nopp := Ropp;
  nltb := Rltb;
  nleb := Rleb;
  neqb := Reqb;
  nisnan := fun _ => false;
  of_int := IZR;
|}.

(** Only [wofz] is taken as given: [exp], [sqrt] and [PI] are the real ones. *)
Definition RealSpecial (wofz_r : R -> R -> R) : Special R := {|
  np_exp := Rtrigo_def.exp;
  np_sqrt := R_sqrt.sqrt;
  np_pi := PI;
  wofz_re := wofz_r;
|}.

Lemma Rltb_true (x y : R) : Rltb x y = true <-> (x < y)%R.
Proof. unfold Rltb; destruct (Rlt_dec x y); split; intros; try easy. Qed.

Lemma Rltb_false (x y : R) : Rltb x y = false <-> (y <= x)%R.
Proof.
  unfold Rltb; destruct (Rlt_dec x y); split; intros; try easy; lra.
Qed.

Lemma Rleb_true (x y : R) : Rleb x y = true <-> (x <= y)%R.
Proof. unfold Rleb; destruct (Rle_dec x y); split; intros; try easy. Qed.

Lemma Reqb_true (x y : R) : Reqb x y = true <-> x = y.
Proof. unfold Reqb; destruct (Req_dec_T x y); split; intros; try easy. Qed.

(** The literal [0.2] of the binary64 reading is Python's [0.2]. *)
Example dec_0_2_binary64 : dec (N := FloatNum) 2 1 = 0.2%float.
Proof. vm_compute. reflexivity. Qed.

(* ================================================================== *)
(** ** dla_samples.py *)

Module DlaSamples.

Section Samples.
Context {num : Type} {N : Num num}.
(** [model_priors.PriorCatalog] is only stored. *)
Context {PriorCatalog : Type}.

(** [set_parameters.Parameters]: the attributes read here, and the two
    methods [min_z_dla] and [max_z_dla] used by [sample_z_dlas]. *)
Record Parameters : Type := {
  p_num_dla_samples : Z;
  p_uniform_min_log_nhi : num;
  p_uniform_max_log_nhi : num;
  p_fit_min_log_nhi : num;
  p_fit_max_log_nhi : num;
  p_alpha : num;
  min_z_dla : list num -> num -> num;
  max_z_dla : list num -> num -> num;
}.

(** The datasets read from the [.mat] file. *)
Record MatFile : Type := {
  f_alpha : num;
  f_uniform_min_log_nhi : num;
  f_uniform_max_log_nhi : num;
  f_offset_samples : list num;
  f_log_nhi_samples : list num;
  f_nhi_samples : list num;
}.

(** The attributes of a [DLASamplesMAT] object: those of the base class
    [DLASamples] and the three sample arrays behind the properties
    [offset_samples], [log_nhi_samples] and [nhi_samples]. *)
Record DLASamplesMAT : Type := {
  params : Parameters;
  prior : PriorCatalog;
  num_dla_samples : Z;
  uniform_min_log_nhi : num;
  uniform_max_log_nhi : num;
  fit_min_log_nhi : num;
  fit_max_log_nhi : num;
  alpha : num;
  offset_samples : list num;
  log_nhi_samples : list num;
  nhi_samples : list num;
}.

(** [DLASamples.__init__]: the parameters are copied; no sample is set yet. *)
Definition DLASamples_init (p : Parameters) (pr : PriorCatalog) : DLASamplesMAT :=
  {| params := p;
     prior := pr;
     num_dla_samples := p_num_dla_samples p;
     uniform_min_log_nhi := p_uniform_min_log_nhi p;
     uniform_max_log_nhi := p_uniform_max_log_nhi p;
     fit_min_log_nhi := p_fit_min_log_nhi p;
     fit_max_log_nhi := p_fit_max_log_nhi p;
     alpha := p_alpha p;
     offset_samples := [];
     log_nhi_samples := [];
     nhi_samples := [] |}.

(** [DLASamplesMAT.__init__]: the base-class initialiser, the two
    assertions, then the samples and both uniform-prior bounds are taken
    from the file. *)
Definition DLASamplesMAT_init (p : Parameters) (pr : PriorCatalog)
                              (dla_samples : MatFile) : result DLASamplesMAT :=
  let self := DLASamples_init p pr in
  (_ <- py_assert (alpha self =? f_alpha dla_samples)%num ;;
   _ <- py_assert (uniform_min_log_nhi self =? f_uniform_min_log_nhi dla_samples)%num ;;
   Ok {| params := params self;
         prior := prior self;
         num_dla_samples := num_dla_samples self;
         fit_min_log_nhi := fit_min_log_nhi self;
         fit_max_log_nhi := fit_max_log_nhi self;
         alpha := alpha self;
         offset_samples := f_offset_samples dla_samples;
         log_nhi_samples := f_log_nhi_samples dla_samples;
         nhi_samples := f_nhi_samples dla_samples;
         uniform_min_log_nhi := f_uniform_min_log_nhi dla_samples;
         uniform_max_log_nhi := f_uniform_max_log_nhi dla_samples |})%result.

(** [DLASamplesMAT.sample_z_dlas] *)
Definition sample_z_dlas (self : DLASamplesMAT)
                         (wavelengths : list num) (z_qso : num) : list num :=
  map (fun offset =>
         (min_z_dla (params self) wavelengths z_qso
          + (max_z_dla (params self) wavelengths z_qso
             - min_z_dla (params self) wavelengths z_qso)
            * offset)%num)
      (offset_samples self).

(** Loading succeeds exactly when the two asserted constants agree. *)
Lemma DLASamplesMAT_init_ok_iff (p : Parameters) (pr : PriorCatalog) (f : MatFile) :
  (exists self, DLASamplesMAT_init p pr f = Ok self) <->
  (p_alpha p =? f_alpha f)%num = true /\
  (p_uniform_min_log_nhi p =? f_uniform_min_log_nhi f)%num = true.
Proof.
  unfold DLASamplesMAT_init, py_assert, bind. cbn [alpha uniform_min_log_nhi DLASamples_init].
  destruct (p_alpha p =? f_alpha f)%num;
    destruct (p_uniform_min_log_nhi p =? f_uniform_min_log_nhi f)%num;
    split; intros H; try (destruct H as [s H]; discriminate);
    try (destruct H; discriminate); eauto.
Qed.

(** A differing [alpha] or lower bound is an [AssertionError]. *)
Lemma DLASamplesMAT_init_raises (p : Parameters) (pr : PriorCatalog) (f : MatFile) :
  (p_alpha p =? f_alpha f)%num = false \/
  (p_uniform_min_log_nhi p =? f_uniform_min_log_nhi f)%num = false ->
  DLASamplesMAT_init p pr f = Raise AssertionError.
Proof.
  unfold DLASamplesMAT_init, py_assert, bind. cbn [alpha uniform_min_log_nhi DLASamples_init].
  intros [H|H]; rewrite H; [reflexivity|].
  destruct (p_alpha p =? f_alpha f)%num; reflexivity.
Qed.

Lemma sample_z_dlas_length (self : DLASamplesMAT) wl zq :
  length (sample_z_dlas self wl zq) = length (offset_samples self).
Proof. unfold sample_z_dlas. apply length_map. Qed.

Lemma sample_z_dlas_nth (self : DLASamplesMAT) wl zq i o :
  nth_error (offset_samples self) i = Some o ->
  nth_error (sample_z_dlas self wl zq) i =
  Some (min_z_dla (params self) wl zq
        + (max_z_dla (params self) wl zq - min_z_dla (params self) wl zq) * o)%num.
Proof.
  intros H. unfold sample_z_dlas. rewrite nth_error_map, H. reflexivity.
Qed.
End Samples.

Arguments DLASamplesMAT {num} PriorCatalog.

(** *** Parameters whose upper uniform-prior bound is 23, and a sample file
    whose upper bound is 22 (binary64) *)

Definition params_23 : Parameters (num := float) := {|
  p_num_dla_samples := 3;
  p_uniform_min_log_nhi := 20%float;
  p_uniform_max_log_nhi := 23%float;
  p_fit_min_log_nhi := 20%float;
  p_fit_max_log_nhi := 22%float;
  p_alpha := 0.97%float;
  min_z_dla := fun _ _ => 2%float;
  max_z_dla := fun _ z_qso => z_qso;
|}.

Definition file_22 : MatFile (num := float) := {|
  f_alpha := 0.97%float;
  f_uniform_min_log_nhi := 20%float;
  f_uniform_max_log_nhi := 22%float;
  f_offset_samples := [0%float; 0.5%float; 0.25%float];
  f_log_nhi_samples := [20.5%float; 21%float; 20.25%float];
  f_nhi_samples := [3.1622776601683794e20%float; 1e21%float; 1.7782794100389228e20%float];
|}.

Definition samples_last_offset : DLASamplesMAT (num := float) unit := {|
  params := params_23;
  prior := tt;
  num_dla_samples := 1;
  uniform_min_log_nhi := 20%float;
  uniform_max_log_nhi := 22%float;
  fit_min_log_nhi := 20%float;
  fit_max_log_nhi := 22%float;
  alpha := 0.97%float;
  offset_samples := [0x1.fffffffffffffp-1%float];
  log_nhi_samples := [21%float];
  nhi_samples := [1e21%float];
|}.

(** *** A quasar whose allowed absorber range is a single redshift (reals) *)

Definition params_degenerate : Parameters (num := R) := {|
  p_num_dla_samples := 1;
  p_uniform_min_log_nhi := 20%R;
  p_uniform_max_log_nhi := 23%R;
  p_fit_min_log_nhi := 20%R;
  p_fit_max_log_nhi := 22%R;
  p_alpha := 0.97%R;
  min_z_dla := fun _ _ => 2%R;
  max_z_dla := fun _ _ => 2%R;
|}.

Definition samples_degenerate : DLASamplesMAT (num := R) unit := {|
  params := params_degenerate;
  prior := tt;
  num_dla_samples := 1;
  uniform_min_log_nhi := 20%R;
  uniform_max_log_nhi := 23%R;
  fit_min_log_nhi := 20%R;
  fit_max_log_nhi := 22%R;
  alpha := 0.97%R;
  offset_samples := [0%R];
  log_nhi_samples := [20.5%R];
  nhi_samples := [1e20%R];
|}.

(** C1 (the code misses the check the claim states). Loading raises exactly
    when [alpha] or the lower uniform-prior bound differs; the upper bound is
    never compared.  With parameters whose upper bound is 23 and a file whose
    upper bound is 22 (everything else equal) the constructor returns an
    object, and that object carries the file's 22. *)
Theorem DLASamplesMAT_init_upper_bound_unchecked :
  (p_uniform_max_log_nhi params_23 =? f_uniform_max_log_nhi file_22)%num = false /\
  exists self : DLASamplesMAT unit,
    DLASamplesMAT_init params_23 tt file_22 = Ok self /\
    uniform_max_log_nhi self = 22%float /\
    alpha self = 0.97%float /\
    uniform_min_log_nhi self = 20%float.
Proof.
  split; [vm_compute; reflexivity|].
  eexists. split; [vm_compute; reflexivity|].
  repeat split.
Qed.

(** C8, as the code has it. [sample_z_dlas] returns one redshift per stored
    offset, the i-th being [min + (max - min) * offset_i]; for an offset in
    [0,1) and [min <= max] that redshift lies in the closed interval
    [min, max], and strictly below [max] when [min < max]. *)
Theorem sample_z_dlas_linear_interpolation :
  forall (PriorCatalog : Type) (self : DLASamplesMAT (num := R) PriorCatalog)
         (wavelengths : list R) (z_qso : R),
    let lo := min_z_dla (params self) wavelengths z_qso in
    let hi := max_z_dla (params self) wavelengths z_qso in
    length (sample_z_dlas self wavelengths z_qso) = length (offset_samples self) /\
    forall i offset,
      nth_error (offset_samples self) i = Some offset ->
      nth_error (sample_z_dlas self wavelengths z_qso) i
        = Some (lo + (hi - lo) * offset)%R /\
      ((0 <= offset < 1)%R -> (lo <= hi)%R ->
       (lo <= lo + (hi - lo) * offset <= hi)%R /\
       ((lo < hi)%R -> (lo + (hi - lo) * offset < hi)%R)).
Proof.
  intros PC self wl zq lo hi. split.
  - apply sample_z_dlas_length.
  - intros i o Hi. split.
    + rewrite (sample_z_dlas_nth self wl zq i o Hi). reflexivity.
    + intros [Ho0 Ho1] Hle. repeat split; nra.
Qed.

(** C8, the claim as stated fails when the allowed range is a single
    redshift: with [min_z_dla = max_z_dla = 2] and the offset 0, the returned
    redshift 2 is not in the half-open interval [2, 2). *)
Lemma sample_z_dlas_empty_half_open_range :
  let lo := min_z_dla (params samples_degenerate) [] 3%R in
  let hi := max_z_dla (params samples_degenerate) [] 3%R in
  (lo <= hi)%R /\
  Forall (fun offset => (0 <= offset < 1)%R) (offset_samples samples_degenerate) /\
  sample_z_dlas samples_degenerate [] 3%R = [2%R] /\
  ~ Forall (fun z => (lo <= z < hi)%R) (sample_z_dlas samples_degenerate [] 3%R).
Proof.
  cbn. split; [lra|]. split; [constructor; [lra|constructor]|].
  assert (E : (2 + (2 - 2) * 0)%R = 2%R) by lra.
  rewrite E. split; [reflexivity|].
  intros H. inversion H as [|x l Hx Hl]; subst. lra.
Qed.

(** In binary64 the half-open bound can also fail for [min < max]: with
    [min = 2], [max = 3] and the largest offset below 1 the interpolation
    rounds up to [max]. *)
Example sample_z_dlas_binary64_reaches_max :
  sample_z_dlas samples_last_offset [] 3%float = [3%float].
Proof. vm_compute. reflexivity. Qed.

(* ------------------------------------------------------------------ *)
(** *** What loading does besides the two assertions *)

Section Loading.
Context {num : Type} {N : Num num}.



End Loading.

(** *** binary64: a NaN never passes the assertions *)

Lemma float_eqb_nan_l (x y : float) :
  PrimFloat.is_nan x = true -> PrimFloat.eqb x y = false.
Proof.
  unfold PrimFloat.is_nan. rewrite !eqb_spec.
  destruct (Prim2SF x) as [b|b| |b m e]; cbn.
  - discriminate.
  - destruct b; discriminate.
  - reflexivity.
  - unfold SFeqb, SFcompare. rewrite Z.compare_refl, Pos.compare_refl.
    destruct b; cbn; discriminate.
Qed.

Lemma float_eqb_nan_r (x y : float) :
  PrimFloat.is_nan y = true -> PrimFloat.eqb x y = false.
Proof.
  unfold PrimFloat.is_nan. rewrite !eqb_spec.
  destruct (Prim2SF y) as [b|b| |b m e]; cbn.
  - discriminate.
  - destruct b; discriminate.
  - intros _. destruct (Prim2SF x); reflexivity.
  - unfold SFeqb, SFcompare. rewrite Z.compare_refl, Pos.compare_refl.
    destruct b; cbn; discriminate.
Qed.

(** X10. In binary64 a NaN in either [alpha] or either lower bound makes
    the constructor raise [AssertionError], also when the parameters and the
    file hold the same NaN: [nan == nan] is false. *)
Theorem DLASamplesMAT_init_nan_raises :
  forall (PriorCatalog : Type) (p : Parameters (num := float))
         (pr : PriorCatalog) (f : MatFile (num := float)),
    PrimFloat.is_nan (p_alpha p) = true \/
    PrimFloat.is_nan (f_alpha f) = true \/
    PrimFloat.is_nan (p_uniform_min_log_nhi p) = true \/
    PrimFloat.is_nan (f_uniform_min_log_nhi f) = true ->
    DLASamplesMAT_init p pr f = Raise AssertionError.
Proof.
  intros PC p pr f H. apply DLASamplesMAT_init_raises.
  cbn [neqb FloatNum].
  destruct H as [H|[H|[H|H]]].
  - left. apply float_eqb_nan_l. exact H.
  - left. apply float_eqb_nan_r. exact H.
  - right. apply float_eqb_nan_l. exact H.
  - right. apply float_eqb_nan_r. exact H.
Qed.

Definition params_nan : Parameters (num := float) := {|
  p_num_dla_samples := 3;
  p_uniform_min_log_nhi := 20%float;
  p_uniform_max_log_nhi := 23%float;
  p_fit_min_log_nhi := 20%float;
  p_fit_max_log_nhi := 22%float;
  p_alpha := nan;
  min_z_dla := fun _ _ => 2%float;
  max_z_dla := fun _ z_qso => z_qso;
|}.

Definition file_nan : MatFile (num := float) := {|
  f_alpha := nan;
  f_uniform_min_log_nhi := 20%float;
  f_uniform_max_log_nhi := 23%float;
  f_offset_samples := [0%float];
  f_log_nhi_samples := [20.5%float];
  f_nhi_samples := [3.1622776601683794e20%float];
|}.

Lemma DLASamplesMAT_init_nan_raises_witness :
  DLASamplesMAT_init params_nan tt file_nan = Raise AssertionError.
Proof.
  exact (DLASamplesMAT_init_nan_raises unit params_nan tt file_nan
           (or_introl eq_refl)).
Defined.



(** *** Order of the redshift samples (reals) *)

(** X11. Over the reals the interpolation keeps the order of the offsets
    when [min_z_dla <= max_z_dla], and reverses it when the range is
    inverted ([max_z_dla < min_z_dla]), which the code does not exclude: the
    sample of the larger offset then lies below [min_z_dla]. *)
Theorem sample_z_dlas_order :
  forall (PriorCatalog : Type) (self : DLASamplesMAT (num := R) PriorCatalog)
         (wavelengths : list R) (z_qso : R) (i j : nat) (oi oj zi zj : R),
    nth_error (offset_samples self) i = Some oi ->
    nth_error (offset_samples self) j = Some oj ->
    nth_error (sample_z_dlas self wavelengths z_qso) i = Some zi ->
    nth_error (sample_z_dlas self wavelengths z_qso) j = Some zj ->
    (oi < oj)%R ->
    let lo := min_z_dla (params self) wavelengths z_qso in
    let hi := max_z_dla (params self) wavelengths z_qso in
    ((lo <= hi)%R -> (zi <= zj)%R) /\
    ((lo < hi)%R -> (zi < zj)%R) /\
    ((hi < lo)%R -> (zj < zi)%R /\ ((0 <= oi)%R -> (zj < lo)%R)).
Proof.
  intros PC self wl zq i j oi oj zi zj Hi Hj Hzi Hzj Hlt lo hi.
  rewrite (sample_z_dlas_nth self wl zq i oi Hi) in Hzi.
  rewrite (sample_z_dlas_nth self wl zq j oj Hj) in Hzj.
  injection Hzi as <-. injection Hzj as <-.
  fold lo hi. cbn [nadd nsub nmul RealNum].
  repeat split; intros; nra.
Qed.

Definition params_unit_range : Parameters (num := R) := {|
  p_num_dla_samples := 2;
  p_uniform_min_log_nhi := 20%R;
  p_uniform_max_log_nhi := 23%R;
  p_fit_min_log_nhi := 20%R;
  p_fit_max_log_nhi := 22%R;
  p_alpha := 0.97%R;
  min_z_dla := fun _ _ => 2%R;
  max_z_dla := fun _ z_qso => z_qso;
|}.

Definition samples_two_offsets : DLASamplesMAT (num := R) unit := {|
  params := params_unit_range;
  prior := tt;
  num_dla_samples := 2;
  uniform_min_log_nhi := 20%R;
  uniform_max_log_nhi := 23%R;
  fit_min_log_nhi := 20%R;
  fit_max_log_nhi := 22%R;
  alpha := 0.97%R;
  offset_samples := [0%R; 1%R];
  log_nhi_samples := [20.5%R; 21%R];
  nhi_samples := [1e20%R; 1e21%R];
|}.

Lemma sample_z_dlas_order_witness :
  let zi := (2 + (3 - 2) * 0)%R in
  let zj := (2 + (3 - 2) * 1)%R in
  ((2 <= 3)%R -> (zi <= zj)%R) /\
  ((2 < 3)%R -> (zi < zj)%R) /\
  ((3 < 2)%R -> (zj < zi)%R /\ ((0 <= 0)%R -> (zj < 2)%R)).
Proof.
  exact (sample_z_dlas_order unit samples_two_offsets [] 3%R 0 1 0%R 1%R
           (2 + (3 - 2) * 0)%R (2 + (3 - 2) * 1)%R
           eq_refl eq_refl eq_refl eq_refl ltac:(lra)).
Defined.


End DlaSamples.

(* ================================================================== *)
(** ** voigt.py *)

Module Voigt.

(** The module-level tables read by [voigt_absorption], with the lengths the
    code relies on.  ([oscillator_strengths] and [Gammas] are only
    documentation of how [leading_constants] and [gammas] were obtained.) *)
Class Tables (num : Type) : Type := {
  c : num;                                (* cm s^-1 *)
  transition_wavelengths : list num;      (* cm *)
  leading_constants : list num;           (* cm^2 *)
  gammas : list num;                      (* cm s^-1 *)
  sigma : num;                            (* cm s^-1 *)
  instrument_profile : list num;
  transition_wavelengths_length : length transition_wavelengths = 31%nat;
  leading_constants_length : length leading_constants = 31%nat;
  gammas_length : length gammas = 31%nat;
  instrument_profile_length : length instrument_profile = 7%nat;
}.

(** fixed width of convolution *)
Definition width : Z := 3.

(** binary64: the literals as Python reads them. *)
#[export] Instance FloatTables : Tables float := {|
  c := (2.99792458e10)%float;
  transition_wavelengths := [
    1.2156701e-05%float; 1.0257223e-05%float; 9.725368e-06%float;
    9.497431e-06%float; 9.378035e-06%float; 9.307483e-06%float;
    9.262257e-06%float; 9.231504e-06%float; 9.209631e-06%float;
    9.193514e-06%float; 9.181294e-06%float; 9.171806e-06%float;
    9.16429e-06%float; 9.15824e-06%float; 9.15329e-06%float;
    9.14919e-06%float; 9.14576e-06%float; 9.14286e-06%float;
    9.14039e-06%float; 9.13826e-06%float; 9.13641e-06%float;
    9.13480e-06%float; 9.13339e-06%float; 9.13215e-06%float;
    9.13104e-06%float; 9.13006e-06%float; 9.12918e-06%float;
    9.12839e-06%float; 9.12768e-06%float; 9.12703e-06%float;
    9.12645e-06%float
  ];
  leading_constants := [
    1.34347262962625339e-07%float; 2.15386482180851912e-08%float; 7.48525170087141461e-09%float;
    3.51375347286007472e-09%float; 1.94112336271172934e-09%float; 1.18916112899713152e-09%float;
    7.82448627128742997e-10%float; 5.42930932279390593e-10%float; 3.92301197282493829e-10%float;
    2.92796010451409027e-10%float; 2.24422239410389782e-10%float; 1.75895684469038289e-10%float;
    1.40338556137474778e-10%float; 1.13995374637743197e-10%float; 9.37706429662300083e-11%float;
    7.79453203101192392e-11%float; 6.55369055970184901e-11%float; 5.58100321584169051e-11%float;
    4.77895916635794548e-11%float; 4.12301389852588843e-11%float; 3.58872072638707592e-11%float;
    3.12745536798214080e-11%float; 2.76337116167110415e-11%float; 2.44791750078032772e-11%float;
    2.15681362798480253e-11%float; 1.93850080479346101e-11%float; 1.72025364178111889e-11%float;
    1.55051698336865945e-11%float; 1.40504672409331934e-11%float; 1.28383057589411395e-11%float;
    1.16264059622218997e-11%float
  ];
  gammas := [
    6.06075804241938613e02%float; 1.54841462408931704e02%float; 6.28964942715328164e01%float;
    3.17730561586147395e01%float; 1.82838676775503330e01%float; 9.15463131005758157e00%float;
    6.08448802613156925e00%float; 4.24977523573725779e00%float; 3.08542121666345803e00%float;
    2.31184525202557767e00%float; 1.77687796208123139e00%float; 1.39477990932179852e00%float;
    1.11505539984541979e00%float; 9.05885451682623022e-01%float; 7.45877170715450677e-01%float;
    6.21261624902197052e-01%float; 5.22994533400935269e-01%float; 4.44469874827484512e-01%float;
    3.80923210837841919e-01%float; 3.28912390446060132e-01%float; 2.85949711597237033e-01%float;
    2.50280032040928802e-01%float; 2.20224061101442048e-01%float; 1.94686521675913549e-01%float;
    1.73082093051965591e-01%float; 1.54536566013816490e-01%float; 1.38539175663870029e-01%float;
    1.24652675945279762e-01%float; 1.12585442799479921e-01%float; 1.02045988802423507e-01%float;
    9.27433783998286437e-02%float
  ];
  sigma := (9.08537121627923800e05)%float;
  instrument_profile := [
    2.17460992138080811e-03%float; 4.11623059580451742e-02%float; 2.40309364651846963e-01%float;
    4.32707438937454059e-01%float; 2.40309364651846963e-01%float; 4.11623059580451742e-02%float;
    2.17460992138080811e-03%float
  ];
  transition_wavelengths_length := eq_refl;
  leading_constants_length := eq_refl;
  gammas_length := eq_refl;
  instrument_profile_length := eq_refl;
|}.

(** reals: the literals as written. *)
#[export] Instance RealTables : Tables R := {|
  c := (2.99792458e10)%R;
  transition_wavelengths := [
    1.2156701e-05%R; 1.0257223e-05%R; 9.725368e-06%R;
    9.497431e-06%R; 9.378035e-06%R; 9.307483e-06%R;
    9.262257e-06%R; 9.231504e-06%R; 9.209631e-06%R;
    9.193514e-06%R; 9.181294e-06%R; 9.171806e-06%R;
    9.16429e-06%R; 9.15824e-06%R; 9.15329e-06%R;
    9.14919e-06%R; 9.14576e-06%R; 9.14286e-06%R;
    9.14039e-06%R; 9.13826e-06%R; 9.13641e-06%R;
    9.13480e-06%R; 9.13339e-06%R; 9.13215e-06%R;
    9.13104e-06%R; 9.13006e-06%R; 9.12918e-06%R;
    9.12839e-06%R; 9.12768e-06%R; 9.12703e-06%R;
    9.12645e-06%R
  ];
  leading_constants := [
    1.34347262962625339e-07%R; 2.15386482180851912e-08%R; 7.48525170087141461e-09%R;
    3.51375347286007472e-09%R; 1.94112336271172934e-09%R; 1.18916112899713152e-09%R;
    7.82448627128742997e-10%R; 5.42930932279390593e-10%R; 3.92301197282493829e-10%R;
    2.92796010451409027e-10%R; 2.24422239410389782e-10%R; 1.75895684469038289e-10%R;
    1.40338556137474778e-10%R; 1.13995374637743197e-10%R; 9.37706429662300083e-11%R;
    7.79453203101192392e-11%R; 6.55369055970184901e-11%R; 5.58100321584169051e-11%R;
    4.77895916635794548e-11%R; 4.12301389852588843e-11%R; 3.58872072638707592e-11%R;
    3.12745536798214080e-11%R; 2.76337116167110415e-11%R; 2.44791750078032772e-11%R;
    2.15681362798480253e-11%R; 1.93850080479346101e-11%R; 1.72025364178111889e-11%R;
    1.55051698336865945e-11%R; 1.40504672409331934e-11%R; 1.28383057589411395e-11%R;
    1.16264059622218997e-11%R
  ];
  gammas := [
    6.06075804241938613e02%R; 1.54841462408931704e02%R; 6.28964942715328164e01%R;
    3.17730561586147395e01%R; 1.82838676775503330e01%R; 9.15463131005758157e00%R;
    6.08448802613156925e00%R; 4.24977523573725779e00%R; 3.08542121666345803e00%R;
    2.31184525202557767e00%R; 1.77687796208123139e00%R; 1.39477990932179852e00%R;
    1.11505539984541979e00%R; 9.05885451682623022e-01%R; 7.45877170715450677e-01%R;
    6.21261624902197052e-01%R; 5.22994533400935269e-01%R; 4.44469874827484512e-01%R;
    3.80923210837841919e-01%R; 3.28912390446060132e-01%R; 2.85949711597237033e-01%R;
    2.50280032040928802e-01%R; 2.20224061101442048e-01%R; 1.94686521675913549e-01%R;
    1.73082093051965591e-01%R; 1.54536566013816490e-01%R; 1.38539175663870029e-01%R;
    1.24652675945279762e-01%R; 1.12585442799479921e-01%R; 1.02045988802423507e-01%R;
    9.27433783998286437e-02%R
  ];
  sigma := (9.08537121627923800e05)%R;
  instrument_profile := [
    2.17460992138080811e-03%R; 4.11623059580451742e-02%R; 2.40309364651846963e-01%R;
    4.32707438937454059e-01%R; 2.40309364651846963e-01%R; 4.11623059580451742e-02%R;
    2.17460992138080811e-03%R
  ];
  transition_wavelengths_length := eq_refl;
  leading_constants_length := eq_refl;
  gammas_length := eq_refl;
  instrument_profile_length := eq_refl;
|}.

Section Profile.
Context {num : Type} {N : Num num} {S : Special num} {T : Tables num}.
Local Open Scope result_scope.

(** [G(x; sigma) = 1 / sqrt(2 pi sigma^2) * exp(- x^2 / 2 sigma^2)] *)
Definition Gaussian (x sigma : num) : num :=
  (of_int 1 / np_sqrt (of_int 2 * np_pi * (sigma * sigma))
   * np_exp (- (x * x) / of_int 2 / (sigma * sigma)))%num.

(** [L(x; gamma) = (gamma / pi) / (x^2 + gamma^2)] *)
Definition Lorentzian (x gamma : num) : num :=
  (gamma / np_pi / (x * x + gamma * gamma))%num.

(** [V(x; sigma, gamma) = Re[w(z)] / sqrt(2 pi sigma^2)] with
    [z = (x + 1j * gamma) / (sqrt 2 * sigma)]. *)
Definition Voigt (x sigma gamma : num) : num :=
  let d := (np_sqrt (of_int 2) * sigma)%num in
  (wofz_re (x / d) (gamma / d) / (np_sqrt (of_int 2 * np_pi) * sigma))%num.

(** [np.zeros((k,))]: a negative dimension is a [ValueError]. *)
Definition np_zeros (k : Z) : result (list num) :=
  if (k <? 0)%Z then Raise ValueError else Ok (repeat (of_int 0) (Z.to_nat k)).

(** [np.empty((rows, cols))], of which only the shape check matters. *)
Definition np_empty2 (rows cols : Z) : result unit :=
  if ((rows <? 0) || (cols <? 0))%Z then Raise ValueError else Ok tt.

(** [a[:k]] *)
Definition slice_to {A : Type} (a : list A) (k : Z) : list A :=
  if (k <? 0)%Z then firstn (Z.to_nat (Z.of_nat (length a) + k)) a
  else firstn (Z.to_nat k) a.

(** One pass of the loop body: the row [total[l, :]]. *)
Definition total_row (wavelengths multipliers : list num) (l : nat)
  : result (list num) :=
  m <- index multipliers l ;;
  lc <- index leading_constants l ;;
  g <- index gammas l ;;
  Ok (map (fun w => let velocity := (w * m - c)%num in
                    (- lc * Voigt velocity sigma g)%num)
          wavelengths).

(** [for l in range(num_lines)] *)
Fixpoint total_rows (wavelengths multipliers : list num) (ls : list nat)
  : result (list (list num)) :=
  match ls with
  | [] => Ok []
  | l :: ls' =>
      row <- total_row wavelengths multipliers l ;;
      rest <- total_rows wavelengths multipliers ls' ;;
      Ok (row :: rest)
  end.

(** [np.nansum(total, axis=0)]: NaN entries count as zero; the sum of no row
    is zero at every pixel. *)
Definition nan_to_zero (x : num) : num := if nisnan x then of_int 0 else x.

Definition add_row (acc row : list num) : list num :=
  map (fun ar => (fst ar + nan_to_zero (snd ar))%num) (combine acc row).

Definition nansum_axis0 (n : nat) (total : list (list num)) : list num :=
  fold_left add_row total (repeat (of_int 0) n).

(** The inner product [sum_k a[k] * v[k]], accumulated from the left. *)
Definition dot (a v : list num) : num :=
  fold_left (fun acc xy => (acc + fst xy * snd xy)%num) (combine a v) (of_int 0).

(** [np.correlate(a, v, "valid")] for [len(a) >= len(v) >= 1]. *)
Definition correlate_valid (a v : list num) : list num :=
  map (fun i => dot (firstn (length v) (skipn i a)) v)
      (seq 0 (length a - length v + 1)).

(** [np.convolve(a, v, "valid")]: the longer array is taken as the signal,
    empty arrays are refused, and the kernel is reversed. *)
Definition np_convolve_valid (a v : list num) : result (list num) :=
  let '(a, v) := if (length a <? length v)%nat then (v, a) else (a, v) in
  match a, v with
  | [], _ => Raise ValueError
  | _, [] => Raise ValueError
  | _, _ => Ok (correlate_valid a (rev v))
  end.

(** [profile[:] = value]: equal shapes, or a length-one value broadcast. *)
Definition assign_all (profile value : list num) : result (list num) :=
  if (length value =? length profile)%nat then Ok value
  else match value with
       | [x] => Ok (repeat x (length profile))
       | _ => Raise ValueError
       end.

(** [voigt_absorption(wavelengths, nhi, z_dla, num_lines, boardening)].
    [np.float(nhi)] is Python's [float(nhi)] (the alias of NumPy before
    1.24): [nhi] is already a number of the arithmetic. *)
Definition voigt_absorption (wavelengths : list num) (nhi z_dla : num)
                            (num_lines : Z) (boardening : bool)
  : result (list num) :=
  (* number of pixels within the input spectrum *)
  let num_points := Z.of_nat (length wavelengths) in
  (* initialize a profile *)
  profile <- np_zeros (num_points - 2 * width) ;;
  (* the multipliers for the relative velocity *)
  let multipliers :=
    map (fun tw => (c / (tw * (of_int 1 + z_dla)) / of_int 100000000)%num)
        (slice_to transition_wavelengths num_lines) in
  (* compute raw Voigt profile *)
  _ <- np_empty2 num_lines num_points ;;
  total <- total_rows wavelengths multipliers (seq 0 (Z.to_nat num_lines)) ;;
  let raw_profile :=
    map (fun s => np_exp (nhi * s)%num)
        (nansum_axis0 (length wavelengths) total) in
  if boardening then
    conv <- np_convolve_valid raw_profile instrument_profile ;;
    assign_all profile conv
  else Ok raw_profile.

(** The defaults [num_lines = 3], [boardening = True]. *)
Definition voigt_absorption_default (wavelengths : list num) (nhi z_dla : num)
  : result (list num) :=
  voigt_absorption wavelengths nhi z_dla 3 true.

(** *** The profile, pixel by pixel *)

Definition multiplier (z_dla tw : num) : num :=
  (c / (tw * (of_int 1 + z_dla)) / of_int 100000000)%num.

(** The contribution of transition [l] at observed wavelength [w]. *)
Definition line_term (z_dla : num) (l : nat) (w : num) : num :=
  let velocity :=
    (w * multiplier z_dla (nth l transition_wavelengths (of_int 0)) - c)%num in
  (- nth l leading_constants (of_int 0)
   * Voigt velocity sigma (nth l gammas (of_int 0)))%num.

(** The summed (negative) optical depth per unit column density. *)
Definition optical_depth (z_dla : num) (num_lines : nat) (w : num) : num :=
  fold_left (fun acc l => (acc + nan_to_zero (line_term z_dla l w))%num)
            (seq 0 num_lines) (of_int 0).

Definition raw_transmission (nhi z_dla : num) (num_lines : nat) (w : num) : num :=
  np_exp (nhi * optical_depth z_dla num_lines w)%num.

Lemma slice_to_length (k : Z) :
  (0 <= k <= 31)%Z -> length (slice_to transition_wavelengths k) = Z.to_nat k.
Proof.
  intros [H0 H1]. unfold slice_to.
  destruct (Z.ltb_spec k 0); [lia|].
  rewrite length_firstn, transition_wavelengths_length. lia.
Qed.

Lemma slice_to_length_le (k : Z) :
  (length (slice_to transition_wavelengths k) <= 31)%nat.
Proof.
  unfold slice_to.
  destruct (Z.ltb_spec k 0); rewrite length_firstn, transition_wavelengths_length; lia.
Qed.

Lemma slice_to_nth (k : Z) (l : nat) (d : num) :
  (0 <= k)%Z -> (l < Z.to_nat k)%nat ->
  nth l (slice_to transition_wavelengths k) d = nth l transition_wavelengths d.
Proof.
  intros H0 Hl. unfold slice_to.
  destruct (Z.ltb_spec k 0); [lia|].
  rewrite <- (firstn_skipn (Z.to_nat k) transition_wavelengths) at 2.
  destruct (Nat.le_gt_cases (length transition_wavelengths) (Z.to_nat k)) as [Hle|Hgt].
  - rewrite skipn_all2 by exact Hle. rewrite app_nil_r. reflexivity.
  - rewrite app_nth1; [reflexivity|]. rewrite length_firstn. lia.
Qed.

Lemma total_row_ok (wl : list num) (z_dla : num) (k : Z) (l : nat) :
  (0 <= k <= 31)%Z -> (l < Z.to_nat k)%nat ->
  total_row wl (map (multiplier z_dla) (slice_to transition_wavelengths k)) l
  = Ok (map (line_term z_dla l) wl).
Proof.
  intros Hk Hl. unfold total_row.
  rewrite (index_nth _ _ (multiplier z_dla (of_int 0)))
    by (rewrite length_map, slice_to_length; lia).
  rewrite (index_nth leading_constants _ (of_int 0))
    by (rewrite leading_constants_length; lia).
  rewrite (index_nth gammas _ (of_int 0))
    by (rewrite gammas_length; lia).
  cbn [bind]. f_equal. apply map_ext. intros w.
  unfold line_term. rewrite map_nth.
  rewrite slice_to_nth by lia. reflexivity.
Qed.

Lemma total_rows_ok (wl : list num) (z_dla : num) (k : Z) (ls : list nat) :
  (0 <= k <= 31)%Z -> Forall (fun l => (l < Z.to_nat k)%nat) ls ->
  total_rows wl (map (multiplier z_dla) (slice_to transition_wavelengths k)) ls
  = Ok (map (fun l => map (line_term z_dla l) wl) ls).
Proof.
  intros Hk H. induction H as [|l ls Hl _ IH]; [reflexivity|].
  cbn [total_rows map]. rewrite total_row_ok by assumption.
  cbn [bind]. rewrite IH. reflexivity.
Qed.

(** A line index past the 31 tabulated transitions is an [IndexError]. *)
Lemma total_rows_index_error (wl mult : list num) (ls : list nat) :
  (length mult <= 31)%nat -> In 31%nat ls ->
  exists e, total_rows wl mult ls = Raise e.
Proof.
  intros Hm. induction ls as [|l ls IH]; [intros []|].
  intros [->|Hin]; cbn [total_rows].
  - unfold total_row. rewrite index_out_of_range by lia.
    cbn [bind]. eauto.
  - destruct (total_row wl mult l); cbn [bind]; [|eauto].
    destruct (IH Hin) as [e ->]. cbn [bind]. eauto.
Qed.

Lemma add_row_map (wl : list num) (g f : num -> num) :
  add_row (map g wl) (map f wl)
  = map (fun w => (g w + nan_to_zero (f w))%num) wl.
Proof.
  unfold add_row. induction wl as [|w wl IH]; [reflexivity|].
  cbn [map combine fst snd]. f_equal. exact IH.
Qed.

Lemma fold_add_row_map (wl : list num) (f : nat -> num -> num) (ls : list nat) :
  forall g : num -> num,
    fold_left add_row (map (fun l => map (f l) wl) ls) (map g wl)
    = map (fun w => fold_left (fun acc l => (acc + nan_to_zero (f l w))%num) ls (g w)) wl.
Proof.
  induction ls as [|l ls IH]; intros g; [reflexivity|].
  cbn [map fold_left]. rewrite add_row_map. rewrite IH. reflexivity.
Qed.

Lemma repeat_map_const {A B : Type} (x : B) (l : list A) :
  repeat x (length l) = map (fun _ => x) l.
Proof. induction l as [|a l IH]; [reflexivity|]. cbn. f_equal. exact IH. Qed.

Lemma nansum_axis0_rows (wl : list num) (z_dla : num) (n : nat) :
  nansum_axis0 (length wl) (map (fun l => map (line_term z_dla l) wl) (seq 0 n))
  = map (optical_depth z_dla n) wl.
Proof.
  unfold nansum_axis0, optical_depth.
  rewrite repeat_map_const. apply fold_add_row_map.
Qed.

(** *** What [voigt_absorption] returns, case by case *)

Lemma voigt_absorption_short (wl : list num) (nhi z_dla : num) (nl : Z) (b : bool) :
  (length wl < 6)%nat -> voigt_absorption wl nhi z_dla nl b = Raise ValueError.
Proof.
  intros H. unfold voigt_absorption, np_zeros, width.
  destruct (Z.ltb_spec (Z.of_nat (length wl) - 2 * 3) 0); [reflexivity|lia].
Qed.

Lemma voigt_absorption_negative_lines (wl : list num) (nhi z_dla : num) (nl : Z) (b : bool) :
  (6 <= length wl)%nat -> (nl < 0)%Z ->
  voigt_absorption wl nhi z_dla nl b = Raise ValueError.
Proof.
  intros H Hn. unfold voigt_absorption, np_zeros, np_empty2, width.
  destruct (Z.ltb_spec (Z.of_nat (length wl) - 2 * 3) 0); [lia|].
  cbn [bind]. destruct (Z.ltb_spec nl 0); [reflexivity|lia].
Qed.

Lemma voigt_absorption_too_many_lines (wl : list num) (nhi z_dla : num) (nl : Z) (b : bool) :
  (6 <= length wl)%nat -> (31 < nl)%Z ->
  exists e, voigt_absorption wl nhi z_dla nl b = Raise e.
Proof.
  intros H Hn. unfold voigt_absorption, np_zeros, np_empty2, width.
  destruct (Z.ltb_spec (Z.of_nat (length wl) - 2 * 3) 0); [lia|].
  cbn [bind]. destruct (Z.ltb_spec nl 0); [lia|].
  destruct (Z.ltb_spec (Z.of_nat (length wl)) 0); [lia|].
  cbn [orb bind].
  destruct (total_rows_index_error wl
              (map (fun tw => (c / (tw * (of_int 1 + z_dla)) / of_int 100000000)%num)
                   (slice_to transition_wavelengths nl))
              (seq 0 (Z.to_nat nl))) as [e He].
  - rewrite length_map. apply slice_to_length_le.
  - apply in_seq. lia.
  - rewrite He. cbn [bind]. eauto.
Qed.

Lemma voigt_absorption_raw (wl : list num) (nhi z_dla : num) (nl : Z) :
  (6 <= length wl)%nat -> (0 <= nl <= 31)%Z ->
  voigt_absorption wl nhi z_dla nl false
  = Ok (map (raw_transmission nhi z_dla (Z.to_nat nl)) wl).
Proof.
  intros H Hn. unfold voigt_absorption, np_zeros, np_empty2, width.
  destruct (Z.ltb_spec (Z.of_nat (length wl) - 2 * 3) 0); [lia|].
  cbn [bind]. destruct (Z.ltb_spec nl 0); [lia|].
  destruct (Z.ltb_spec (Z.of_nat (length wl)) 0); [lia|].
  cbn [orb bind].
  change (map (fun tw => (c / (tw * (of_int 1 + z_dla)) / of_int 100000000)%num)
              (slice_to transition_wavelengths nl))
    with (map (multiplier z_dla) (slice_to transition_wavelengths nl)).
  rewrite total_rows_ok; [|assumption|].
  - cbn [bind]. rewrite nansum_axis0_rows, map_map. reflexivity.
  - apply Forall_forall. intros l Hl. apply in_seq in Hl. lia.
Qed.

Lemma correlate_valid_length (a v : list num) :
  (length v <= length a)%nat ->
  length (correlate_valid a v) = (length a - length v + 1)%nat.
Proof. intros _. unfold correlate_valid. rewrite length_map, length_seq. reflexivity. Qed.

Lemma voigt_absorption_broadened (wl : list num) (nhi z_dla : num) (nl : Z) :
  (7 <= length wl)%nat -> (0 <= nl <= 31)%Z ->
  voigt_absorption wl nhi z_dla nl true
  = Ok (correlate_valid (map (raw_transmission nhi z_dla (Z.to_nat nl)) wl)
                        (rev instrument_profile)).
Proof.
  intros H Hn.
  assert (Hraw := voigt_absorption_raw wl nhi z_dla nl ltac:(lia) Hn).
  unfold voigt_absorption in *.
  destruct (np_zeros (Z.of_nat (length wl) - 2 * width)) as [profile|] eqn:Ep;
    [|discriminate].
  cbn [bind] in *.
  destruct (np_empty2 nl (Z.of_nat (length wl))); [|discriminate].
  cbn [bind] in *.
  destruct (total_rows _ _ _) as [total|]; [|discriminate].
  cbn [bind] in *. injection Hraw as ->.
  unfold np_zeros, width in Ep.
  destruct (Z.ltb_spec (Z.of_nat (length wl) - 2 * 3) 0); [discriminate|].
  injection Ep as <-.
  unfold np_convolve_valid.
  rewrite length_map, instrument_profile_length.
  destruct (Nat.ltb_spec (length wl) 7); [lia|].
  destruct (map (raw_transmission nhi z_dla (Z.to_nat nl)) wl) as [|r0 raw] eqn:Er.
  { apply (f_equal (@length _)) in Er. rewrite length_map in Er. cbn in Er. lia. }
  destruct instrument_profile as [|k0 ks] eqn:Ek.
  { pose proof instrument_profile_length as Hk. rewrite Ek in Hk. discriminate. }
  cbn [bind]. unfold assign_all.
  rewrite correlate_valid_length, repeat_length.
  - rewrite length_rev, <- Ek, instrument_profile_length.
    rewrite <- Er, length_map.
    replace (length wl - 7 + 1)%nat with (Z.to_nat (Z.of_nat (length wl) - 2 * 3)) by lia.
    rewrite Nat.eqb_refl. reflexivity.
  - rewrite length_rev, <- Ek, instrument_profile_length, <- Er, length_map. lia.
Qed.

(** Six pixels with broadening: the convolution of the 7-tap kernel with the
    6-pixel profile has two entries, which do not fit the empty buffer. *)
Lemma voigt_absorption_six_broadened (wl : list num) (nhi z_dla : num) (nl : Z) :
  length wl = 6%nat -> (0 <= nl <= 31)%Z ->
  voigt_absorption wl nhi z_dla nl true = Raise ValueError.
Proof.
  intros H Hn.
  assert (Hraw := voigt_absorption_raw wl nhi z_dla nl ltac:(lia) Hn).
  unfold voigt_absorption in *.
  destruct (np_zeros (Z.of_nat (length wl) - 2 * width)) as [profile|] eqn:Ep;
    [|discriminate].
  cbn [bind] in *.
  destruct (np_empty2 nl (Z.of_nat (length wl))); [|discriminate].
  cbn [bind] in *.
  destruct (total_rows _ _ _) as [total|]; [|discriminate].
  cbn [bind] in *. injection Hraw as ->.
  unfold np_zeros, width in Ep. rewrite H in Ep. cbn in Ep. injection Ep as <-.
  unfold np_convolve_valid.
  rewrite length_map, instrument_profile_length, H. cbn [Nat.ltb Nat.leb].
  destruct instrument_profile as [|k0 ks] eqn:Ek.
  { pose proof instrument_profile_length as Hk. rewrite Ek in Hk. discriminate. }
  destruct (map (raw_transmission nhi z_dla (Z.to_nat nl)) wl) as [|r0 raw] eqn:Er.
  { apply (f_equal (@length _)) in Er. rewrite length_map in Er. cbn in Er. lia. }
  cbn [bind]. unfold assign_all.
  rewrite correlate_valid_length.
  - rewrite length_rev, <- Er, length_map, H, <- Ek, instrument_profile_length.
    cbn [Nat.sub Nat.add length Nat.eqb].
    unfold correlate_valid.
    rewrite length_rev, length_map, H, instrument_profile_length.
    reflexivity.
  - rewrite length_rev, <- Er, length_map, H, <- Ek, instrument_profile_length. lia.
Qed.

(** C10. Fewer than six pixels: [np.zeros((num_points - 2 * width))] is
    evaluated before anything else, so the call raises [ValueError] whatever
    [nhi], [z_dla], [num_lines] and [boardening] are, in every arithmetic. *)
Theorem voigt_absorption_raises_below_six_pixels :
  forall (wavelengths : list num) (nhi z_dla : num) (num_lines : Z)
         (boardening : bool),
    (length wavelengths < 6)%nat ->
    voigt_absorption wavelengths nhi z_dla num_lines boardening = Raise ValueError.
Proof. intros. apply voigt_absorption_short. assumption. Qed.

(** C5. Whenever [voigt_absorption] returns an array, its length is the
    input length minus 6 with broadening and the input length without; and
    it does return one for every input of at least 7 pixels (6 without
    broadening) and [0 <= num_lines <= 31]. *)
Theorem voigt_absorption_output_length :
  forall (wavelengths : list num) (nhi z_dla : num) (num_lines : Z)
         (boardening : bool),
    (forall profile,
        voigt_absorption wavelengths nhi z_dla num_lines boardening = Ok profile ->
        Z.of_nat (length profile)
        = (Z.of_nat (length wavelengths) - (if boardening then 2 * width else 0))%Z)
    /\
    ((0 <= num_lines <= 31)%Z ->
     ((if boardening then 7 else 6) <= length wavelengths)%nat ->
     exists profile,
       voigt_absorption wavelengths nhi z_dla num_lines boardening = Ok profile).
Proof.
  intros wl nhi z nl b. split.
  - intros profile H.
    destruct (Nat.lt_ge_cases (length wl) 6) as [Hs|Hs].
    { rewrite voigt_absorption_short in H by assumption. discriminate. }
    destruct (Z.lt_ge_cases nl 0) as [Hn|Hn].
    { rewrite voigt_absorption_negative_lines in H by assumption. discriminate. }
    destruct (Z.lt_ge_cases 31 nl) as [Hm|Hm].
    { destruct (voigt_absorption_too_many_lines wl nhi z nl b Hs Hm) as [e He].
      rewrite He in H. discriminate. }
    destruct b.
    + destruct (Nat.eq_dec (length wl) 6) as [H6|H6].
      { rewrite voigt_absorption_six_broadened in H by (assumption || lia).
        discriminate. }
      rewrite voigt_absorption_broadened in H by lia.
      injection H as <-.
      rewrite correlate_valid_length;
        rewrite length_rev, instrument_profile_length, length_map; unfold width; lia.
    + rewrite voigt_absorption_raw in H by lia.
      injection H as <-. rewrite length_map. lia.
  - intros Hn Hl. destruct b.
    + rewrite voigt_absorption_broadened by assumption. eauto.
    + rewrite voigt_absorption_raw by assumption. eauto.
Qed.

End Profile.

(* ------------------------------------------------------------------ *)
(** *** binary64: a vanishing column density, or no line at all *)

Lemma float_finite_cases (s : float) :
  is_finite s = true ->
  (exists b, Prim2SF s = S754_zero b) \/ (exists b m e, Prim2SF s = S754_finite b m e).
Proof.
  unfold is_finite, is_nan, is_infinity.
  rewrite !eqb_spec, abs_spec.
  destruct (Prim2SF s) as [b|b| |b m e]; cbn; intros H; try discriminate; eauto.
  destruct b; discriminate.
Qed.

Lemma float_zero_mul_finite (s : float) :
  is_finite s = true -> (0 * s = 0 \/ 0 * s = -0)%float.
Proof.
  intros H.
  assert (E : exists b, Prim2SF (0 * s) = S754_zero b).
  { rewrite mul_spec.
    destruct (float_finite_cases s H) as [[b ->]|[b [m [e ->]]]]; cbn; eauto. }
  destruct E as [[|] E]; [right|left]; apply Prim2SF_inj; rewrite E; reflexivity.
Qed.

Lemma float_mul_zero_finite (x : float) :
  is_finite x = true -> (x * 0 = 0 \/ x * 0 = -0)%float.
Proof.
  intros H.
  assert (E : exists b, Prim2SF (x * 0) = S754_zero b).
  { rewrite mul_spec.
    destruct (float_finite_cases x H) as [[b ->]|[b [m [e ->]]]]; cbn; eauto. }
  destruct E as [[|] E]; [right|left]; apply Prim2SF_inj; rewrite E; reflexivity.
Qed.

Lemma skipn_repeat_const {A : Type} (x : A) (n i : nat) :
  skipn i (repeat x n) = repeat x (n - i).
Proof.
  revert i. induction n as [|n IH]; intros [|i]; cbn; try reflexivity. apply IH.
Qed.

Lemma firstn_repeat_const {A : Type} (x : A) (n k : nat) :
  (k <= n)%nat -> firstn k (repeat x n) = repeat x k.
Proof.
  revert k. induction n as [|n IH]; intros [|k] H; cbn; try reflexivity; try lia.
  f_equal. apply IH. lia.
Qed.

(** The seven taps, accumulated from the left against a flat profile, round
    to exactly 1 in binary64. *)
Lemma dot_ones_instrument_profile :
  dot (N := FloatNum) (repeat 1%float 7) (rev (instrument_profile (num := float)))
  = 1%float.
Proof. vm_compute. reflexivity. Qed.

Lemma correlate_valid_ones (n : nat) :
  (7 <= n)%nat ->
  correlate_valid (N := FloatNum) (repeat 1%float n)
                  (rev (instrument_profile (num := float)))
  = repeat 1%float (n - 6).
Proof.
  intros H. unfold correlate_valid.
  rewrite length_rev, instrument_profile_length, repeat_length.
  replace (n - 7 + 1)%nat with (n - 6)%nat by lia.
  transitivity (map (fun _ : nat => 1%float) (seq 0 (n - 6))).
  2: { rewrite <- repeat_map_const, length_seq. reflexivity. }
  apply map_ext_in. intros i Hi. apply in_seq in Hi.
  rewrite skipn_repeat_const, firstn_repeat_const by lia.
  apply dot_ones_instrument_profile.
Qed.

Section Binary64.
Variable exp_f : float -> float.
Variable wofz_f : float -> float -> float.
Let float_special : Special float := FloatSpecial exp_f wofz_f.
Local Existing Instance float_special.

(** [np.exp] maps both zeros to 1. *)
Hypothesis exp_f_zero : exp_f 0%float = 1%float.
Hypothesis exp_f_neg_zero : exp_f (-0)%float = 1%float.

Lemma raw_transmission_nhi_zero (z_dla : float) (n : nat) (w : float) :
  is_finite (optical_depth z_dla n w) = true ->
  raw_transmission 0%float z_dla n w = 1%float.
Proof.
  intros H. unfold raw_transmission. cbn [np_exp float_special FloatSpecial nmul FloatNum].
  destruct (float_zero_mul_finite _ H) as [-> | ->]; assumption.
Qed.

Lemma raw_transmission_no_line (nhi z_dla w : float) :
  is_finite nhi = true ->
  raw_transmission nhi z_dla 0 w = 1%float.
Proof.
  intros H. unfold raw_transmission, optical_depth.
  cbn [seq fold_left np_exp float_special FloatSpecial nmul of_int FloatNum float_of_int].
  destruct (float_mul_zero_finite _ H) as [-> | ->]; assumption.
Qed.

Lemma unit_profile (wl : list float) (nhi z_dla : float) (nl : Z) (b : bool) :
  (0 <= nl <= 31)%Z ->
  ((if b then 7 else 6) <= length wl)%nat ->
  (forall w, In w wl -> raw_transmission nhi z_dla (Z.to_nat nl) w = 1%float) ->
  voigt_absorption wl nhi z_dla nl b
  = Ok (repeat 1%float (length wl - (if b then 6 else 0))).
Proof.
  intros Hn Hl Hraw.
  assert (E : map (raw_transmission nhi z_dla (Z.to_nat nl)) wl
              = repeat 1%float (length wl)).
  { rewrite repeat_map_const. apply map_ext_in. exact Hraw. }
  destruct b.
  - rewrite voigt_absorption_broadened by assumption.
    rewrite E, correlate_valid_ones by assumption. reflexivity.
  - rewrite voigt_absorption_raw by assumption.
    rewrite E, Nat.sub_0_r. reflexivity.
Qed.

Lemma unit_profile_whenever_returned (wl : list float) (nhi z_dla : float)
                                     (nl : Z) (b : bool) :
  (forall w, In w wl -> raw_transmission nhi z_dla (Z.to_nat nl) w = 1%float) ->
  forall profile,
    voigt_absorption wl nhi z_dla nl b = Ok profile ->
    Forall (fun t => t = 1%float) profile.
Proof.
  intros Hraw profile H.
  destruct (Nat.lt_ge_cases (length wl) 6) as [Hs|Hs].
  { rewrite voigt_absorption_short in H by assumption. discriminate. }
  destruct (Z.lt_ge_cases nl 0) as [Hn|Hn].
  { rewrite voigt_absorption_negative_lines in H by assumption. discriminate. }
  destruct (Z.lt_ge_cases 31 nl) as [Hm|Hm].
  { destruct (voigt_absorption_too_many_lines wl nhi z_dla nl b Hs Hm) as [e He].
    rewrite He in H. discriminate. }
  assert (Hl : ((if b then 7 else 6) <= length wl)%nat).
  { destruct b; [|exact Hs].
    destruct (Nat.eq_dec (length wl) 6) as [H6|H6]; [|lia].
    rewrite voigt_absorption_six_broadened in H by (assumption || lia).
    discriminate. }
  rewrite (unit_profile wl nhi z_dla nl b) in H by (assumption || lia).
  injection H as <-. apply Forall_forall. intros t Ht.
  apply repeat_spec in Ht. exact Ht.
Qed.

(** C6. In binary64, for every wavelength array, every [z_dla] and both
    settings of [boardening]:
    - with [nhi = 0], every pixel of a returned profile is exactly 1, as long
      as no optical depth is infinite or NaN;
    - with [num_lines = 0], every pixel of a returned profile is exactly 1,
      for every finite [nhi];
    and a profile is returned on every grid of at least 7 pixels (6 without
    broadening) for [0 <= num_lines <= 31]. *)
Theorem voigt_absorption_unit_transmission :
  forall (wavelengths : list float) (z_dla : float) (num_lines : Z)
         (boardening : bool),
    ((forall w, In w wavelengths ->
                is_finite (optical_depth z_dla (Z.to_nat num_lines) w) = true) ->
     (forall profile,
         voigt_absorption wavelengths 0%float z_dla num_lines boardening = Ok profile ->
         Forall (fun t => t = 1%float) profile) /\
     ((0 <= num_lines <= 31)%Z ->
      ((if boardening then 7 else 6) <= length wavelengths)%nat ->
      voigt_absorption wavelengths 0%float z_dla num_lines boardening
      = Ok (repeat 1%float (length wavelengths - (if boardening then 6 else 0)))))
    /\
    (forall nhi, is_finite nhi = true ->
       (forall profile,
           voigt_absorption wavelengths nhi z_dla 0 boardening = Ok profile ->
           Forall (fun t => t = 1%float) profile) /\
       (((if boardening then 7 else 6) <= length wavelengths)%nat ->
        voigt_absorption wavelengths nhi z_dla 0 boardening
        = Ok (repeat 1%float (length wavelengths - (if boardening then 6 else 0))))).
Proof.
  intros wl z nl b. split.
  - intros Hfin.
    assert (Hraw : forall w, In w wl ->
                             raw_transmission 0%float z (Z.to_nat nl) w = 1%float).
    { intros w Hw. apply raw_transmission_nhi_zero. apply Hfin. exact Hw. }
    split.
    + apply unit_profile_whenever_returned. exact Hraw.
    + intros Hn Hl. apply unit_profile; assumption.
  - intros nhi Hfin.
    assert (Hraw : forall w, In w wl ->
                             raw_transmission nhi z (Z.to_nat 0) w = 1%float).
    { intros w _. apply raw_transmission_no_line. exact Hfin. }
    split.
    + apply unit_profile_whenever_returned. exact Hraw.
    + intros Hl. apply unit_profile; try assumption. lia.
Qed.

End Binary64.

(** A polynomial stand-in for [np.exp] and a Lorentzian stand-in for [wofz],
    to run the binary64 reading on concrete pixels. *)
Definition exp_stand_in (x : float) : float := (1 + x + x * x / 2)%float.
Definition wofz_stand_in (a b : float) : float := (b / (a * a + b * b))%float.

Definition seven_pixels : list float :=
  [3640%float; 3640.8%float; 3641.6%float; 3642.4%float;
   3643.2%float; 3644%float; 3644.8%float].

Lemma voigt_absorption_unit_transmission_witness :
  voigt_absorption (S := FloatSpecial exp_stand_in wofz_stand_in)
                   seven_pixels 0%float 2%float 3 true = Ok [1%float]
  /\ voigt_absorption (S := FloatSpecial exp_stand_in wofz_stand_in)
                      seven_pixels 1e20%float 2%float 0 true = Ok [1%float].
Proof.
  pose proof (voigt_absorption_unit_transmission exp_stand_in wofz_stand_in
                eq_refl eq_refl seven_pixels 2%float 3 true) as [H0 _].
  pose proof (voigt_absorption_unit_transmission exp_stand_in wofz_stand_in
                eq_refl eq_refl seven_pixels 2%float 0 true) as [_ Hn].
  split.
  - apply H0.
    + intros w Hw. cbn in Hw.
      repeat (destruct Hw as [<-|Hw]; [vm_compute; reflexivity|]).
      destruct Hw.
    + lia.
    + cbn; lia.
  - apply (Hn 1e20%float).
    + vm_compute; reflexivity.
    + cbn; lia.
Defined.

(* ------------------------------------------------------------------ *)
(** *** exact reals: the profile as a function of the column density *)

Section ExactReals.
Variable wofz_r : R -> R -> R.
Let real_special : Special R := RealSpecial wofz_r.
Local Existing Instance real_special.
Local Open Scope R_scope.

(** The Voigt function is positive: [Re w(a + ib) > 0] on the upper half
    plane. *)
Hypothesis wofz_r_pos : forall a b : R, 0 < b -> 0 < wofz_r a b.

Lemma gammas_pos : Forall (fun g : R => 0 < g) gammas.
Proof. cbn. repeat (constructor; [lra|]). constructor. Qed.

Lemma leading_constants_pos : Forall (fun k : R => 0 < k) leading_constants.
Proof. cbn. repeat (constructor; [lra|]). constructor. Qed.

Lemma instrument_profile_pos : Forall (fun k : R => 0 < k) instrument_profile.
Proof. cbn. repeat (constructor; [lra|]). constructor. Qed.

Lemma sigma_pos : 0 < sigma.
Proof. cbn. lra. Qed.

Lemma Voigt_pos (x gamma : R) : 0 < gamma -> 0 < Voigt x sigma gamma.
Proof.
  intros Hg. unfold Voigt.
  cbn [np_sqrt np_pi wofz_re real_special RealSpecial nmul ndiv of_int RealNum].
  pose proof sigma_pos as Hs.
  assert (H2 : 0 < R_sqrt.sqrt 2) by (apply sqrt_lt_R0; lra).
  assert (Hp : 0 < R_sqrt.sqrt (2 * PI))
    by (apply sqrt_lt_R0; pose proof PI_RGT_0; lra).
  apply Rdiv_lt_0_compat.
  - apply wofz_r_pos. apply Rdiv_lt_0_compat; [assumption|].
    apply Rmult_lt_0_compat; assumption.
  - apply Rmult_lt_0_compat; assumption.
Qed.

Lemma Forall_nth_lt (P : R -> Prop) (l : list R) (i : nat) :
  Forall P l -> (i < length l)%nat -> P (nth i l 0).
Proof.
  intros H. revert i. induction H as [|x l Hx _ IH]; intros [|i] Hi; cbn in *;
    try lia; [assumption|apply IH; lia].
Qed.

Lemma line_term_neg (z_dla : R) (l : nat) (w : R) :
  (l < 31)%nat -> line_term z_dla l w < 0.
Proof.
  intros Hl. unfold line_term.
  cbn [nmul nopp nsub of_int RealNum].
  assert (Hk : 0 < nth l leading_constants 0).
  { apply Forall_nth_lt; [apply leading_constants_pos|].
    rewrite leading_constants_length. exact Hl. }
  assert (Hg : 0 < nth l gammas 0).
  { apply Forall_nth_lt; [apply gammas_pos|].
    rewrite gammas_length. exact Hl. }
  pose proof (Voigt_pos
                (w * multiplier z_dla (nth l transition_wavelengths 0) - c) _ Hg) as Hv.
  cbn [nmul nsub RealNum] in Hv. nra.
Qed.





Lemma firstn_skipn_map {A B : Type} (f : A -> B) (l : list A) (i k : nat) :
  firstn k (skipn i (map f l)) = map f (firstn k (skipn i l)).
Proof. rewrite skipn_map, firstn_map. reflexivity. Qed.






End ExactReals.

(** The Lyman-alpha centre of an absorber at redshift 0, on a 1 Angstrom
    grid of seven pixels. *)
Definition lya_grid : list R :=
  [1212.6701; 1213.6701; 1214.6701; 1215.6701; 1216.6701; 1217.6701; 1218.6701]%R.


(** Over the reals the seven taps as written do not sum to 1 but to
    [1 - 5.038e-17]: with [nhi = 0] the unbroadened profile is exactly 1 and
    the broadened one is that sum at every pixel.  The exact 1 of the
    broadened profile is a fact of binary64 rounding
    ([dot_ones_instrument_profile]). *)
Lemma instrument_profile_sum_real :
  dot (N := RealNum) (repeat 1%R 7) (rev (instrument_profile (num := R)))
  = 0.99999999999999994962%R.
Proof.
  unfold dot. cbn [instrument_profile RealTables rev app repeat combine fold_left
                   fst snd nadd nmul of_int RealNum].
  lra.
Qed.

Lemma voigt_absorption_nhi_zero_real (wofz_r : R -> R -> R) (wl : list R)
                                     (z_dla : R) (nl : Z) :
  (0 <= nl <= 31)%Z ->
  ((6 <= length wl)%nat ->
   voigt_absorption (S := RealSpecial wofz_r) wl 0%R z_dla nl false
   = Ok (repeat 1%R (length wl))) /\
  ((7 <= length wl)%nat ->
   voigt_absorption (S := RealSpecial wofz_r) wl 0%R z_dla nl true
   = Ok (repeat 0.99999999999999994962%R (length wl - 6))).
Proof.
  intros Hn.
  assert (E : map (raw_transmission (S := RealSpecial wofz_r) 0%R z_dla (Z.to_nat nl)) wl
              = repeat 1%R (length wl)).
  { rewrite repeat_map_const. apply map_ext. intros w.
    unfold raw_transmission. cbn [np_exp RealSpecial nmul RealNum].
    rewrite Rmult_0_l. apply exp_0. }
  split; intros Hl.
  - rewrite voigt_absorption_raw by assumption. rewrite E. reflexivity.
  - rewrite voigt_absorption_broadened by assumption. rewrite E.
    unfold correlate_valid.
    rewrite length_rev, instrument_profile_length, repeat_length.
    replace (length wl - 7 + 1)%nat with (length wl - 6)%nat by lia.
    f_equal.
    transitivity (map (fun _ : nat => 0.99999999999999994962%R)
                      (seq 0 (length wl - 6))).
    2: { rewrite <- repeat_map_const, length_seq. reflexivity. }
    apply map_ext_in. intros i Hi. apply in_seq in Hi.
    rewrite skipn_repeat_const, firstn_repeat_const by lia.
    apply instrument_profile_sum_real.
Qed.

(** In binary64 the order of accumulation does not matter for this sum:
    from the right it is 1 as well. *)
Example instrument_profile_sum_binary64_from_right :
  fold_right (fun k acc => (acc + 1 * k)%float) 0%float
             (instrument_profile (num := float))
  = 1%float.
Proof. vm_compute. reflexivity. Qed.

(** A positive stand-in for the Faddeeva function, to run the real reading. *)
Definition wofz_lorentz (a b : R) : R := (b / (a * a + b * b))%R.

Lemma wofz_lorentz_pos (a b : R) : (0 < b)%R -> (0 < wofz_lorentz a b)%R.
Proof.
  intros Hb. unfold wofz_lorentz. apply Rdiv_lt_0_compat; [assumption|nra].
Qed.


Lemma voigt_absorption_raises_below_six_pixels_witness :
  voigt_absorption (S := FloatSpecial exp_stand_in wofz_stand_in)
                   [3640%float; 3640.8%float; 3641.6%float]
                   1e20%float 2%float 3 false
  = Raise ValueError.
Proof.
  exact (voigt_absorption_raises_below_six_pixels
           (S := FloatSpecial exp_stand_in wofz_stand_in)
           [3640%float; 3640.8%float; 3641.6%float] 1e20%float 2%float 3 false
           ltac:(cbn; lia)).
Defined.

(** The lengths on concrete grids in binary64: seven pixels give one with
    broadening and seven without; six pixels give six without broadening and
    an error with it; five pixels give an error either way. *)
Example voigt_absorption_binary64_lengths :
  let S := FloatSpecial exp_stand_in wofz_stand_in in
  let six := firstn 6 seven_pixels in
  let five := firstn 5 seven_pixels in
  (exists t, voigt_absorption (S := S) seven_pixels 1e12%float 2%float 3 true = Ok [t]) /\
  (exists p, voigt_absorption (S := S) seven_pixels 1e12%float 2%float 3 false = Ok p
             /\ length p = 7%nat) /\
  (exists p, voigt_absorption (S := S) six 1e12%float 2%float 3 false = Ok p
             /\ length p = 6%nat) /\
  voigt_absorption (S := S) six 1e12%float 2%float 3 true = Raise ValueError /\
  voigt_absorption (S := S) five 1e12%float 2%float 3 true = Raise ValueError /\
  voigt_absorption (S := S) five 1e12%float 2%float 3 false = Raise ValueError /\
  voigt_absorption (S := S) seven_pixels 1e12%float 2%float 32 false = Raise IndexError /\
  voigt_absorption (S := S) seven_pixels 1e12%float 2%float (-1) false = Raise ValueError.
Proof.
  cbv zeta. repeat split; try (vm_compute; reflexivity);
    eexists; try split; vm_compute; reflexivity.
Qed.

(* ------------------------------------------------------------------ *)
(** *** Further behaviour of [voigt_absorption]: errors *)

Section ProfileErrors.
Context {num : Type} {N : Num num} {S : Special num} {T : Tables num}.

Lemma slice_to_saturates (k : Z) :
  (31 <= k)%Z -> slice_to transition_wavelengths k = slice_to transition_wavelengths 31.
Proof.
  intros H. unfold slice_to.
  destruct (Z.ltb_spec k 0); [lia|]. cbn [Z.ltb Z.compare].
  rewrite !firstn_all2 by (rewrite transition_wavelengths_length; lia).
  reflexivity.
Qed.

Lemma total_rows_then_raise (wl mult : list num) (l : nat) (e : exn)
                            (ls1 ls2 : list nat) :
  forall rows,
    total_rows wl mult ls1 = Ok rows ->
    total_row wl mult l = Raise e ->
    total_rows wl mult (ls1 ++ l :: ls2) = Raise e.
Proof.
  induction ls1 as [|l1 ls1 IH]; intros rows Hrows Hl; cbn [app total_rows].
  - rewrite Hl. reflexivity.
  - cbn [total_rows] in Hrows.
    destruct (total_row wl mult l1) as [row|]; cbn [bind] in *; [|discriminate].
    destruct (total_rows wl mult ls1) as [rest|] eqn:E; cbn [bind] in *;
      [|discriminate].
    rewrite (IH rest eq_refl Hl). reflexivity.
Qed.

Lemma voigt_absorption_index_error (wl : list num) (nhi z_dla : num) (nl : Z)
                                   (b : bool) :
  (6 <= length wl)%nat -> (31 < nl)%Z ->
  voigt_absorption wl nhi z_dla nl b = Raise IndexError.
Proof.
  intros H Hn. unfold voigt_absorption, np_zeros, np_empty2, width.
  destruct (Z.ltb_spec (Z.of_nat (length wl) - 2 * 3) 0); [lia|].
  cbn [bind]. destruct (Z.ltb_spec nl 0); [lia|].
  destruct (Z.ltb_spec (Z.of_nat (length wl)) 0); [lia|].
  cbn [orb bind].
  change (map (fun tw => (c / (tw * (of_int 1 + z_dla)) / of_int 100000000)%num)
              (slice_to transition_wavelengths nl))
    with (map (multiplier z_dla) (slice_to transition_wavelengths nl)).
  rewrite slice_to_saturates by lia.
  replace (seq 0 (Z.to_nat nl))
    with (seq 0 31 ++ 31%nat :: seq 32 (Z.to_nat nl - 32)).
  2: { change (31%nat :: seq 32 (Z.to_nat nl - 32))
         with (seq 31 (Datatypes.S (Z.to_nat nl - 32))).
       rewrite <- seq_app. f_equal. lia. }
  rewrite (total_rows_then_raise wl
             (map (multiplier z_dla) (slice_to transition_wavelengths 31))
             31 IndexError (seq 0 31) (seq 32 (Z.to_nat nl - 32))
             (map (fun l => map (line_term z_dla l) wl) (seq 0 31))).
  - reflexivity.
  - apply total_rows_ok; [lia|].
    apply Forall_forall. intros l Hl. apply in_seq in Hl. lia.
  - unfold total_row. rewrite index_out_of_range; [reflexivity|].
    rewrite length_map, slice_to_length by lia. lia.
Qed.


(** X2. On a grid of at least six pixels, a negative [num_lines] raises
    [ValueError] (the shape of [total]) and a [num_lines] above 31 raises
    [IndexError] (line 31 is past the tables), with or without broadening
    and whatever [nhi] and [z_dla] are. *)
Theorem voigt_absorption_num_lines_out_of_range :
  forall (wavelengths : list num) (nhi z_dla : num) (num_lines : Z)
         (boardening : bool),
    (6 <= length wavelengths)%nat ->
    ((num_lines < 0)%Z ->
     voigt_absorption wavelengths nhi z_dla num_lines boardening = Raise ValueError)
    /\
    ((31 < num_lines)%Z ->
     voigt_absorption wavelengths nhi z_dla num_lines boardening = Raise IndexError).
Proof.
  intros wl nhi z nl b H. split; intros Hn.
  - apply voigt_absorption_negative_lines; assumption.
  - apply voigt_absorption_index_error; assumption.
Qed.

End ProfileErrors.


Lemma voigt_absorption_num_lines_out_of_range_witness :
  let S := FloatSpecial exp_stand_in wofz_stand_in in
  voigt_absorption (S := S) seven_pixels 1e20%float 2%float (-1) true
  = Raise ValueError /\
  voigt_absorption (S := S) seven_pixels 1e20%float 2%float 32 false
  = Raise IndexError.
Proof.
  split.
  - apply (proj1 (voigt_absorption_num_lines_out_of_range
                    (S := FloatSpecial exp_stand_in wofz_stand_in)
                    seven_pixels 1e20%float 2%float (-1) true
                    ltac:(cbn; lia))).
    lia.
  - apply (proj2 (voigt_absorption_num_lines_out_of_range
                    (S := FloatSpecial exp_stand_in wofz_stand_in)
                    seven_pixels 1e20%float 2%float 32 false
                    ltac:(cbn; lia))).
    lia.
Defined.

(* ------------------------------------------------------------------ *)
(** *** Further behaviour over the reals: the line shapes *)

Section LineShapes.
(** Neither function calls [wofz]. *)
Variable wofz_r : R -> R -> R.
Let shapes_special : Special R := RealSpecial wofz_r.
Local Existing Instance shapes_special.
Local Open Scope R_scope.

Lemma Lorentzian_real (x gamma : R) :
  Lorentzian x gamma = gamma / PI / (x * x + gamma * gamma).
Proof. reflexivity. Qed.

Lemma Gaussian_real (x sigma : R) :
  Gaussian x sigma
  = 1 / R_sqrt.sqrt (2 * PI * (sigma * sigma))
    * Rtrigo_def.exp (- (x * x) / 2 / (sigma * sigma)).
Proof. reflexivity. Qed.

(** X3. For a positive width [gamma] the Lorentzian is an even function of
    [x], positive everywhere, and nowhere above its value at the line
    centre, [1 / (pi * gamma)]. *)
Theorem Lorentzian_even_positive_peaked :
  forall x gamma : R,
    0 < gamma ->
    Lorentzian (- x) gamma = Lorentzian x gamma /\
    0 < Lorentzian x gamma /\
    Lorentzian x gamma <= Lorentzian 0 gamma /\
    Lorentzian 0 gamma = 1 / (PI * gamma).
Proof.
  intros x g Hg. rewrite !Lorentzian_real.
  pose proof PI_RGT_0 as Hpi.
  assert (Hd : 0 < x * x + g * g) by nra.
  assert (Hgg : 0 < g * g) by nra.
  assert (H0 : 0 < g / PI) by (apply Rdiv_lt_0_compat; assumption).
  split; [|split; [|split]].
  - f_equal. ring.
  - apply Rdiv_lt_0_compat; assumption.
  - replace (0 * 0 + g * g) with (g * g) by ring.
    unfold Rdiv at 1 3. apply Rmult_le_compat_l; [lra|].
    apply Rinv_le_contravar; nra.
  - field. split; lra.
Qed.

(** X4. For a non-zero width [sigma] the Gaussian is even in [x], does not
    depend on the sign of [sigma], is positive everywhere, and is nowhere
    above its value at the centre, [1 / sqrt(2 pi sigma^2)]. *)
Theorem Gaussian_even_positive_peaked :
  forall x sigma : R,
    sigma <> 0 ->
    Gaussian (- x) sigma = Gaussian x sigma /\
    Gaussian x (- sigma) = Gaussian x sigma /\
    0 < Gaussian x sigma /\
    Gaussian x sigma <= Gaussian 0 sigma /\
    Gaussian 0 sigma = 1 / R_sqrt.sqrt (2 * PI * (sigma * sigma)).
Proof.
  intros x s Hs. rewrite !Gaussian_real.
  pose proof PI_RGT_0 as Hpi.
  assert (Hss : 0 < s * s) by nra.
  assert (Hq : 0 < R_sqrt.sqrt (2 * PI * (s * s))).
  { apply sqrt_lt_R0. apply Rmult_lt_0_compat; [lra|assumption]. }
  assert (Hn : 0 < 1 / R_sqrt.sqrt (2 * PI * (s * s))).
  { apply Rdiv_lt_0_compat; [lra|assumption]. }
  split; [|split; [|split; [|split]]].
  - replace (- x * - x) with (x * x) by ring. reflexivity.
  - replace (- s * - s) with (s * s) by ring. reflexivity.
  - apply Rmult_lt_0_compat; [assumption|apply exp_pos].
  - apply Rmult_le_compat_l; [lra|].
    replace (- (0 * 0) / 2 / (s * s)) with 0 by (field; lra).
    destruct (Req_dec x 0) as [->|Hx].
    + replace (- (0 * 0) / 2 / (s * s)) with 0 by (field; lra). lra.
    + left. apply exp_increasing.
      assert (Hxx : 0 < x * x) by nra.
      assert (Hpos : 0 < x * x / 2 / (s * s)).
      { apply Rdiv_lt_0_compat; [|assumption]. lra. }
      replace (- (x * x) / 2 / (s * s)) with (- (x * x / 2 / (s * s)))
        by (field; lra).
      lra.
  - replace (- (0 * 0) / 2 / (s * s)) with 0 by (field; lra).
    rewrite exp_0. ring.
Qed.

End LineShapes.

Lemma Lorentzian_even_positive_peaked_witness :
  let S := RealSpecial (fun _ _ => 1%R) in
  (Lorentzian (S := S) (- 3) 2 = Lorentzian (S := S) 3 2 /\
   0 < Lorentzian (S := S) 3 2 /\
   Lorentzian (S := S) 3 2 <= Lorentzian (S := S) 0 2 /\
   Lorentzian (S := S) 0 2 = 1 / (PI * 2))%R.
Proof.
  exact (Lorentzian_even_positive_peaked (fun _ _ => 1%R) 3%R 2%R ltac:(lra)).
Defined.

Lemma Gaussian_even_positive_peaked_witness :
  let S := RealSpecial (fun _ _ => 1%R) in
  (Gaussian (S := S) (- 3) 2 = Gaussian (S := S) 3 2 /\
   Gaussian (S := S) 3 (- 2) = Gaussian (S := S) 3 2 /\
   0 < Gaussian (S := S) 3 2 /\
   Gaussian (S := S) 3 2 <= Gaussian (S := S) 0 2 /\
   Gaussian (S := S) 0 2 = 1 / R_sqrt.sqrt (2 * PI * (2 * 2)))%R.
Proof.
  exact (Gaussian_even_positive_peaked (fun _ _ => 1%R) 3%R 2%R ltac:(lra)).
Defined.

(* ------------------------------------------------------------------ *)
(** *** Further behaviour over the reals: the profile *)

Section ExactProfile.
Variable wofz_r : R -> R -> R.
Let profile_special : Special R := RealSpecial wofz_r.
Local Existing Instance profile_special.
Local Open Scope R_scope.

Lemma optical_depth_succ (z_dla : R) (n : nat) (w : R) :
  optical_depth z_dla (Datatypes.S n) w
  = optical_depth z_dla n w + line_term z_dla n w.
Proof.
  unfold optical_depth. rewrite seq_S, fold_left_app. reflexivity.
Qed.

Lemma raw_transmission_real (nhi z_dla : R) (n : nat) (w : R) :
  raw_transmission nhi z_dla n w
  = Rtrigo_def.exp (nhi * optical_depth z_dla n w).
Proof. reflexivity. Qed.

Lemma exp_le_mono (x y : R) : x <= y -> Rtrigo_def.exp x <= Rtrigo_def.exp y.
Proof.
  intros [H| ->]; [left; apply exp_increasing; exact H|right; reflexivity].
Qed.

Lemma dot_map_le (f1 f2 : R -> R) :
  (forall w, f2 w <= f1 w) ->
  forall (l v : list R) (acc1 acc2 : R),
    Forall (fun k => 0 < k) v -> acc2 <= acc1 ->
    fold_left (fun a xy => (a + fst xy * snd xy)%num) (combine (map f2 l) v) acc2
    <= fold_left (fun a xy => (a + fst xy * snd xy)%num) (combine (map f1 l) v) acc1.
Proof.
  intros Hf. induction l as [|w l IH]; intros v acc1 acc2 Hv Hacc; [exact Hacc|].
  destruct v as [|k v]; [exact Hacc|].
  inversion Hv as [|? ? Hk Hv']; subst.
  cbn [map combine fold_left fst snd]. apply IH; [assumption|].
  cbn [nadd nmul RealNum]. pose proof (Hf w). nra.
Qed.

Lemma correlate_valid_le (f1 f2 : R -> R) (wl : list R) :
  (forall w, f2 w <= f1 w) ->
  Forall2 (fun t1 t2 => t2 <= t1)
          (correlate_valid (map f1 wl) (rev instrument_profile))
          (correlate_valid (map f2 wl) (rev instrument_profile)).
Proof.
  intros Hf. unfold correlate_valid. rewrite !length_map.
  induction (seq 0 (length wl - length (rev instrument_profile) + 1))
    as [|i rest IH]; cbn [map]; constructor; [|exact IH].
  rewrite !firstn_skipn_map. unfold dot. apply dot_map_le.
  - exact Hf.
  - apply Forall_rev. apply instrument_profile_pos.
  - cbn. lra.
Qed.

Lemma map_le (f1 f2 : R -> R) (wl : list R) :
  (forall w, f2 w <= f1 w) ->
  Forall2 (fun t1 t2 => t2 <= t1) (map f1 wl) (map f2 wl).
Proof.
  intros Hf. induction wl as [|w wl IH]; cbn; constructor; [apply Hf|exact IH].
Qed.

Lemma Forall2_map_same {A : Type} (P : R -> R -> Prop) (g1 g2 : A -> R)
                       (l : list A) :
  (forall a, In a l -> P (g1 a) (g2 a)) -> Forall2 P (map g1 l) (map g2 l).
Proof.
  induction l as [|a l IH]; intros H; cbn; constructor.
  - apply H. left. reflexivity.
  - apply IH. intros b Hb. apply H. right. exact Hb.
Qed.

(** X6. Over the reals the unbroadened profile is multiplicative in the
    column density: at every pixel the transmission for [nhi1 + nhi2] is the
    product of the transmissions for [nhi1] and for [nhi2] (same redshift,
    same lines). *)
Theorem voigt_absorption_multiplicative_in_nhi :
  forall (wavelengths : list R) (z_dla : R) (num_lines : Z) (nhi1 nhi2 : R),
    (6 <= length wavelengths)%nat ->
    (0 <= num_lines <= 31)%Z ->
    exists p1 p2 p12,
      voigt_absorption wavelengths nhi1 z_dla num_lines false = Ok p1 /\
      voigt_absorption wavelengths nhi2 z_dla num_lines false = Ok p2 /\
      voigt_absorption wavelengths (nhi1 + nhi2) z_dla num_lines false = Ok p12 /\
      length p12 = length wavelengths /\
      forall i t1 t2,
        nth_error p1 i = Some t1 -> nth_error p2 i = Some t2 ->
        nth_error p12 i = Some (t1 * t2).
Proof.
  intros wl z nl nhi1 nhi2 Hl Hn.
  rewrite !voigt_absorption_raw by assumption.
  do 3 eexists. repeat split.
  - apply length_map.
  - intros i t1 t2. rewrite !nth_error_map.
    destruct (nth_error wl i) as [w|]; cbn [option_map]; [|discriminate].
    intros H1 H2. injection H1 as <-. injection H2 as <-.
    rewrite !raw_transmission_real.
    rewrite Rmult_plus_distr_r, exp_plus. reflexivity.
Qed.

(** The Voigt function is positive: [Re w(a + ib) > 0] on the upper half
    plane. *)
Hypothesis wofz_r_pos : forall a b : R, 0 < b -> 0 < wofz_r a b.


Lemma optical_depth_decreasing (z_dla : R) (n1 n2 : nat) (w : R) :
  (n1 <= n2 <= 31)%nat -> optical_depth z_dla n2 w <= optical_depth z_dla n1 w.
Proof.
  intros [H12 H2]. induction H12 as [|n2 H12 IH]; [lra|].
  rewrite optical_depth_succ.
  pose proof (line_term_neg wofz_r wofz_r_pos z_dla n2 w ltac:(lia)).
  specialize (IH ltac:(lia)). unfold profile_special in *. lra.
Qed.




(** X7. Over the reals, for a non-negative column density, taking more
    Lyman-series lines into account never raises the transmission: with
    [num_lines1 <= num_lines2 <= 31] every pixel of the profile for
    [num_lines2] is at most the same pixel for [num_lines1]. *)
Theorem voigt_absorption_decreasing_in_num_lines :
  forall (wavelengths : list R) (nhi z_dla : R) (num_lines1 num_lines2 : Z)
         (boardening : bool),
    (0 <= num_lines1 <= num_lines2)%Z -> (num_lines2 <= 31)%Z ->
    ((if boardening then 7 else 6) <= length wavelengths)%nat ->
    0 <= nhi ->
    exists profile1 profile2,
      voigt_absorption wavelengths nhi z_dla num_lines1 boardening = Ok profile1 /\
      voigt_absorption wavelengths nhi z_dla num_lines2 boardening = Ok profile2 /\
      Forall2 (fun t1 t2 => t2 <= t1) profile1 profile2.
Proof.
  intros wl nhi z nl1 nl2 b H12 H2 Hl Hnhi.
  assert (Hraw : forall w,
             raw_transmission nhi z (Z.to_nat nl2) w
             <= raw_transmission nhi z (Z.to_nat nl1) w).
  { intros w. rewrite !raw_transmission_real. apply exp_le_mono.
    pose proof (optical_depth_decreasing z (Z.to_nat nl1) (Z.to_nat nl2) w
                                         ltac:(lia)).
    nra. }
  destruct b.
  - rewrite !voigt_absorption_broadened by (assumption || lia).
    do 2 eexists. repeat split. apply correlate_valid_le. exact Hraw.
  - rewrite !voigt_absorption_raw by (assumption || lia).
    do 2 eexists. repeat split. apply map_le. exact Hraw.
Qed.

End ExactProfile.

Lemma voigt_absorption_multiplicative_in_nhi_witness :
  exists p1 p2 p12,
    voigt_absorption (S := RealSpecial wofz_lorentz) lya_grid 1%R 0%R 3 false
    = Ok p1 /\
    voigt_absorption (S := RealSpecial wofz_lorentz) lya_grid 2%R 0%R 3 false
    = Ok p2 /\
    voigt_absorption (S := RealSpecial wofz_lorentz) lya_grid (1 + 2)%R 0%R 3 false
    = Ok p12 /\
    length p12 = length lya_grid /\
    forall i t1 t2,
      nth_error p1 i = Some t1 -> nth_error p2 i = Some t2 ->
      nth_error p12 i = Some (t1 * t2)%R.
Proof.
  exact (voigt_absorption_multiplicative_in_nhi
           wofz_lorentz lya_grid 0%R 3 1%R 2%R ltac:(cbn; lia) ltac:(lia)).
Defined.


Lemma voigt_absorption_decreasing_in_num_lines_witness :
  exists profile1 profile2,
    voigt_absorption (S := RealSpecial wofz_lorentz) lya_grid 1%R 0%R 1 true
    = Ok profile1 /\
    voigt_absorption (S := RealSpecial wofz_lorentz) lya_grid 1%R 0%R 3 true
    = Ok profile2 /\
    Forall2 (fun t1 t2 => (t2 <= t1)%R) profile1 profile2.
Proof.
  exact (voigt_absorption_decreasing_in_num_lines
           wofz_lorentz wofz_lorentz_pos lya_grid 1%R 0%R 1 3 true
           ltac:(lia) ltac:(lia) ltac:(cbn; lia) ltac:(lra)).
Defined.

(* ------------------------------------------------------------------ *)
(** *** binary64: a pixel whose wavelength is NaN *)

Lemma float_is_nan_eq (x : float) : PrimFloat.is_nan x = true -> x = nan.
Proof.
  intros H. apply Prim2SF_inj. revert H.
  unfold PrimFloat.is_nan. rewrite eqb_spec.
  destruct (Prim2SF x) as [b|b| |b m e]; cbn.
  - discriminate.
  - destruct b; discriminate.
  - reflexivity.
  - unfold SFeqb, SFcompare. rewrite Z.compare_refl, Pos.compare_refl.
    destruct b; cbn; discriminate.
Qed.

Lemma float_nan_mul_l (y : float) : (nan * y)%float = nan.
Proof. apply Prim2SF_inj. rewrite mul_spec. reflexivity. Qed.

Lemma float_nan_mul_r (y : float) : (y * nan)%float = nan.
Proof.
  apply Prim2SF_inj. rewrite mul_spec. destruct (Prim2SF y); reflexivity.
Qed.

Lemma float_nan_sub_l (y : float) : (nan - y)%float = nan.
Proof. apply Prim2SF_inj. rewrite sub_spec. reflexivity. Qed.

Lemma float_nan_div_l (y : float) : (nan / y)%float = nan.
Proof. apply Prim2SF_inj. rewrite div_spec. reflexivity. Qed.

Lemma float_nan_div_r (y : float) : (y / nan)%float = nan.
Proof.
  apply Prim2SF_inj. rewrite div_spec. destruct (Prim2SF y); reflexivity.
Qed.

Lemma float_nan_add_l (y : float) : (nan + y)%float = nan.
Proof. apply Prim2SF_inj. rewrite add_spec. reflexivity. Qed.

Section Binary64NaN.
Variable exp_f : float -> float.
Variable wofz_f : float -> float -> float.
Let nan_special : Special float := FloatSpecial exp_f wofz_f.
Local Existing Instance nan_special.

(** [np.exp] maps both zeros to 1, and [wofz] of a NaN is a NaN. *)
Hypothesis exp_f_zero : exp_f 0%float = 1%float.
Hypothesis exp_f_neg_zero : exp_f (-0)%float = 1%float.
Hypothesis wofz_f_nan : forall b : float, wofz_f nan b = nan.

Lemma line_term_nan (z_dla : float) (l : nat) :
  line_term z_dla l nan = nan.
Proof.
  unfold line_term, Voigt.
  cbn [nmul nsub ndiv nopp wofz_re nan_special FloatSpecial FloatNum].
  rewrite float_nan_mul_l, float_nan_sub_l, float_nan_div_l, wofz_f_nan,
    float_nan_div_l, float_nan_mul_r.
  reflexivity.
Qed.

Lemma optical_depth_nan (z_dla : float) (n : nat) :
  optical_depth z_dla n nan = 0%float.
Proof.
  unfold optical_depth.
  assert (H : forall ls,
             fold_left (fun acc l => (acc + nan_to_zero (line_term z_dla l nan))%num)
                       ls 0%float = 0%float).
  { induction ls as [|l ls IH]; [reflexivity|].
    cbn [fold_left]. rewrite line_term_nan.
    replace (nadd 0%float (nan_to_zero nan)) with 0%float by reflexivity.
    exact IH. }
  apply H.
Qed.

(** X28. A pixel whose wavelength is NaN comes out fully transmitted:
    every line's optical depth is NaN there, [np.nansum] counts it as zero,
    and for a finite column density the unbroadened profile is exactly 1 at
    that pixel. *)
Theorem voigt_absorption_nan_pixel_is_transparent :
  forall (wavelengths : list float) (nhi z_dla : float) (num_lines : Z)
         (i : nat) (w : float),
    (6 <= length wavelengths)%nat ->
    (0 <= num_lines <= 31)%Z ->
    is_finite nhi = true ->
    nth_error wavelengths i = Some w ->
    PrimFloat.is_nan w = true ->
    exists profile,
      voigt_absorption wavelengths nhi z_dla num_lines false = Ok profile /\
      nth_error profile i = Some 1%float.
Proof.
  intros wl nhi z nl i w Hl Hn Hfin Hw Hnan.
  rewrite voigt_absorption_raw by assumption.
  eexists. split; [reflexivity|].
  rewrite nth_error_map, Hw. cbn [option_map]. f_equal.
  rewrite (float_is_nan_eq w Hnan).
  unfold raw_transmission. rewrite optical_depth_nan.
  cbn [np_exp nan_special FloatSpecial nmul FloatNum].
  destruct (float_mul_zero_finite _ Hfin) as [-> | ->]; assumption.
Qed.

End Binary64NaN.

Lemma wofz_stand_in_nan (b : float) : wofz_stand_in nan b = nan.
Proof.
  unfold wofz_stand_in. rewrite float_nan_mul_l, float_nan_add_l.
  apply float_nan_div_r.
Qed.

Lemma voigt_absorption_nan_pixel_is_transparent_witness :
  exists profile,
    voigt_absorption (S := FloatSpecial exp_stand_in wofz_stand_in)
                     (nan :: seven_pixels) 1e20%float 2%float 3 false
    = Ok profile /\
    nth_error profile 0 = Some 1%float.
Proof.
  exact (voigt_absorption_nan_pixel_is_transparent
           exp_stand_in wofz_stand_in eq_refl eq_refl wofz_stand_in_nan
           (nan :: seven_pixels) 1e20%float 2%float 3 0 nan
           ltac:(cbn; lia) ltac:(lia) eq_refl eq_refl eq_refl).
Defined.

End Voigt.

(* ================================================================== *)
(** ** dlasearch.py *)

Module DlaSearch.

(** What [process_spectra_group] reads from [constants.py] and from
    [fitwarning.DLAFLAG]. *)
Class Constants (num : Type) : Type := {
  c : num;                               (* constants.c *)
  search_minlam : num;
  search_maxlam : num;
  Lya_line : num;
  bal_lines : list (string * num);       (* name -> rest wavelength, in order *)
  POTENTIAL_BAL : Z;                     (* DLAFLAG.POTENTIAL_BAL *)
}.

(** One row of the catalog.  [NCIV_450], [VMAX_CIV_450] and [VMIN_CIV_450]
    are read only when the catalog has the column ["NCIV_450"]. *)
Record CatalogEntry (num : Type) : Type := {
  TARGETID : Z;
  TARGET_RA : num;
  TARGET_DEC : num;
  Z_QSO : num;                           (* catalog["Z"] *)
  NCIV_450 : Z;
  VMAX_CIV_450 : list num;
  VMIN_CIV_450 : list num;
}.
Arguments TARGETID {num}.
Arguments TARGET_RA {num}.
Arguments TARGET_DEC {num}.
Arguments Z_QSO {num}.
Arguments NCIV_450 {num}.
Arguments VMAX_CIV_450 {num}.
Arguments VMIN_CIV_450 {num}.

Record Catalog (num : Type) : Type := {
  has_NCIV_450 : bool;                   (* "NCIV_450" in catalog.columns *)
  entries : list (CatalogEntry num);
}.
Arguments has_NCIV_450 {num}.
Arguments entries {num}.

(** The coadded spectra: the common grid [wave["brz"]], the fibermap's
    target identifiers, and one flux and one inverse-variance row per fibre.
    The inverse-variance rows are written to by the BAL mask. *)
Record Spectra (num : Type) : Type := {
  wave : list num;
  fibermap_TARGETID : list Z;
  flux : list (list num);
  ivar : list (list num);
}.
Arguments wave {num}.
Arguments fibermap_TARGETID {num}.
Arguments flux {num}.
Arguments ivar {num}.

(** What [fit_spectrum_DLA] returns: seven parallel arrays, with [-1] in
    [zdla] where no absorber was accepted. *)
Record FitOutput (num : Type) : Type := {
  zdla : list num;
  zerr : list num;
  nhi : list num;
  nhierr : list num;
  dchi2 : list num;
  fitwarn : list Z;
  coeff_dla : list (list num);
}.
Arguments zdla {num}.
Arguments zerr {num}.
Arguments nhi {num}.
Arguments nhierr {num}.
Arguments dchi2 {num}.
Arguments fitwarn {num}.
Arguments coeff_dla {num}.

(** The fitter. [resample_flux], the model bundle, [fit_spectrum] and
    [fit_spectrum_DLA] are collaborators: the continuum template, [varlss]
    and the null fit are functions of the masked arrays and of the quasar
    redshift, and are kept inside this one function of them. *)
Class Fitter (num : Type) : Type := {
  fit_spectrum_DLA :
    list num (* wave[fitmask] *) -> list num (* flux[fitmask] *) ->
    list num (* ivar[fitmask] *) -> list bool (* searchmask *) ->
    num (* zqso *) -> result (FitOutput num);
}.

(** One row of the result table (the thirteen lists, read across). *)
Record Row (num : Type) : Type := {
  r_TARGETID : Z;
  r_RA : num;
  r_DEC : num;
  r_Z : num;
  r_SNR : num;
  r_DLAID : string;
  r_Z_DLA : num;
  r_Z_DLA_ERR : num;
  r_NHI : num;
  r_NHI_ERR : num;
  r_COEFF : list num;
  r_DELTACHI2 : num;
  r_DLAFLAG : Z;
}.
Arguments r_TARGETID {num}.
Arguments r_DLAID {num}.
Arguments r_Z_DLA {num}.
Arguments r_DLAFLAG {num}.
Arguments r_SNR {num}.

(** What the function returns: the empty tuple [()], or a table. *)
Inductive FitResults (num : Type) : Type :=
| EmptyTuple
| Table (rows : list (Row num)).
Arguments EmptyTuple {num}.
Arguments Table {num} rows.

(** How one catalog entry ended. *)
Inductive Outcome (num : Type) : Type :=
| TooMasked                       (* logged, [continue] *)
| Fitted (fit : FitOutput num) (flags : list Z) (rows : list (Row num)).
Arguments TooMasked {num}.
Arguments Fitted {num} fit flags rows.

Definition rows_of {num : Type} (o : Outcome num) : list (Row num) :=
  match o with
  | TooMasked => []
  | Fitted _ _ rows => rows
  end.

Section Search.
Context {num : Type} {N : Num num} {S : Special num}.
Context {K : Constants num} {F : Fitter num}.
Local Open Scope result_scope.

(** [a[mask]] for a boolean [mask]: the lengths must agree. *)
Definition bool_index {A : Type} (a : list A) (mask : list bool) : result (list A) :=
  if (length mask =? length a)%nat
  then Ok (map snd (filter fst (combine mask a)))
  else Raise IndexError.

(** [a[mask] = 0] *)
Definition bool_assign_zero (a : list num) (mask : list bool) : result (list num) :=
  if (length mask =? length a)%nat
  then Ok (map (fun mx : bool * num => if fst mx then of_int 0 else snd mx) (combine mask a))
  else Raise IndexError.

(** [np.sum(mask)] and [np.sum(a != 0)] *)
Definition count_true (mask : list bool) : Z :=
  Z.of_nat (length (filter (fun b => b) mask)).

Definition count_nonzero (a : list num) : Z :=
  count_true (map (fun x => (x !=? of_int 0)%num) a).

(** [np.nonzero(tids == tid)[0][0]] *)
Fixpoint first_index (tid : Z) (tids : list Z) : option nat :=
  match tids with
  | [] => None
  | t :: tids' =>
      if (t =? tid)%Z then Some 0%nat
      else option_map Datatypes.S (first_index tid tids')
  end.

(** [np.ma.masked_inside(x, v1, v2).mask] *)
Definition masked_inside_mask (x : list num) (v1 v2 : num) : list bool :=
  let '(v1, v2) := if (v2 <? v1)%num then (v2, v1) else (v1, v2) in
  map (fun xf => (xf >=? v1)%num && (xf <=? v2)%num) x.

(** *** The BAL mask (lines 302-319) *)

(** [-v / constants.c + 1.0] *)
Definition velocity_factor (v : num) : num := (- v / c + of_int 1)%num.

(** The rest-frame window of one transition of one BAL feature. *)
Definition in_bal_window (lam v_max v_min w : num) : bool :=
  ((w >? lam * v_max)%num && (w <? lam * v_min)%num)%bool.

Definition records_window (line : string) : bool :=
  ((line =? "Lya")%string || (line =? "NV")%string)%bool.

(** The body of [for line, lam in constants.bal_lines.items()]. *)
Definition bal_line_step (wave_rf : list num) (zqso v_max v_min : num)
                         (st : list num * list (num * num))
                         (line_lam : string * num)
  : result (list num * list (num * num)) :=
  let '(ivar, bal_locs) := st in
  let '(line, lam) := line_lam in
  let mask := map (in_bal_window lam v_max v_min) wave_rf in
  let bal_locs :=
    if records_window line then
      let rededge := (lam * v_min * (of_int 1 + zqso))%num in
      let blueedge := (lam * v_max * (of_int 1 + zqso))%num in
      bal_locs ++ [(rededge, blueedge)]
    else bal_locs in
  ivar <- bool_assign_zero ivar mask ;;
  Ok (ivar, bal_locs).

Fixpoint bal_lines_loop (wave_rf : list num) (zqso v_max v_min : num)
                        (lines : list (string * num))
                        (st : list num * list (num * num))
  : result (list num * list (num * num)) :=
  match lines with
  | [] => Ok st
  | line_lam :: lines' =>
      st' <- bal_line_step wave_rf zqso v_max v_min st line_lam ;;
      bal_lines_loop wave_rf zqso v_max v_min lines' st'
  end.

(** The body of [for n in range(nbal)]. *)
Definition bal_feature_step (wave_rf : list num) (entry : CatalogEntry num)
                            (st : list num * list (num * num)) (n : nat)
  : result (list num * list (num * num)) :=
  vmax <- index (VMAX_CIV_450 entry) n ;;
  vmin <- index (VMIN_CIV_450 entry) n ;;
  let v_max := velocity_factor vmax in
  let v_min := velocity_factor vmin in
  bal_lines_loop wave_rf (Z_QSO entry) v_max v_min bal_lines st.

Fixpoint bal_features_loop (wave_rf : list num) (entry : CatalogEntry num)
                           (ns : list nat) (st : list num * list (num * num))
  : result (list num * list (num * num)) :=
  match ns with
  | [] => Ok st
  | n :: ns' =>
      st' <- bal_feature_step wave_rf entry st n ;;
      bal_features_loop wave_rf entry ns' st'
  end.

(** [if "NCIV_450" in catalog.columns: ...]: the masked inverse variance and
    [bal_locs]. *)
Definition bal_mask (wave_rf : list num) (entry : CatalogEntry num)
                    (ivar : list num)
  : result (list num * list (num * num)) :=
  let nbal := NCIV_450 entry in
  bal_features_loop wave_rf entry (seq 0 (Z.to_nat nbal)) (ivar, []).

(** *** The masked-fraction test (lines 321-324) *)

(** [np.sum(ivar[fitmask][searchmask] != 0) / np.sum(searchmask) < 0.2] *)
Definition too_masked (unmasked total : Z) : bool :=
  (of_int unmasked / of_int total <? dec 2 1)%num.

(** *** The BAL contamination flag (lines 371-377) *)

(** [balflag] for one window [(rededge, blueedge)]. *)
Definition inside_window (lam_center : num) (window : num * num) : bool :=
  ((lam_center <? fst window)%num && (lam_center >? snd window)%num)%bool.

(** [fitwarn[balflag] |= DLAFLAG.POTENTIAL_BAL] *)
Definition flag_window (lam_center_dla : list num) (fitwarn : list Z)
                       (window : num * num) : result (list Z) :=
  let balflag := map (fun lc => inside_window lc window) lam_center_dla in
  if (length balflag =? length fitwarn)%nat
  then Ok (map (fun bw : bool * Z => if fst bw then Z.lor (snd bw) POTENTIAL_BAL else snd bw)
               (combine balflag fitwarn))
  else Raise IndexError.

Fixpoint flag_windows (lam_center_dla : list num) (fitwarn : list Z)
                      (bal_locs : list (num * num)) : result (list Z) :=
  match bal_locs with
  | [] => Ok fitwarn
  | window :: bal_locs' =>
      fitwarn' <- flag_window lam_center_dla fitwarn window ;;
      flag_windows lam_center_dla fitwarn' bal_locs'
  end.

Definition accepted (z : num) : bool := (z !=? - of_int 1)%num.

(** [if ("nbal" in locals()) & np.any(zdla != -1): ...]; [nbal] is a local
    exactly when the catalog has the column. *)
Definition flag_bal (has_bal : bool) (bal_locs : list (num * num))
                    (zdla : list num) (fitwarn : list Z) : result (list Z) :=
  if (has_bal && existsb accepted zdla)%bool then
    let lam_center_dla := map (fun z => (Lya_line * (of_int 1 + z))%num) zdla in
    flag_windows lam_center_dla fitwarn bal_locs
  else Ok fitwarn.

(** *** The rows of one target (lines 379-399) *)

Definition str_of_Z (z : Z) : string :=
  DecimalString.NilZero.string_of_int (Z.to_int z).

(** [np.mean(a)] *)
Definition np_mean (a : list num) : num :=
  (fold_left nadd a (of_int 0) / of_int (Z.of_nat (length a)))%num.

(** average signal to noise in search region of unmasked pixels *)
Definition mean_snr (flux_search ivar_search : list num) : result num :=
  let mask := map (fun x => (x !=? of_int 0)%num) ivar_search in
  let sn := map (fun fi : num * num => (fst fi * np_sqrt (snd fi))%num)
                (combine flux_search ivar_search) in
  sn_unmasked <- bool_index sn mask ;;
  Ok (np_mean sn_unmasked).

(** The body of [for n in range(ndla)]. *)
Definition build_row (entry : CatalogEntry num) (fit : FitOutput num)
                     (flags : list Z) (flux_search ivar_search : list num)
                     (n : nat) : result (Row num) :=
  let tid := TARGETID entry in
  let dlaid := (str_of_Z tid ++ "00" ++ str_of_Z (Z.of_nat n))%string in
  z <- index (zdla fit) n ;;
  ze <- index (zerr fit) n ;;
  nh <- index (nhi fit) n ;;
  nhe <- index (nhierr fit) n ;;
  dc <- index (dchi2 fit) n ;;
  fw <- index flags n ;;
  co <- index (coeff_dla fit) n ;;
  snr <- mean_snr flux_search ivar_search ;;
  Ok {| r_TARGETID := tid; r_RA := TARGET_RA entry; r_DEC := TARGET_DEC entry;
        r_Z := Z_QSO entry; r_SNR := snr; r_DLAID := dlaid;
        r_Z_DLA := z; r_Z_DLA_ERR := ze; r_NHI := nh; r_NHI_ERR := nhe;
        r_COEFF := co; r_DELTACHI2 := dc; r_DLAFLAG := fw |}.

Fixpoint build_rows (entry : CatalogEntry num) (fit : FitOutput num)
                    (flags : list Z) (flux_search ivar_search : list num)
                    (ns : list nat) : result (list (Row num)) :=
  match ns with
  | [] => Ok []
  | n :: ns' =>
      row <- build_row entry fit flags flux_search ivar_search n ;;
      rows <- build_rows entry fit flags flux_search ivar_search ns' ;;
      Ok (row :: rows)
  end.

(** [ndla = np.sum(zdla != -1)] *)
Definition ndla (zdla : list num) : Z := count_true (map accepted zdla).

(** *** One catalog entry *)

(** The arrays of one target once the masks are built (lines 289-319). *)
Record Prepared : Type := {
  p_idx : nat;
  p_flux : list num;
  p_ivar : list num;                     (* after the BAL mask *)
  p_fitmask : list bool;
  p_searchmask : list bool;
  p_bal_locs : list (num * num);
}.

Definition set_row {A : Type} (rows : list (list A)) (idx : nat) (row : list A)
  : list (list A) :=
  firstn idx rows ++ row :: skipn (Datatypes.S idx) rows.

Definition prepare (has_bal : bool) (specobj : Spectra num)
                   (entry : CatalogEntry num) (idx : nat) : result Prepared :=
  let zqso := Z_QSO entry in
  flux_t <- index (flux specobj) idx ;;
  ivar_t <- index (ivar specobj) idx ;;
  let wave_rf := map (fun w => (w / (of_int 1 + zqso))%num) (wave specobj) in
  (* only searching to rest frame 900 A *)
  let fitmask := map (fun w => (w >? search_minlam)%num) wave_rf in
  wave_rf_fit <- bool_index wave_rf fitmask ;;
  let searchmask := masked_inside_mask wave_rf_fit search_minlam search_maxlam in
  (* apply mask to BAL features, if available *)
  '(ivar_t, bal_locs) <-
     (if has_bal then bal_mask wave_rf entry ivar_t else Ok (ivar_t, [])) ;;
  Ok {| p_idx := idx; p_flux := flux_t; p_ivar := ivar_t;
        p_fitmask := fitmask; p_searchmask := searchmask;
        p_bal_locs := bal_locs |}.

(** [ivar[fitmask][searchmask]] *)
Definition search_window_ivar (p : Prepared) : result (list num) :=
  ivar_fit <- bool_index (p_ivar p) (p_fitmask p) ;;
  bool_index ivar_fit (p_searchmask p).

(** The masked-fraction test and everything after it (lines 321-399). *)
Definition search (has_bal : bool) (specobj : Spectra num)
                  (entry : CatalogEntry num) (p : Prepared)
  : result (Outcome num) :=
  ivar_search <- search_window_ivar p ;;
  (* check if too much of the spectrum is masked *)
  if too_masked (count_nonzero ivar_search) (count_true (p_searchmask p))
  then Ok TooMasked
  else
    wave_fit <- bool_index (wave specobj) (p_fitmask p) ;;
    flux_fit <- bool_index (p_flux p) (p_fitmask p) ;;
    ivar_fit <- bool_index (p_ivar p) (p_fitmask p) ;;
    fit <- fit_spectrum_DLA wave_fit flux_fit ivar_fit (p_searchmask p)
                            (Z_QSO entry) ;;
    (* check for potential BAL contamination in solution *)
    flags <- flag_bal has_bal (p_bal_locs p) (zdla fit) (fitwarn fit) ;;
    flux_search <- bool_index flux_fit (p_searchmask p) ;;
    rows <- build_rows entry fit flags flux_search ivar_search
                       (seq 0 (Z.to_nat (ndla (zdla fit)))) ;;
    Ok (Fitted fit flags rows).

(** One pass of the loop over the catalog.  A target that is not in the
    fibermap reaches [log.error(f"... {healpix}")], where [healpix] is not a
    name of this function: the handler itself raises [NameError]. *)
Definition process_entry (has_bal : bool) (specobj : Spectra num)
                         (entry : CatalogEntry num)
  : result (Spectra num * Outcome num) :=
  match first_index (TARGETID entry) (fibermap_TARGETID specobj) with
  | None => Raise NameError
  | Some idx =>
      p <- prepare has_bal specobj entry idx ;;
      (* the BAL mask was written into the spectra object's own row *)
      let specobj :=
        {| wave := wave specobj;
           fibermap_TARGETID := fibermap_TARGETID specobj;
           flux := flux specobj;
           ivar := set_row (ivar specobj) idx (p_ivar p) |} in
      outcome <- search has_bal specobj entry p ;;
      Ok (specobj, outcome)
  end.

(** [for entry in range(len(catalog))], appending to the result lists. *)
Fixpoint catalog_loop (has_bal : bool) (specobj : Spectra num)
                      (es : list (CatalogEntry num)) (acc : list (Row num))
  : result (list (Row num)) :=
  match es with
  | [] => Ok acc
  | entry :: es' =>
      '(specobj', outcome) <- process_entry has_bal specobj entry ;;
      catalog_loop has_bal specobj' es' (acc ++ rows_of outcome)
  end.

(** [process_spectra_group], from the coadded spectra on. *)
Definition process_spectra_group (specobj : Spectra num) (catalog : Catalog num)
  : result (FitResults num) :=
  rows <- catalog_loop (has_NCIV_450 catalog) specobj (entries catalog) [] ;;
  match rows with
  | [] => Ok EmptyTuple        (* avoid vstack error for empty tables *)
  | _ :: _ => Ok (Table rows)
  end.

(** *** The run as a list of outcomes *)




(** *** The rows of a fitted target *)

Lemma build_rows_length entry fit flags flux_search ivar_search (ns : list nat) :
  forall rows,
    build_rows entry fit flags flux_search ivar_search ns = Ok rows ->
    length rows = length ns.
Proof.
  induction ns as [|n ns IH]; intros rows; cbn [build_rows].
  - intros H. injection H as <-. reflexivity.
  - destruct (build_row _ _ _ _ _ n) as [row|]; cbn [bind]; [|discriminate].
    destruct (build_rows _ _ _ _ _ ns) as [rows'|]; cbn [bind]; [|discriminate].
    intros H. injection H as <-. cbn. f_equal. apply IH. reflexivity.
Qed.

Lemma ndla_nonneg (zdla : list num) : (0 <= ndla zdla)%Z.
Proof. unfold ndla, count_true. lia. Qed.

(** What [search] can return: [TooMasked] exactly when the test fires, and
    otherwise one row per accepted absorber. *)
Lemma search_outcome has_bal specobj entry p o :
  search has_bal specobj entry p = Ok o ->
  exists ivar_search,
    search_window_ivar p = Ok ivar_search /\
    if too_masked (count_nonzero ivar_search) (count_true (p_searchmask p))
    then o = TooMasked
    else exists fit flags rows,
        o = Fitted fit flags rows /\
        flag_bal has_bal (p_bal_locs p) (zdla fit) (fitwarn fit) = Ok flags /\
        Z.of_nat (length rows) = ndla (zdla fit).
Proof.
  unfold search.
  destruct (search_window_ivar p) as [ivar_search|]; cbn [bind]; [|discriminate].
  intros H. exists ivar_search. split; [reflexivity|].
  destruct (too_masked _ _).
  - injection H as <-. reflexivity.
  - destruct (bool_index (wave specobj) _) as [wave_fit|]; cbn [bind] in H;
      [|discriminate].
    destruct (bool_index (p_flux p) _) as [flux_fit|]; cbn [bind] in H;
      [|discriminate].
    destruct (bool_index (p_ivar p) _) as [ivar_fit|]; cbn [bind] in H;
      [|discriminate].
    destruct (fit_spectrum_DLA _ _ _ _ _) as [fit|]; cbn [bind] in H;
      [|discriminate].
    destruct (flag_bal _ _ _ _) as [flags|] eqn:Ef; cbn [bind] in H;
      [|discriminate].
    destruct (bool_index flux_fit _) as [flux_search|]; cbn [bind] in H;
      [|discriminate].
    destruct (build_rows _ _ _ _ _ _) as [rows|] eqn:Er; cbn [bind] in H;
      [|discriminate].
    injection H as <-. exists fit, flags, rows. repeat split; try assumption.
    apply build_rows_length in Er. rewrite Er, length_seq.
    pose proof (ndla_nonneg (zdla fit)). lia.
Qed.

Lemma search_too_masked_iff has_bal specobj entry p ivar_search :
  search_window_ivar p = Ok ivar_search ->
  (search has_bal specobj entry p = Ok TooMasked <->
   too_masked (count_nonzero ivar_search) (count_true (p_searchmask p)) = true).
Proof.
  intros Hw. split.
  - intros H. apply search_outcome in H.
    destruct H as [iv [Hiv H]]. rewrite Hw in Hiv. injection Hiv as <-.
    destruct (too_masked _ _); [reflexivity|].
    destruct H as [fit [flags [rows [H _]]]]. discriminate.
  - intros H. unfold search. rewrite Hw. cbn [bind]. rewrite H. reflexivity.
Qed.

(** A skipped target adds nothing and the loop goes on with the next one. *)
Lemma catalog_loop_skip has_bal specobj specobj' entry es acc :
  process_entry has_bal specobj entry = Ok (specobj', TooMasked) ->
  catalog_loop has_bal specobj (entry :: es) acc
  = catalog_loop has_bal specobj' es acc.
Proof.
  intros H. cbn [catalog_loop]. rewrite H. cbn [bind rows_of].
  rewrite app_nil_r. reflexivity.
Qed.



(** *** The BAL contamination flag *)

Lemma nth_error_combine {A B : Type} (l1 : list A) (l2 : list B) (i : nat) a b :
  nth_error l1 i = Some a -> nth_error l2 i = Some b ->
  nth_error (combine l1 l2) i = Some (a, b).
Proof.
  revert l2 i. induction l1 as [|x l1 IH]; intros [|y l2] [|i]; cbn;
    try discriminate.
  - intros H1 H2. injection H1 as ->. injection H2 as ->. reflexivity.
  - apply IH.
Qed.

Lemma flag_window_nth (lam : list num) (fitwarn : list Z) (window : num * num) :
  length fitwarn = length lam ->
  exists flags,
    flag_window lam fitwarn window = Ok flags /\
    length flags = length lam /\
    forall i lc fw,
      nth_error lam i = Some lc -> nth_error fitwarn i = Some fw ->
      nth_error flags i
      = Some (if inside_window lc window then Z.lor fw POTENTIAL_BAL else fw).
Proof.
  intros Hlen. unfold flag_window.
  rewrite length_map, <- Hlen, Nat.eqb_refl.
  eexists. split; [reflexivity|]. split.
  - rewrite length_map, length_combine, length_map. lia.
  - intros i lc fw Hl Hf.
    rewrite nth_error_map.
    rewrite (nth_error_combine _ _ i (inside_window lc window) fw).
    + reflexivity.
    + rewrite nth_error_map, Hl. reflexivity.
    + exact Hf.
Qed.

Lemma flag_windows_nth (lam : list num) (bal_locs : list (num * num)) :
  forall fitwarn : list Z,
    length fitwarn = length lam ->
    exists flags,
      flag_windows lam fitwarn bal_locs = Ok flags /\
      length flags = length lam /\
      forall i lc fw,
        nth_error lam i = Some lc -> nth_error fitwarn i = Some fw ->
        nth_error flags i
        = Some (if existsb (inside_window lc) bal_locs
                then Z.lor fw POTENTIAL_BAL else fw).
Proof.
  induction bal_locs as [|window bal_locs IH]; intros fitwarn Hlen;
    cbn [flag_windows existsb].
  - exists fitwarn. repeat split; [assumption|]. intros i lc fw _ Hf. exact Hf.
  - destruct (flag_window_nth lam fitwarn window Hlen) as [fw1 [E1 [L1 N1]]].
    rewrite E1. cbn [bind].
    destruct (IH fw1 L1) as [flags [E [L Hn]]].
    exists flags. repeat split; try assumption.
    intros i lc fw Hl Hf.
    rewrite (Hn i lc _ Hl (N1 i lc fw Hl Hf)).
    destruct (inside_window lc window), (existsb (inside_window lc) bal_locs);
      cbn [orb]; try reflexivity.
    rewrite <- Z.lor_assoc, Z.lor_diag. reflexivity.
Qed.

(** C3. For a target of a catalog with BAL metadata and an accepted absorber
    (entry [i] of [zdla], not -1): the flagging step returns, and the
    absorber's warning bitmask becomes [fw | POTENTIAL_BAL] if its
    Lyman-alpha centre [Lya_line * (1 + z)] is strictly below the red edge
    and strictly above the blue edge of some recorded window, and stays [fw]
    otherwise. *)
Theorem flag_bal_iff_inside_recorded_window :
  forall (bal_locs : list (num * num)) (zdla : list num) (fitwarn : list Z)
         (i : nat) (z : num) (fw : Z),
    length fitwarn = length zdla ->
    nth_error zdla i = Some z ->
    accepted z = true ->
    nth_error fitwarn i = Some fw ->
    exists flags,
      flag_bal true bal_locs zdla fitwarn = Ok flags /\
      nth_error flags i
      = Some (if existsb
                   (fun window =>
                      ((Lya_line * (of_int 1 + z) <? fst window)%num
                       && (Lya_line * (of_int 1 + z) >? snd window)%num)%bool)
                   bal_locs
              then Z.lor fw POTENTIAL_BAL
              else fw).
Proof.
  intros bal_locs zs fitwarn i z fw Hlen Hz Hacc Hf.
  unfold flag_bal.
  assert (Hany : existsb accepted zs = true).
  { apply existsb_exists. exists z. split; [|exact Hacc].
    eapply nth_error_In. exact Hz. }
  rewrite Hany. cbn [andb].
  destruct (flag_windows_nth (map (fun z => (Lya_line * (of_int 1 + z))%num) zs)
                             bal_locs fitwarn) as [flags [E [_ Hn]]].
  { rewrite length_map. exact Hlen. }
  exists flags. split; [exact E|].
  apply (Hn i (Lya_line * (of_int 1 + z))%num fw); [|exact Hf].
  rewrite nth_error_map, Hz. reflexivity.
Qed.

(** *** The BAL mask *)

(** Zero where the rest-frame wavelength satisfies [P]. *)
Definition zero_where (P : num -> bool) (wave_rf ivar : list num) : list num :=
  map (fun wv : num * num => if P (fst wv) then of_int 0 else snd wv)
      (combine wave_rf ivar).

Lemma zero_where_length P (wave_rf ivar : list num) :
  length ivar = length wave_rf -> length (zero_where P wave_rf ivar) = length wave_rf.
Proof.
  intros H. unfold zero_where. rewrite length_map, length_combine. lia.
Qed.

Lemma zero_where_none (wave_rf ivar : list num) :
  length ivar = length wave_rf -> zero_where (fun _ => false) wave_rf ivar = ivar.
Proof.
  revert ivar. unfold zero_where.
  induction wave_rf as [|w wave_rf IH]; intros [|v ivar] H; cbn in *;
    try discriminate; try reflexivity.
  f_equal. apply IH. lia.
Qed.

Lemma zero_where_ext P Q (wave_rf ivar : list num) :
  (forall w, P w = Q w) -> zero_where P wave_rf ivar = zero_where Q wave_rf ivar.
Proof.
  intros H. unfold zero_where. apply map_ext. intros [w v]. cbn. rewrite H.
  reflexivity.
Qed.

Lemma zero_where_twice P Q (wave_rf ivar : list num) :
  zero_where Q wave_rf (zero_where P wave_rf ivar)
  = zero_where (fun w => (P w || Q w)%bool) wave_rf ivar.
Proof.
  revert ivar. unfold zero_where.
  induction wave_rf as [|w wave_rf IH]; intros [|v ivar]; cbn; try reflexivity.
  rewrite IH. f_equal. destruct (P w), (Q w); reflexivity.
Qed.

Lemma zero_where_nth P (wave_rf ivar : list num) i w v :
  nth_error wave_rf i = Some w -> nth_error ivar i = Some v ->
  nth_error (zero_where P wave_rf ivar) i = Some (if P w then of_int 0 else v).
Proof.
  intros Hw Hv. unfold zero_where.
  rewrite nth_error_map, (nth_error_combine _ _ i w v Hw Hv). reflexivity.
Qed.

Lemma bool_assign_zero_where P (wave_rf ivar : list num) :
  length ivar = length wave_rf ->
  bool_assign_zero ivar (map P wave_rf) = Ok (zero_where P wave_rf ivar).
Proof.
  intros H. unfold bool_assign_zero, zero_where.
  rewrite length_map, <- H, Nat.eqb_refl. f_equal.
  clear H. revert ivar.
  induction wave_rf as [|w wave_rf IH]; intros [|v ivar]; cbn; try reflexivity.
  rewrite IH. reflexivity.
Qed.

(** The windows of one BAL feature: in the rest frame, one per transition
    (these are masked); in the observed frame, the two that are recorded. *)
Definition in_feature_window (v_max v_min : num) (lines : list (string * num))
                             (w : num) : bool :=
  existsb (fun line_lam : string * num =>
             in_bal_window (snd line_lam) v_max v_min w) lines.

Definition feature_recorded (zqso v_max v_min : num) (lines : list (string * num))
  : list (num * num) :=
  flat_map (fun line_lam : string * num =>
              if records_window (fst line_lam)
              then [((snd line_lam * v_min * (of_int 1 + zqso))%num,
                     (snd line_lam * v_max * (of_int 1 + zqso))%num)]
              else [])
           lines.

Lemma bal_lines_loop_spec (wave_rf : list num) (zqso v_max v_min : num)
                          (lines : list (string * num)) :
  forall (P : num -> bool) (ivar0 : list num) (locs : list (num * num)),
    length ivar0 = length wave_rf ->
    bal_lines_loop wave_rf zqso v_max v_min lines (zero_where P wave_rf ivar0, locs)
    = Ok (zero_where (fun w => (P w || in_feature_window v_max v_min lines w)%bool)
                     wave_rf ivar0,
          locs ++ feature_recorded zqso v_max v_min lines).
Proof.
  induction lines as [|[line lam] lines IH]; intros P ivar0 locs Hlen;
    cbn [bal_lines_loop].
  - rewrite app_nil_r. f_equal. f_equal. apply zero_where_ext.
    intros w. cbn. rewrite orb_false_r. reflexivity.
  - cbn [bal_line_step].
    rewrite bool_assign_zero_where by (rewrite zero_where_length; auto).
    cbn [bind]. rewrite zero_where_twice, IH by assumption.
    f_equal. f_equal.
    + apply zero_where_ext. intros w. cbn [in_feature_window existsb snd].
      rewrite orb_assoc. reflexivity.
    + cbn [feature_recorded flat_map fst snd].
      destruct (records_window line); cbn [app]; [|reflexivity].
      rewrite <- app_assoc. reflexivity.
Qed.

(** All features of an entry. *)
Definition feature_factors (entry : CatalogEntry num) (n : nat) : num * num :=
  (velocity_factor (nth n (VMAX_CIV_450 entry) (of_int 0)),
   velocity_factor (nth n (VMIN_CIV_450 entry) (of_int 0))).

Definition in_some_bal_window (entry : CatalogEntry num) (ns : list nat)
                              (w : num) : bool :=
  existsb (fun n => in_feature_window (fst (feature_factors entry n))
                                      (snd (feature_factors entry n))
                                      bal_lines w) ns.

Definition recorded_windows (entry : CatalogEntry num) (ns : list nat)
  : list (num * num) :=
  flat_map (fun n => feature_recorded (Z_QSO entry)
                                      (fst (feature_factors entry n))
                                      (snd (feature_factors entry n))
                                      bal_lines) ns.

Lemma bal_features_loop_spec (wave_rf : list num) (entry : CatalogEntry num)
                             (ns : list nat) :
  forall (P : num -> bool) (ivar0 : list num) (locs : list (num * num)),
    length ivar0 = length wave_rf ->
    Forall (fun n => (n < length (VMAX_CIV_450 entry))%nat
                     /\ (n < length (VMIN_CIV_450 entry))%nat) ns ->
    bal_features_loop wave_rf entry ns (zero_where P wave_rf ivar0, locs)
    = Ok (zero_where (fun w => (P w || in_some_bal_window entry ns w)%bool)
                     wave_rf ivar0,
          locs ++ recorded_windows entry ns).
Proof.
  induction ns as [|n ns IH]; intros P ivar0 locs Hlen Hns;
    cbn [bal_features_loop].
  - rewrite app_nil_r. f_equal. f_equal. apply zero_where_ext.
    intros w. cbn. rewrite orb_false_r. reflexivity.
  - inversion Hns as [|? ? [Hmax Hmin] Hns']; subst.
    unfold bal_feature_step.
    rewrite (index_nth (VMAX_CIV_450 entry) n (of_int 0) Hmax).
    rewrite (index_nth (VMIN_CIV_450 entry) n (of_int 0) Hmin).
    cbn [bind]. rewrite bal_lines_loop_spec by assumption.
    cbn [bind]. rewrite IH by assumption.
    f_equal. f_equal.
    + apply zero_where_ext. intros w.
      cbn [in_some_bal_window existsb feature_factors fst snd].
      rewrite orb_assoc. reflexivity.
    + cbn [recorded_windows flat_map feature_factors fst snd].
      rewrite <- app_assoc. reflexivity.
Qed.

(** C4, as the code has it. For a target with BAL metadata whose velocity
    columns hold at least [NCIV_450] entries: the mask is built, the inverse
    variance becomes zero at every pixel whose rest-frame wavelength lies
    strictly inside the velocity window of some feature for some line of
    [bal_lines], every other pixel keeps its inverse variance, and the
    observed-frame window is recorded for the lines named ["Lya"] and ["NV"]
    only. *)
Theorem bal_mask_zeroes_windows_records_lya_nv :
  forall (wave_rf : list num) (entry : CatalogEntry num) (ivar : list num),
    let features := seq 0 (Z.to_nat (NCIV_450 entry)) in
    length ivar = length wave_rf ->
    (Z.to_nat (NCIV_450 entry) <= length (VMAX_CIV_450 entry))%nat ->
    (Z.to_nat (NCIV_450 entry) <= length (VMIN_CIV_450 entry))%nat ->
    exists ivar' bal_locs,
      bal_mask wave_rf entry ivar = Ok (ivar', bal_locs) /\
      length ivar' = length ivar /\
      (forall i w v,
          nth_error wave_rf i = Some w -> nth_error ivar i = Some v ->
          nth_error ivar' i
          = Some (if in_some_bal_window entry features w then of_int 0 else v)) /\
      bal_locs = recorded_windows entry features.
Proof.
  intros wave_rf entry ivar0 features Hlen Hmax Hmin.
  assert (Hns : Forall (fun n => (n < length (VMAX_CIV_450 entry))%nat
                                 /\ (n < length (VMIN_CIV_450 entry))%nat) features).
  { apply Forall_forall. intros n Hn. apply in_seq in Hn. lia. }
  pose proof (bal_features_loop_spec wave_rf entry features (fun _ => false)
                                     ivar0 [] Hlen Hns) as E.
  rewrite zero_where_none in E by exact Hlen.
  unfold bal_mask. fold features. rewrite E.
  do 2 eexists. split; [reflexivity|]. split; [|split].
  - rewrite zero_where_length; auto.
  - intros i w v Hw Hv. rewrite (zero_where_nth _ _ _ i w v Hw Hv).
    reflexivity.
  - reflexivity.
Qed.

End Search.

(* ------------------------------------------------------------------ *)
(** *** The masked-fraction test over the reals *)

Lemma too_masked_real (unmasked total : Z) :
  too_masked (N := RealNum) unmasked total = true
  <-> (IZR unmasked / IZR total < 0.2)%R.
Proof.
  unfold too_masked, dec. cbn [nltb ndiv of_int RealNum].
  rewrite Rltb_true.
  replace (IZR 2 / IZR (10 ^ Z.of_nat 1))%R with 0.2%R
    by (change (10 ^ Z.of_nat 1)%Z with 10%Z; lra).
  reflexivity.
Qed.

Lemma fraction_below_fifth (unmasked total : Z) :
  (0 < total)%Z ->
  (IZR unmasked / IZR total < 0.2)%R <-> (5 * unmasked < total)%Z.
Proof.
  intros Ht. apply IZR_lt in Ht.
  split.
  - intros H. apply lt_IZR. rewrite mult_IZR.
    apply (Rmult_lt_compat_r (IZR total)) in H; [|exact Ht].
    unfold Rdiv in H. rewrite Rmult_assoc, Rinv_l, Rmult_1_r in H by lra. lra.
  - intros H. apply IZR_lt in H. rewrite mult_IZR in H.
    apply (Rmult_lt_reg_r (IZR total)); [exact Ht|].
    unfold Rdiv. rewrite Rmult_assoc, Rinv_l, Rmult_1_r by lra. lra.
Qed.

Lemma masked_above_four_fifths (unmasked total : Z) :
  (0 < total)%Z ->
  (IZR (total - unmasked) / IZR total > 0.8)%R
  <-> (IZR unmasked / IZR total < 0.2)%R.
Proof.
  intros Ht. apply IZR_lt in Ht. rewrite minus_IZR.
  unfold Rdiv. rewrite Rmult_minus_distr_r, Rinv_r by lra. lra.
Qed.

(** C2. For a target whose search window is not empty: the search is
    skipped exactly when the fraction of search-window pixels with nonzero
    inverse variance is strictly below 0.2, that is when strictly more than
    80% of them are masked; at exactly 80% masked it is not skipped.  A
    skipped target adds no row and the loop goes on with the next entry. *)
Theorem search_skipped_iff_unmasked_fraction_below_fifth :
  forall (S : Special R) (K : Constants R) (F : Fitter R)
         (has_bal : bool) (specobj : Spectra R) (entry : CatalogEntry R)
         (p : Prepared) (ivar_search : list R),
    search_window_ivar p = Ok ivar_search ->
    let unmasked := count_nonzero ivar_search in
    let total := count_true (p_searchmask p) in
    (0 < total)%Z ->
    (search has_bal specobj entry p = Ok TooMasked
     <-> (IZR unmasked / IZR total < 0.2)%R) /\
    (search has_bal specobj entry p = Ok TooMasked
     <-> (IZR (total - unmasked) / IZR total > 0.8)%R) /\
    ((IZR (total - unmasked) / IZR total = 0.8)%R ->
     search has_bal specobj entry p <> Ok TooMasked) /\
    (forall specobj0 specobj' es acc,
        process_entry has_bal specobj0 entry = Ok (specobj', TooMasked) ->
        catalog_loop has_bal specobj0 (entry :: es) acc
        = catalog_loop has_bal specobj' es acc).
Proof.
  intros S K F has_bal specobj entry p ivar_search Hw unmasked total Ht.
  assert (H1 : search has_bal specobj entry p = Ok TooMasked
               <-> (IZR unmasked / IZR total < 0.2)%R).
  { rewrite (search_too_masked_iff has_bal specobj entry p ivar_search Hw).
    apply too_masked_real. }
  split; [exact H1|]. split; [|split].
  - rewrite H1. symmetry. apply masked_above_four_fifths. exact Ht.
  - intros Heq Hs. apply H1 in Hs.
    apply (masked_above_four_fifths unmasked total Ht) in Hs. lra.
  - intros specobj0 specobj' es acc H. apply catalog_loop_skip. exact H.
Qed.

(** The boundary in binary64: [k / 5k] is the double nearest to 1/5, which
    is the literal [0.2], so exactly one fifth unmasked is not skipped; an
    empty search window gives [0 / 0 = nan], which is not below 0.2 either. *)
Example too_masked_binary64_boundary :
  too_masked (N := FloatNum) 1 5 = false /\
  too_masked (N := FloatNum) 20 100 = false /\
  too_masked (N := FloatNum) 200000 1000000 = false /\
  too_masked (N := FloatNum) 199 1000 = true /\
  too_masked (N := FloatNum) 199999 1000000 = true /\
  too_masked (N := FloatNum) 0 0 = false.
Proof. vm_compute. repeat split. Qed.

(** For every window of 1 to 1000 pixels the binary64 test and the exact
    one flip at the same count: the largest count with [5 * unmasked < total]
    is skipped, the next one is not. *)
Example too_masked_binary64_flips_with_exact_test :
  forallb (fun n : nat =>
             let total := Z.of_nat n in
             let below := ((total - 1) / 5)%Z in
             (too_masked (N := FloatNum) below total
              && negb (too_masked (N := FloatNum) (below + 1) total))%bool)
          (seq 1 1000)
  = true.
Proof. vm_compute. reflexivity. Qed.

(* ------------------------------------------------------------------ *)
(** *** Concrete targets *)

(** Constants of the kind [constants.py] holds: the speed of light in
    km/s, the search window, and three BAL transitions. *)
Definition float_constants : Constants float := {|
  c := 299792.458%float;
  search_minlam := 900%float;
  search_maxlam := 1260%float;
  Lya_line := 1215.67%float;
  bal_lines := [("Lya"%string, 1215.67%float); ("NV"%string, 1240.81%float);
                ("CIV"%string, 1549%float)];
  POTENTIAL_BAL := 4;
|}.

Definition real_constants : Constants R := {|
  c := 299792.458%R;
  search_minlam := 900%R;
  search_maxlam := 1260%R;
  Lya_line := 1215.67%R;
  bal_lines := [("Lya"%string, 1215.67%R); ("NV"%string, 1240.81%R);
                ("CIV"%string, 1549%R)];
  POTENTIAL_BAL := 4;
|}.

#[local] Existing Instance float_constants.
#[local] Existing Instance real_constants.

(** A fitter that reports one absorber at [z = 2.5], and one that reports
    none. *)
Definition one_absorber : FitOutput float := {|
  zdla := [2.5%float; (-1)%float; (-1)%float];
  zerr := [0.001%float; 0%float; 0%float];
  nhi := [20.3%float; 0%float; 0%float];
  nhierr := [0.05%float; 0%float; 0%float];
  dchi2 := [50%float; 0%float; 0%float];
  fitwarn := [0%Z; 0%Z; 0%Z];
  coeff_dla := [[1%float]; []; []];
|}.

Definition no_absorber : FitOutput float := {|
  zdla := [(-1)%float; (-1)%float; (-1)%float];
  zerr := [0%float; 0%float; 0%float];
  nhi := [0%float; 0%float; 0%float];
  nhierr := [0%float; 0%float; 0%float];
  dchi2 := [0%float; 0%float; 0%float];
  fitwarn := [0%Z; 0%Z; 0%Z];
  coeff_dla := [[]; []; []];
|}.

Definition fitter_one : Fitter float :=
  {| fit_spectrum_DLA := fun _ _ _ _ _ => Ok one_absorber |}.

Definition fitter_none : Fitter float :=
  {| fit_spectrum_DLA := fun _ _ _ _ _ => Ok no_absorber |}.

Definition real_fitter_none : Fitter R :=
  {| fit_spectrum_DLA := fun _ _ _ _ _ =>
       Ok {| zdla := [(-1)%R]; zerr := [0%R]; nhi := [0%R]; nhierr := [0%R];
             dchi2 := [0%R]; fitwarn := [0%Z]; coeff_dla := [[]] |} |}.

(** A quasar at [z = 2.5] with one BAL feature between 1000 and 25000 km/s,
    on a five-pixel rest-frame grid. *)
Definition bal_entry : CatalogEntry float := {|
  TARGETID := 39627;
  TARGET_RA := 150%float;
  TARGET_DEC := 2%float;
  Z_QSO := 2.5%float;
  NCIV_450 := 1;
  VMAX_CIV_450 := [25000%float];
  VMIN_CIV_450 := [1000%float];
|}.

Definition rest_grid : list float :=
  [1000%float; 1180%float; 1211%float; 1500%float; 1600%float].

(** A prepared target over the reals with five search-window pixels, four of
    them masked. *)
Definition prepared_one_in_five : Prepared (num := R) := {|
  p_idx := 0;
  p_flux := [1; 1; 1; 1; 1]%R;
  p_ivar := [4; 0; 0; 0; 0]%R;
  p_fitmask := [true; true; true; true; true];
  p_searchmask := [true; true; true; true; true];
  p_bal_locs := [];
|}.

Definition real_entry : CatalogEntry R := {|
  TARGETID := 39627;
  TARGET_RA := 150%R;
  TARGET_DEC := 2%R;
  Z_QSO := 2.5%R;
  NCIV_450 := 0;
  VMAX_CIV_450 := [];
  VMIN_CIV_450 := [];
|}.

Definition real_spectra : Spectra R := {|
  wave := [3600; 3700; 3800; 3900; 4000]%R;
  fibermap_TARGETID := [39627%Z];
  flux := [[1; 1; 1; 1; 1]%R];
  ivar := [[4; 0; 0; 0; 0]%R];
|}.

Lemma search_skipped_iff_unmasked_fraction_below_fifth_witness :
  let S := RealSpecial (fun _ _ => 1%R) in
  let unmasked := count_nonzero (N := RealNum) [4; 0; 0; 0; 0]%R in
  let total := count_true (p_searchmask prepared_one_in_five) in
  (search (S := S) (K := real_constants) (F := real_fitter_none)
          false real_spectra real_entry prepared_one_in_five = Ok TooMasked
   <-> (IZR unmasked / IZR total < 0.2)%R) /\
  (search (S := S) (K := real_constants) (F := real_fitter_none)
          false real_spectra real_entry prepared_one_in_five = Ok TooMasked
   <-> (IZR (total - unmasked) / IZR total > 0.8)%R) /\
  ((IZR (total - unmasked) / IZR total = 0.8)%R ->
   search (S := S) (K := real_constants) (F := real_fitter_none)
          false real_spectra real_entry prepared_one_in_five <> Ok TooMasked) /\
  (forall specobj0 specobj' es acc,
      process_entry (S := S) (K := real_constants) (F := real_fitter_none)
                    false specobj0 real_entry = Ok (specobj', TooMasked) ->
      catalog_loop (S := S) (K := real_constants) (F := real_fitter_none)
                   false specobj0 (real_entry :: es) acc
      = catalog_loop (S := S) (K := real_constants) (F := real_fitter_none)
                     false specobj' es acc).
Proof.
  intros S.
  exact (search_skipped_iff_unmasked_fraction_below_fifth
           S real_constants real_fitter_none false real_spectra real_entry
           prepared_one_in_five [4; 0; 0; 0; 0]%R eq_refl eq_refl).
Defined.

(** In that target one pixel in five is unmasked: it is at the boundary,
    and it is searched. *)
Example one_in_five_is_searched :
  search (S := RealSpecial (fun _ _ => 1%R)) (K := real_constants)
         (F := real_fitter_none)
         false real_spectra real_entry prepared_one_in_five <> Ok TooMasked.
Proof.
  intros H.
  apply (search_too_masked_iff (S := RealSpecial (fun _ _ => 1%R))
           false real_spectra real_entry prepared_one_in_five
           [4; 0; 0; 0; 0]%R eq_refl) in H.
  apply too_masked_real in H.
  revert H. unfold count_nonzero, count_true.
  cbn [map p_searchmask prepared_one_in_five filter length].
  cbn [neqb RealNum of_int].
  unfold Reqb.
  repeat match goal with
         | |- context [Req_dec_T ?a ?b] => destruct (Req_dec_T a b); try lra
         end.
  cbn. lra.
Qed.

Definition bal_spectra : Spectra float := {|
  wave := [3500%float; 4130%float; 4238.5%float; 5250%float; 5600%float];
  fibermap_TARGETID := [39627%Z];
  flux := [[1%float; 0.5%float; 0.25%float; 1%float; 1%float]];
  ivar := [[4%float; 4%float; 4%float; 4%float; 4%float]];
|}.

Definition float_special : Special float :=
  FloatSpecial Voigt.exp_stand_in Voigt.wofz_stand_in.

Lemma flag_bal_iff_inside_recorded_window_witness :
  exists flags,
    flag_bal (K := float_constants) true
             [(4328.348861726301%float, 3980.6815431575333%float)]
             (zdla one_absorber) (fitwarn one_absorber) = Ok flags /\
    nth_error flags 0
    = Some (if existsb
                 (fun window : float * float =>
                    ((Lya_line * (of_int 1 + 2.5%float) <? fst window)%num
                     && (Lya_line * (of_int 1 + 2.5%float) >? snd window)%num)%bool)
                 [(4328.348861726301%float, 3980.6815431575333%float)]
            then Z.lor 0 POTENTIAL_BAL
            else 0%Z).
Proof.
  exact (flag_bal_iff_inside_recorded_window
           (K := float_constants)
           [(4328.348861726301%float, 3980.6815431575333%float)]
           (zdla one_absorber) (fitwarn one_absorber) 0 2.5%float 0%Z
           eq_refl eq_refl eq_refl eq_refl).
Defined.

(** The absorber at [z = 2.5] has its centre at 4254.845 Angstrom: inside the
    recorded NV window, outside the recorded Lyman-alpha window. *)
Example flag_bal_binary64 :
  flag_bal (K := float_constants) true
           [(4328.348861726301%float, 3980.6815431575333%float)]
           (zdla one_absorber) (fitwarn one_absorber) = Ok [4%Z; 0%Z; 0%Z] /\
  flag_bal (K := float_constants) true
           [(4240.6523647736667%float, 3900.0291193416547%float)]
           (zdla one_absorber) (fitwarn one_absorber) = Ok [0%Z; 0%Z; 0%Z].
Proof. vm_compute. split; reflexivity. Qed.

Lemma bal_mask_zeroes_windows_records_lya_nv_witness :
  let features := seq 0 (Z.to_nat (NCIV_450 bal_entry)) in
  exists ivar' bal_locs,
    bal_mask (K := float_constants) rest_grid bal_entry
             [1%float; 1%float; 1%float; 1%float; 1%float] = Ok (ivar', bal_locs) /\
    length ivar' = 5%nat /\
    (forall i w v,
        nth_error rest_grid i = Some w ->
        nth_error [1%float; 1%float; 1%float; 1%float; 1%float] i = Some v ->
        nth_error ivar' i
        = Some (if in_some_bal_window (K := float_constants) bal_entry features w
                then of_int 0 else v)) /\
    bal_locs = recorded_windows (K := float_constants) bal_entry features.
Proof.
  exact (bal_mask_zeroes_windows_records_lya_nv
           (K := float_constants) rest_grid bal_entry
           [1%float; 1%float; 1%float; 1%float; 1%float]
           eq_refl (le_n 1) (le_n 1)).
Defined.

(** C4, the claim as stated fails for a transition other than Lyman-alpha
    and NV. The pixel at 1500 Angstrom (rest frame) lies in the C IV window of
    the feature and its inverse variance is set to zero, but the two windows
    recorded are those of Lyman-alpha and NV: the observed-frame C IV window
    is not among them. *)
Lemma bal_mask_civ_window_not_recorded :
  let v_max := velocity_factor (K := float_constants) 25000%float in
  let v_min := velocity_factor (K := float_constants) 1000%float in
  let civ_window := ((1549 * v_min * (1 + 2.5))%float, (1549 * v_max * (1 + 2.5))%float) in
  In ("CIV"%string, 1549%float) (bal_lines (Constants := float_constants)) /\
  in_bal_window 1549%float v_max v_min 1500%float = true /\
  exists ivar' bal_locs,
    bal_mask (K := float_constants) rest_grid bal_entry
             [1%float; 1%float; 1%float; 1%float; 1%float] = Ok (ivar', bal_locs) /\
    nth_error rest_grid 3 = Some 1500%float /\
    nth_error ivar' 3 = Some 0%float /\
    length bal_locs = 2%nat /\
    existsb (fun w : float * float =>
               ((fst w =? fst civ_window)%float && (snd w =? snd civ_window)%float)%bool)
            bal_locs = false.
Proof.
  cbv zeta. split; [right; right; left; reflexivity|].
  split; [vm_compute; reflexivity|].
  do 2 eexists. split; [vm_compute; reflexivity|].
  repeat split.
Qed.

(** The whole function on one target with BAL metadata: the absorber found
    at [z = 2.5] is returned as one row, flagged; with a fitter that accepts
    nothing the result is the empty tuple; and with every pixel of the search
    window masked the target is skipped. *)
Example process_spectra_group_binary64 :
  (exists row,
      process_spectra_group (S := float_special) (K := float_constants)
                            (F := fitter_one) bal_spectra
                            {| has_NCIV_450 := true; entries := [bal_entry] |}
      = Ok (Table [row]) /\
      r_DLAID row = "39627000"%string /\
      r_Z_DLA row = 2.5%float /\
      r_DLAFLAG row = 4%Z) /\
  process_spectra_group (S := float_special) (K := float_constants)
                        (F := fitter_none) bal_spectra
                        {| has_NCIV_450 := true; entries := [bal_entry] |}
  = Ok EmptyTuple /\
  process_spectra_group (S := float_special) (K := float_constants)
                        (F := fitter_one)
                        {| wave := wave bal_spectra;
                           fibermap_TARGETID := [39627%Z];
                           flux := flux bal_spectra;
                           ivar := [[0%float; 0%float; 0%float; 4%float; 4%float]] |}
                        {| has_NCIV_450 := true; entries := [bal_entry] |}
  = Ok EmptyTuple.
Proof.
  split; [|split].
  - eexists. split; [vm_compute; reflexivity|]. repeat split.
  - vm_compute. reflexivity.
  - vm_compute. reflexivity.
Qed.

(* ------------------------------------------------------------------ *)
(** ** Further behaviour of the search *)

Arguments r_RA {num}.
Arguments r_DEC {num}.
Arguments r_Z {num}.
Arguments r_Z_DLA_ERR {num}.
Arguments r_NHI {num}.
Arguments r_NHI_ERR {num}.
Arguments r_COEFF {num}.
Arguments r_DELTACHI2 {num}.

Section Behaviour.
Context {num : Type} {N : Num num} {S : Special num}.
Context {K : Constants num} {F : Fitter num}.
Local Open Scope result_scope.

(** *** Looking a target up in the fibermap *)

Lemma first_index_none (tid : Z) (tids : list Z) :
  first_index tid tids = None <-> ~ In tid tids.
Proof.
  induction tids as [|t tids IH]; cbn [first_index In].
  - split; [intros _ []|reflexivity].
  - destruct (Z.eqb_spec t tid) as [->|Hne].
    + split; [discriminate|]. intros H. exfalso. apply H. left. reflexivity.
    + destruct (first_index tid tids) as [i|]; cbn [option_map].
      * split; [discriminate|]. intros H. exfalso.
        assert (Hin : In tid tids).
        { destruct (in_dec Z.eq_dec tid tids) as [Hin|Hnin]; [exact Hin|].
          apply IH in Hnin. discriminate. }
        apply H. right. exact Hin.
      * split; [|reflexivity]. intros _ [Heq|Hin]; [contradiction|].
        destruct IH as [IH _]. apply (IH eq_refl). exact Hin.
Qed.

Lemma first_index_some (tid : Z) (tids : list Z) :
  forall idx,
    first_index tid tids = Some idx ->
    nth_error tids idx = Some tid /\
    forall j, (j < idx)%nat -> nth_error tids j <> Some tid.
Proof.
  induction tids as [|t tids IH]; intros idx; cbn [first_index]; [discriminate|].
  destruct (Z.eqb_spec t tid) as [->|Hne].
  - intros H. injection H as <-. split; [reflexivity|]. intros j Hj. lia.
  - destruct (first_index tid tids) as [i|]; cbn [option_map]; [|discriminate].
    intros H. injection H as <-. destruct (IH i eq_refl) as [Hn Hfirst].
    split; [exact Hn|]. intros [|j] Hj; cbn [nth_error].
    + intros E. injection E as E. contradiction.
    + apply Hfirst. lia.
Qed.

(** *** Writing one row back *)

Lemma set_row_same {A : Type} (rows : list (list A)) (idx : nat) (row : list A) :
  nth_error rows idx = Some row -> set_row rows idx row = rows.
Proof.
  unfold set_row. revert idx.
  induction rows as [|r rows IH]; intros [|idx]; cbn; try discriminate.
  - intros H. injection H as ->. reflexivity.
  - intros H. f_equal. apply IH. exact H.
Qed.

Lemma set_row_length {A : Type} (rows : list (list A)) (idx : nat) (row : list A) :
  (idx < length rows)%nat -> length (set_row rows idx row) = length rows.
Proof.
  intros H. unfold set_row.
  rewrite length_app, length_firstn. cbn [length]. rewrite length_skipn. lia.
Qed.

Lemma set_row_nth_other {A : Type} (rows : list (list A)) (idx j : nat)
                        (row : list A) :
  (idx < length rows)%nat -> j <> idx ->
  nth_error (set_row rows idx row) j = nth_error rows j.
Proof.
  unfold set_row. revert idx j.
  induction rows as [|r rows IH]; intros idx j Hlt H; cbn in Hlt; [lia|].
  destruct idx as [|idx], j as [|j]; cbn; try reflexivity; try contradiction.
  apply IH; lia.
Qed.

Lemma set_row_nth_same {A : Type} (rows : list (list A)) (idx : nat)
                       (row : list A) :
  (idx < length rows)%nat -> nth_error (set_row rows idx row) idx = Some row.
Proof.
  unfold set_row. revert idx.
  induction rows as [|r rows IH]; intros [|idx] H; cbn in *; try lia.
  - reflexivity.
  - apply IH. lia.
Qed.

Lemma index_some {A : Type} (l : list A) (i : nat) (a : A) :
  index l i = Ok a -> nth_error l i = Some a.
Proof.
  unfold index. destruct (nth_error l i); [|discriminate].
  intros H. injection H as ->. reflexivity.
Qed.

(** What [prepare] returns when the catalog has no BAL columns. *)
Lemma prepare_without_bal (specobj : Spectra num) (entry : CatalogEntry num)
                          (idx : nat) (p : Prepared) :
  prepare false specobj entry idx = Ok p ->
  nth_error (ivar specobj) idx = Some (p_ivar p) /\ p_bal_locs p = [].
Proof.
  unfold prepare.
  destruct (index (flux specobj) idx) as [flux_t|]; cbn [bind]; [|discriminate].
  destruct (index (ivar specobj) idx) as [ivar_t|] eqn:Ei; cbn [bind];
    [|discriminate].
  destruct (bool_index _ _) as [wave_rf_fit|]; cbn [bind]; [|discriminate].
  intros H. injection H as <-. cbn. split; [|reflexivity].
  apply index_some. exact Ei.
Qed.

Lemma prepare_rows (has_bal : bool) (specobj : Spectra num)
                   (entry : CatalogEntry num) (idx : nat) (p : Prepared) :
  prepare has_bal specobj entry idx = Ok p ->
  p_idx p = idx /\
  nth_error (flux specobj) idx = Some (p_flux p) /\
  (idx < length (ivar specobj))%nat.
Proof.
  unfold prepare.
  destruct (index (flux specobj) idx) as [flux_t|] eqn:Ef; cbn [bind];
    [|discriminate].
  destruct (index (ivar specobj) idx) as [ivar_t|] eqn:Ei; cbn [bind];
    [|discriminate].
  destruct (bool_index _ _) as [wave_rf_fit|]; cbn [bind]; [|discriminate].
  destruct (if has_bal then _ else _) as [[iv locs]|]; cbn [bind]; [|discriminate].
  intros H. injection H as <-. cbn. split; [reflexivity|].
  split; [apply index_some; exact Ef|].
  apply index_some in Ei. apply nth_error_Some. rewrite Ei. discriminate.
Qed.

(** The parts of [process_entry]. *)
Lemma process_entry_inv (has_bal : bool) (specobj specobj' : Spectra num)
                        (entry : CatalogEntry num) (o : Outcome num) :
  process_entry has_bal specobj entry = Ok (specobj', o) ->
  exists idx p,
    first_index (TARGETID entry) (fibermap_TARGETID specobj) = Some idx /\
    prepare has_bal specobj entry idx = Ok p /\
    specobj' = {| wave := wave specobj;
                  fibermap_TARGETID := fibermap_TARGETID specobj;
                  flux := flux specobj;
                  ivar := set_row (ivar specobj) idx (p_ivar p) |} /\
    search has_bal specobj' entry p = Ok o.
Proof.
  unfold process_entry.
  destruct (first_index _ _) as [idx|]; [|discriminate].
  destruct (prepare has_bal specobj entry idx) as [p|] eqn:Ep; cbn [bind];
    [|discriminate].
  match goal with
  | |- context [search ?hb ?so ?en ?pp] =>
      destruct (search hb so en pp) as [o'|] eqn:Es; cbn [bind]; [|discriminate]
  end.
  intros H. injection H as <- <-. exists idx, p.
  split; [reflexivity|]. split; [exact Ep|]. split; [reflexivity|exact Es].
Qed.

(** X12. One pass of the loop leaves the wavelength grid, the fibermap and
    the fluxes as they were and writes to one inverse-variance row only, the
    row of the target; without BAL columns in the catalog it writes back the
    row it read, so the spectra are unchanged. *)
Theorem process_entry_frame :
  forall (has_bal : bool) (specobj specobj' : Spectra num)
         (entry : CatalogEntry num) (o : Outcome num),
    process_entry has_bal specobj entry = Ok (specobj', o) ->
    wave specobj' = wave specobj /\
    fibermap_TARGETID specobj' = fibermap_TARGETID specobj /\
    flux specobj' = flux specobj /\
    length (ivar specobj') = length (ivar specobj) /\
    (exists idx,
        first_index (TARGETID entry) (fibermap_TARGETID specobj) = Some idx /\
        forall j, j <> idx ->
                  nth_error (ivar specobj') j = nth_error (ivar specobj) j) /\
    (has_bal = false -> specobj' = specobj).
Proof.
  intros has_bal so so' entry o H.
  destruct (process_entry_inv _ _ _ _ _ H) as [idx [p [Hi [Hp [-> _]]]]].
  cbn [wave fibermap_TARGETID flux ivar].
  destruct (prepare_rows _ _ _ _ _ Hp) as [_ [_ Hlt]].
  repeat split.
  - apply set_row_length. exact Hlt.
  - exists idx. split; [exact Hi|]. intros j Hj. apply set_row_nth_other; assumption.
  - intros ->. destruct (prepare_without_bal _ _ _ _ Hp) as [Hrow _].
    rewrite (set_row_same _ _ _ Hrow). destruct so; reflexivity.
Qed.

(** *** A target that the spectra do not hold *)

Lemma process_entry_missing (has_bal : bool) (specobj : Spectra num)
                            (entry : CatalogEntry num) :
  ~ In (TARGETID entry) (fibermap_TARGETID specobj) ->
  process_entry has_bal specobj entry = Raise NameError.
Proof.
  intros H. apply first_index_none in H. unfold process_entry. rewrite H.
  reflexivity.
Qed.

Lemma process_entry_fibermap (has_bal : bool) (specobj specobj' : Spectra num)
                             (entry : CatalogEntry num) (o : Outcome num) :
  process_entry has_bal specobj entry = Ok (specobj', o) ->
  fibermap_TARGETID specobj' = fibermap_TARGETID specobj.
Proof.
  intros H. destruct (process_entry_inv _ _ _ _ _ H) as [idx [p [_ [_ [-> _]]]]].
  reflexivity.
Qed.

Lemma catalog_loop_missing (has_bal : bool) (entry : CatalogEntry num)
                           (es : list (CatalogEntry num)) :
  forall (specobj : Spectra num) (acc : list (Row num)),
    In entry es ->
    ~ In (TARGETID entry) (fibermap_TARGETID specobj) ->
    exists e, catalog_loop has_bal specobj es acc = Raise e.
Proof.
  induction es as [|e0 es IH]; intros so acc Hin Hmiss; [destruct Hin|].
  cbn [catalog_loop].
  destruct (process_entry has_bal so e0) as [[so' o]|e] eqn:E; cbn [bind];
    [|eauto].
  destruct Hin as [->|Hin].
  - rewrite (process_entry_missing _ _ _ Hmiss) in E. discriminate.
  - apply IH; [exact Hin|].
    rewrite (process_entry_fibermap _ _ _ _ _ E). exact Hmiss.
Qed.

(** X13. A catalog target that the fibermap does not list stops the whole
    run: the handler of the failed lookup formats [healpix], which is not a
    name of [process_spectra_group], so instead of skipping the target the
    function raises.  With such a target anywhere in the catalog no result
    is returned, and when it is the first entry the exception is
    [NameError]. *)
Theorem process_spectra_group_missing_target_raises :
  forall (specobj : Spectra num) (catalog : Catalog num)
         (entry : CatalogEntry num),
    In entry (entries catalog) ->
    ~ In (TARGETID entry) (fibermap_TARGETID specobj) ->
    (exists e, process_spectra_group specobj catalog = Raise e) /\
    (hd_error (entries catalog) = Some entry ->
     process_spectra_group specobj catalog = Raise NameError).
Proof.
  intros so catalog entry Hin Hmiss. split.
  - destruct (catalog_loop_missing (has_NCIV_450 catalog) entry (entries catalog)
                so [] Hin Hmiss) as [e He].
    exists e. unfold process_spectra_group. rewrite He. reflexivity.
  - unfold process_spectra_group.
    destruct (entries catalog) as [|e0 es]; [discriminate|].
    intros H. injection H as ->. cbn [catalog_loop].
    rewrite (process_entry_missing _ _ _ Hmiss). reflexivity.
Qed.

(** *** The BAL mask, again *)

Lemma bal_features_loop_app (wave_rf : list num) (entry : CatalogEntry num)
                            (ns1 ns2 : list nat) :
  forall st,
    bal_features_loop wave_rf entry (ns1 ++ ns2) st
    = (st' <- bal_features_loop wave_rf entry ns1 st ;;
       bal_features_loop wave_rf entry ns2 st').
Proof.
  induction ns1 as [|n ns1 IH]; intros st; cbn [app bal_features_loop bind];
    [reflexivity|].
  destruct (bal_feature_step wave_rf entry st n) as [st'|]; cbn [bind];
    [apply IH|reflexivity].
Qed.

(** X14. Masking is idempotent: applied to the inverse variance it has
    already masked, the BAL mask changes nothing and records the same
    windows. *)
Theorem bal_mask_idempotent :
  forall (wave_rf : list num) (entry : CatalogEntry num) (ivar : list num),
    length ivar = length wave_rf ->
    (Z.to_nat (NCIV_450 entry) <= length (VMAX_CIV_450 entry))%nat ->
    (Z.to_nat (NCIV_450 entry) <= length (VMIN_CIV_450 entry))%nat ->
    exists ivar' bal_locs,
      bal_mask wave_rf entry ivar = Ok (ivar', bal_locs) /\
      bal_mask wave_rf entry ivar' = Ok (ivar', bal_locs).
Proof.
  intros wave_rf entry ivar0 Hlen Hmax Hmin.
  set (features := seq 0 (Z.to_nat (NCIV_450 entry))).
  assert (Hns : Forall (fun n => (n < length (VMAX_CIV_450 entry))%nat
                                 /\ (n < length (VMIN_CIV_450 entry))%nat) features).
  { apply Forall_forall. intros n Hn. apply in_seq in Hn. lia. }
  pose proof (bal_features_loop_spec wave_rf entry features (fun _ => false)
                                     ivar0 [] Hlen Hns) as E.
  rewrite zero_where_none in E by exact Hlen.
  unfold bal_mask. fold features. rewrite E.
  do 2 eexists. split; [reflexivity|].
  rewrite (bal_features_loop_spec wave_rf entry features _ ivar0 [] Hlen Hns).
  f_equal. f_equal. apply zero_where_ext. intros w.
  destruct (in_some_bal_window entry features w); reflexivity.
Qed.

(** X15. A velocity column shorter than [NCIV_450] announces is an
    [IndexError]: the loop over the features reads one entry too many. *)
Theorem bal_mask_short_velocity_column_raises :
  forall (wave_rf : list num) (entry : CatalogEntry num) (ivar : list num),
    length ivar = length wave_rf ->
    (length (VMAX_CIV_450 entry) < Z.to_nat (NCIV_450 entry))%nat \/
    (length (VMIN_CIV_450 entry) < Z.to_nat (NCIV_450 entry))%nat ->
    bal_mask wave_rf entry ivar = Raise IndexError.
Proof.
  intros wave_rf entry ivar0 Hlen Hshort.
  set (m := Nat.min (length (VMAX_CIV_450 entry)) (length (VMIN_CIV_450 entry))).
  assert (Hm : (m < Z.to_nat (NCIV_450 entry))%nat) by lia.
  unfold bal_mask.
  replace (Z.to_nat (NCIV_450 entry))
    with (m + Datatypes.S (Z.to_nat (NCIV_450 entry) - Datatypes.S m))%nat by lia.
  rewrite seq_app, bal_features_loop_app.
  assert (Hns : Forall (fun n => (n < length (VMAX_CIV_450 entry))%nat
                                 /\ (n < length (VMIN_CIV_450 entry))%nat)
                       (seq 0 m)).
  { apply Forall_forall. intros n Hn. apply in_seq in Hn. lia. }
  pose proof (bal_features_loop_spec wave_rf entry (seq 0 m) (fun _ => false)
                                     ivar0 [] Hlen Hns) as E.
  rewrite zero_where_none in E by exact Hlen.
  rewrite E. cbn [bind seq bal_features_loop Nat.add].
  unfold bal_feature_step.
  destruct (Nat.le_gt_cases (length (VMAX_CIV_450 entry)) m) as [Hle|Hgt].
  - rewrite (index_out_of_range _ _ Hle). reflexivity.
  - rewrite (index_nth (VMAX_CIV_450 entry) m (of_int 0) Hgt). cbn [bind].
    rewrite (index_out_of_range (VMIN_CIV_450 entry) m) by lia. reflexivity.
Qed.

(** *** The contamination flag, again *)

Lemma flag_window_mismatch (lam : list num) (fitwarn : list Z)
                           (window : num * num) :
  length fitwarn <> length lam ->
  flag_window lam fitwarn window = Raise IndexError.
Proof.
  intros H. unfold flag_window. rewrite length_map.
  destruct (Nat.eqb_spec (length lam) (length fitwarn)); [|reflexivity].
  exfalso. apply H. symmetry. assumption.
Qed.

(** X16. The flagging step either raises [IndexError] or returns one flag
    per fit warning, each the warning itself or the warning with
    [POTENTIAL_BAL] set.  It raises exactly when the catalog has BAL
    metadata, some absorber is accepted, at least one window is recorded and
    [fitwarn] is not as long as [zdla]; it returns [fitwarn] untouched
    without BAL metadata, without an accepted absorber, or without a
    recorded window. *)
Theorem flag_bal_outcome :
  forall (has_bal : bool) (bal_locs : list (num * num)) (zdla : list num)
         (fitwarn : list Z),
    (if (has_bal && existsb accepted zdla
         && negb (length bal_locs =? 0)%nat
         && negb (length fitwarn =? length zdla)%nat)%bool
     then flag_bal has_bal bal_locs zdla fitwarn = Raise IndexError
     else exists flags,
         flag_bal has_bal bal_locs zdla fitwarn = Ok flags /\
         length flags = length fitwarn /\
         forall i fw,
           nth_error fitwarn i = Some fw ->
           nth_error flags i = Some fw \/
           nth_error flags i = Some (Z.lor fw POTENTIAL_BAL)) /\
    ((has_bal && existsb accepted zdla && negb (length bal_locs =? 0)%nat)%bool
     = false ->
     flag_bal has_bal bal_locs zdla fitwarn = Ok fitwarn).
Proof.
  intros has_bal bal_locs zs fitwarn.
  assert (Hoff : (has_bal && existsb accepted zs
                  && negb (length bal_locs =? 0)%nat)%bool = false ->
                 flag_bal has_bal bal_locs zs fitwarn = Ok fitwarn).
  { unfold flag_bal.
    destruct (has_bal && existsb accepted zs)%bool; cbn [andb]; [|reflexivity].
    destruct bal_locs; [reflexivity|discriminate]. }
  split; [|exact Hoff].
  destruct (has_bal && existsb accepted zs
            && negb (length bal_locs =? 0)%nat)%bool eqn:Eg; cbn [andb].
  2: { exists fitwarn. split; [apply Hoff; reflexivity|].
       split; [reflexivity|]. intros i fw Hf. left. exact Hf. }
  apply andb_prop in Eg. destruct Eg as [Eg Hlocs]. unfold flag_bal. rewrite Eg.
  destruct (Nat.eqb_spec (length fitwarn) (length zs)) as [Hlen|Hlen]; cbn [negb].
  - destruct (flag_windows_nth (map (fun z => (Lya_line * (of_int 1 + z))%num) zs)
                               bal_locs fitwarn) as [flags [E [L Hn]]].
    { rewrite length_map. exact Hlen. }
    exists flags. split; [exact E|]. rewrite length_map in L.
    split; [lia|]. intros i fw Hf.
    destruct (nth_error (map (fun z => (Lya_line * (of_int 1 + z))%num) zs) i)
      as [lc|] eqn:El.
    + rewrite (Hn i lc fw El Hf).
      destruct (existsb _ bal_locs); [right|left]; reflexivity.
    + apply nth_error_None in El. rewrite length_map in El.
      assert (Hi : (i < length fitwarn)%nat).
      { apply nth_error_Some. rewrite Hf. discriminate. }
      lia.
  - destruct bal_locs as [|window bal_locs]; [discriminate|].
    cbn [flag_windows]. rewrite flag_window_mismatch; [reflexivity|].
    rewrite length_map. exact Hlen.
Qed.

(** *** The rows of one target, again *)

Lemma bool_index_raise {A : Type} (a : list A) (mask : list bool) (e : exn) :
  bool_index a mask = Raise e -> e = IndexError.
Proof.
  unfold bool_index. destruct (length mask =? length a)%nat; [discriminate|].
  intros H. injection H as <-. reflexivity.
Qed.

Lemma index_raise {A : Type} (l : list A) (i : nat) (e : exn) :
  index l i = Raise e -> e = IndexError.
Proof.
  unfold index. destruct (nth_error l i); [discriminate|].
  intros H. injection H as <-. reflexivity.
Qed.

Lemma mean_snr_raise (flux_search ivar_search : list num) (e : exn) :
  mean_snr flux_search ivar_search = Raise e -> e = IndexError.
Proof.
  unfold mean_snr.
  destruct (bool_index _ _) as [sn|e'] eqn:E; cbn [bind]; [discriminate|].
  intros H. injection H as <-. apply bool_index_raise in E. exact E.
Qed.

Lemma mean_snr_returns (flux_search ivar_search : list num) :
  length flux_search = length ivar_search ->
  exists snr, mean_snr flux_search ivar_search = Ok snr.
Proof.
  intros H. unfold mean_snr, bool_index.
  rewrite !length_map, length_combine, H, Nat.min_id, Nat.eqb_refl.
  cbn [bind]. eauto.
Qed.

Lemma build_row_inv (entry : CatalogEntry num) (fit : FitOutput num)
                    (flags : list Z) (flux_search ivar_search : list num)
                    (n : nat) (row : Row num) :
  build_row entry fit flags flux_search ivar_search n = Ok row ->
  r_TARGETID row = TARGETID entry /\
  r_RA row = TARGET_RA entry /\ r_DEC row = TARGET_DEC entry /\
  r_Z row = Z_QSO entry /\
  r_DLAID row
  = (str_of_Z (TARGETID entry) ++ "00" ++ str_of_Z (Z.of_nat n))%string /\
  nth_error (zdla fit) n = Some (r_Z_DLA row) /\
  nth_error (zerr fit) n = Some (r_Z_DLA_ERR row) /\
  nth_error (nhi fit) n = Some (r_NHI row) /\
  nth_error (nhierr fit) n = Some (r_NHI_ERR row) /\
  nth_error (dchi2 fit) n = Some (r_DELTACHI2 row) /\
  nth_error flags n = Some (r_DLAFLAG row) /\
  nth_error (coeff_dla fit) n = Some (r_COEFF row) /\
  mean_snr flux_search ivar_search = Ok (r_SNR row).
Proof.
  unfold build_row.
  destruct (index (zdla fit) n) as [z|] eqn:E1; cbn [bind]; [|discriminate].
  destruct (index (zerr fit) n) as [ze|] eqn:E2; cbn [bind]; [|discriminate].
  destruct (index (nhi fit) n) as [nh|] eqn:E3; cbn [bind]; [|discriminate].
  destruct (index (nhierr fit) n) as [nhe|] eqn:E4; cbn [bind]; [|discriminate].
  destruct (index (dchi2 fit) n) as [dc|] eqn:E5; cbn [bind]; [|discriminate].
  destruct (index flags n) as [fw|] eqn:E6; cbn [bind]; [|discriminate].
  destruct (index (coeff_dla fit) n) as [co|] eqn:E7; cbn [bind]; [|discriminate].
  destruct (mean_snr flux_search ivar_search) as [snr|] eqn:E8; cbn [bind];
    [|discriminate].
  intros H. injection H as <-. cbn.
  repeat split; try (apply index_some; assumption).
Qed.

Lemma build_row_raise (entry : CatalogEntry num) (fit : FitOutput num)
                      (flags : list Z) (flux_search ivar_search : list num)
                      (n : nat) (e : exn) :
  build_row entry fit flags flux_search ivar_search n = Raise e -> e = IndexError.
Proof.
  unfold build_row.
  repeat match goal with
         | |- context [bind (index ?l ?i) _] =>
             let E := fresh "E" in
             destruct (index l i) eqn:E; cbn [bind];
             [|intros H; injection H as <-; apply index_raise in E; exact E]
         end.
  destruct (mean_snr flux_search ivar_search) eqn:E8; cbn [bind]; [discriminate|].
  intros H. injection H as <-. apply mean_snr_raise in E8. exact E8.
Qed.

Lemma build_rows_raise (entry : CatalogEntry num) (fit : FitOutput num)
                       (flags : list Z) (flux_search ivar_search : list num)
                       (ns : list nat) (e : exn) :
  build_rows entry fit flags flux_search ivar_search ns = Raise e ->
  e = IndexError.
Proof.
  induction ns as [|n ns IH]; cbn [build_rows]; [discriminate|].
  destruct (build_row _ _ _ _ _ n) as [row|e'] eqn:E; cbn [bind].
  - destruct (build_rows _ _ _ _ _ ns) as [rows|e'']; cbn [bind]; [discriminate|].
    intros H. injection H as <-. apply IH. reflexivity.
  - intros H. injection H as <-. apply build_row_raise in E. exact E.
Qed.

Lemma build_rows_nth (entry : CatalogEntry num) (fit : FitOutput num)
                     (flags : list Z) (flux_search ivar_search : list num)
                     (ns : list nat) :
  forall rows,
    build_rows entry fit flags flux_search ivar_search ns = Ok rows ->
    forall i n,
      nth_error ns i = Some n ->
      exists row,
        nth_error rows i = Some row /\
        build_row entry fit flags flux_search ivar_search n = Ok row.
Proof.
  induction ns as [|n0 ns IH]; intros rows; cbn [build_rows].
  - intros _ [|i] n H; discriminate.
  - destruct (build_row _ _ _ _ _ n0) as [row0|] eqn:E0; cbn [bind];
      [|discriminate].
    destruct (build_rows _ _ _ _ _ ns) as [rows'|]; cbn [bind]; [|discriminate].
    intros H. injection H as <-. intros [|i] n Hn; cbn [nth_error] in *.
    + injection Hn as <-. eauto.
    + apply (IH rows' eq_refl i n Hn).
Qed.

Lemma build_rows_returns (entry : CatalogEntry num) (fit : FitOutput num)
                         (flags : list Z) (flux_search ivar_search : list num)
                         (ns : list nat) :
  (forall n, In n ns ->
             exists row, build_row entry fit flags flux_search ivar_search n = Ok row) ->
  exists rows, build_rows entry fit flags flux_search ivar_search ns = Ok rows.
Proof.
  induction ns as [|n ns IH]; intros H; cbn [build_rows]; [eauto|].
  destruct (H n (or_introl eq_refl)) as [row ->]. cbn [bind].
  destruct IH as [rows ->]; [intros m Hm; apply H; right; exact Hm|].
  cbn [bind]. eauto.
Qed.

Lemma build_row_returns (entry : CatalogEntry num) (fit : FitOutput num)
                        (flags : list Z) (flux_search ivar_search : list num)
                        (n : nat) :
  length flux_search = length ivar_search ->
  (n < length (zdla fit))%nat -> (n < length (zerr fit))%nat ->
  (n < length (nhi fit))%nat -> (n < length (nhierr fit))%nat ->
  (n < length (dchi2 fit))%nat -> (n < length flags)%nat ->
  (n < length (coeff_dla fit))%nat ->
  exists row, build_row entry fit flags flux_search ivar_search n = Ok row.
Proof.
  intros Hs H1 H2 H3 H4 H5 H6 H7. unfold build_row.
  rewrite (index_nth _ _ (of_int 0) H1), (index_nth _ _ (of_int 0) H2),
    (index_nth _ _ (of_int 0) H3), (index_nth _ _ (of_int 0) H4),
    (index_nth _ _ (of_int 0) H5), (index_nth _ _ 0%Z H6),
    (index_nth _ _ [] H7).
  cbn [bind]. destruct (mean_snr_returns _ _ Hs) as [snr ->]. cbn [bind]. eauto.
Qed.

Lemma nth_error_some_lt {A : Type} (l : list A) (n : nat) (a : A) :
  nth_error l n = Some a -> (n < length l)%nat.
Proof. intros H. apply nth_error_Some. rewrite H. discriminate. Qed.

(** The shortest of the seven arrays a row reads. *)
Definition shortest_array (fit : FitOutput num) (flags : list Z) : nat :=
  Nat.min (length (zdla fit))
    (Nat.min (length (zerr fit))
       (Nat.min (length (nhi fit))
          (Nat.min (length (nhierr fit))
             (Nat.min (length (dchi2 fit))
                (Nat.min (length flags) (length (coeff_dla fit))))))).


(** X18. Building [k] rows returns exactly when each of the seven arrays
    has at least [k] entries (the search-window flux and inverse variance
    being equally long, as they are in [search]); with a shorter array it
    raises [IndexError], and it never raises anything else. *)
Theorem build_rows_returns_iff_arrays_long_enough :
  forall (entry : CatalogEntry num) (fit : FitOutput num) (flags : list Z)
         (flux_search ivar_search : list num) (k : nat),
    length flux_search = length ivar_search ->
    if (k <=? shortest_array fit flags)%nat
    then exists rows,
        build_rows entry fit flags flux_search ivar_search (seq 0 k) = Ok rows
    else build_rows entry fit flags flux_search ivar_search (seq 0 k)
         = Raise IndexError.
Proof.
  intros entry fit flags fs ivs k Hs. unfold shortest_array.
  destruct (Nat.leb_spec k
              (Nat.min (length (zdla fit))
                 (Nat.min (length (zerr fit))
                    (Nat.min (length (nhi fit))
                       (Nat.min (length (nhierr fit))
                          (Nat.min (length (dchi2 fit))
                             (Nat.min (length flags) (length (coeff_dla fit))))))))
           ) as [Hle|Hgt].
  - apply build_rows_returns. intros n Hn. apply in_seq in Hn.
    apply build_row_returns; try assumption; lia.
  - destruct (build_rows entry fit flags fs ivs (seq 0 k)) as [rows|e] eqn:E.
    + exfalso.
      set (m := Nat.min (length (zdla fit))
                 (Nat.min (length (zerr fit))
                    (Nat.min (length (nhi fit))
                       (Nat.min (length (nhierr fit))
                          (Nat.min (length (dchi2 fit))
                             (Nat.min (length flags) (length (coeff_dla fit)))))))) in *.
      destruct (build_rows_nth _ _ _ _ _ _ _ E m m) as [row [_ Hb]].
      { rewrite nth_error_nth' with (d := 0%nat) by (rewrite length_seq; exact Hgt).
        rewrite seq_nth by exact Hgt. reflexivity. }
      destruct (build_row_inv _ _ _ _ _ _ _ Hb)
        as [_ [_ [_ [_ [_ [H1 [H2 [H3 [H4 [H5 [H6 [H7 _]]]]]]]]]]]].
      apply nth_error_some_lt in H1, H2, H3, H4, H5, H6, H7.
      unfold m in *. lia.
    + apply build_rows_raise in E. rewrite E. reflexivity.
Qed.

(** *** Where the rows of the table come from *)

Lemma build_rows_all (entry : CatalogEntry num) (fit : FitOutput num)
                     (flags : list Z) (flux_search ivar_search : list num)
                     (ns : list nat) :
  forall rows,
    build_rows entry fit flags flux_search ivar_search ns = Ok rows ->
    Forall (fun row =>
              exists n, In n ns /\
                        build_row entry fit flags flux_search ivar_search n = Ok row)
           rows.
Proof.
  induction ns as [|n0 ns IH]; intros rows; cbn [build_rows].
  - intros H. injection H as <-. constructor.
  - destruct (build_row _ _ _ _ _ n0) as [row0|] eqn:E0; cbn [bind];
      [|discriminate].
    destruct (build_rows _ _ _ _ _ ns) as [rows'|]; cbn [bind]; [|discriminate].
    intros H. injection H as <-. constructor.
    + exists n0. split; [left; reflexivity|exact E0].
    + eapply Forall_impl; [|apply IH; reflexivity].
      intros row [n [Hn Hb]]. exists n. split; [right; exact Hn|exact Hb].
Qed.

(** The parts of a fitted [search]. *)
Lemma search_fitted_inv (has_bal : bool) (specobj : Spectra num)
                        (entry : CatalogEntry num) (p : Prepared)
                        (fit : FitOutput num) (flags : list Z)
                        (rows : list (Row num)) :
  search has_bal specobj entry p = Ok (Fitted fit flags rows) ->
  exists wave_fit flux_fit ivar_fit flux_search ivar_search,
    fit_spectrum_DLA wave_fit flux_fit ivar_fit (p_searchmask p) (Z_QSO entry)
    = Ok fit /\
    flag_bal has_bal (p_bal_locs p) (zdla fit) (fitwarn fit) = Ok flags /\
    build_rows entry fit flags flux_search ivar_search
               (seq 0 (Z.to_nat (ndla (zdla fit)))) = Ok rows.
Proof.
  unfold search.
  destruct (search_window_ivar p) as [ivar_search|]; cbn [bind]; [|discriminate].
  destruct (too_masked _ _); [discriminate|].
  destruct (bool_index (wave specobj) _) as [wave_fit|]; cbn [bind];
    [|discriminate].
  destruct (bool_index (p_flux p) _) as [flux_fit|]; cbn [bind]; [|discriminate].
  destruct (bool_index (p_ivar p) _) as [ivar_fit|]; cbn [bind]; [|discriminate].
  destruct (fit_spectrum_DLA _ _ _ _ _) as [fit'|] eqn:Ef; cbn [bind];
    [|discriminate].
  destruct (flag_bal _ _ _ _) as [flags'|] eqn:Eb; cbn [bind]; [|discriminate].
  destruct (bool_index flux_fit _) as [flux_search|]; cbn [bind]; [|discriminate].
  destruct (build_rows _ _ _ _ _ _) as [rows'|] eqn:Er; cbn [bind];
    [|discriminate].
  intros H. injection H as <- <- <-.
  exists wave_fit, flux_fit, ivar_fit, flux_search, ivar_search.
  split; [exact Ef|]. split; [exact Eb|exact Er].
Qed.

(** A row of [entry]: its identifier, coordinates and redshift. *)
Definition row_of_entry (entry : CatalogEntry num) (row : Row num) : Prop :=
  r_TARGETID row = TARGETID entry /\
  r_RA row = TARGET_RA entry /\ r_DEC row = TARGET_DEC entry /\
  r_Z row = Z_QSO entry.

Lemma process_entry_rows (has_bal : bool) (specobj specobj' : Spectra num)
                         (entry : CatalogEntry num) (o : Outcome num) :
  process_entry has_bal specobj entry = Ok (specobj', o) ->
  In (TARGETID entry) (fibermap_TARGETID specobj) /\
  Forall (row_of_entry entry) (rows_of o).
Proof.
  intros H. destruct (process_entry_inv _ _ _ _ _ H) as [idx [p [Hi [_ [_ Hs]]]]].
  split.
  - destruct (first_index_some _ _ _ Hi) as [Hn _].
    eapply nth_error_In. exact Hn.
  - destruct o as [|fit flags rows]; cbn [rows_of]; [constructor|].
    destruct (search_fitted_inv _ _ _ _ _ _ _ Hs)
      as [wf [ff [iv [fs [ivs [_ [_ Hr]]]]]]].
    eapply Forall_impl; [|apply (build_rows_all _ _ _ _ _ _ _ Hr)].
    intros row [n [_ Hb]].
    destruct (build_row_inv _ _ _ _ _ _ _ Hb) as [H1 [H2 [H3 [H4 _]]]].
    repeat split; assumption.
Qed.

Lemma catalog_loop_rows (has_bal : bool) (es : list (CatalogEntry num)) :
  forall (specobj : Spectra num) (acc rows : list (Row num)),
    catalog_loop has_bal specobj es acc = Ok rows ->
    exists rows',
      rows = acc ++ rows' /\
      Forall (fun row =>
                exists entry,
                  In entry es /\
                  In (TARGETID entry) (fibermap_TARGETID specobj) /\
                  row_of_entry entry row) rows'.
Proof.
  induction es as [|e0 es IH]; intros so acc rows; cbn [catalog_loop].
  - intros H. injection H as <-. exists []. rewrite app_nil_r.
    split; [reflexivity|constructor].
  - destruct (process_entry has_bal so e0) as [[so' o]|] eqn:E; cbn [bind];
      [|discriminate].
    intros H. destruct (IH _ _ _ H) as [rows' [-> Hall]].
    destruct (process_entry_rows _ _ _ _ _ E) as [Hin Ho].
    exists (rows_of o ++ rows'). split; [rewrite app_assoc; reflexivity|].
    apply Forall_app. split.
    + eapply Forall_impl; [|exact Ho]. intros row Hrow.
      exists e0. split; [left; reflexivity|]. split; assumption.
    + eapply Forall_impl; [|exact Hall]. intros row [en [H1 [H2 H3]]].
      exists en. split; [right; exact H1|]. split; [|exact H3].
      rewrite <- (process_entry_fibermap _ _ _ _ _ E). exact H2.
Qed.

(** X19. Every row of the returned table belongs to a catalog entry whose
    target the fibermap lists: it carries that entry's [TARGETID],
    coordinates and redshift. *)
Theorem process_spectra_group_rows_from_catalog :
  forall (specobj : Spectra num) (catalog : Catalog num) (rows : list (Row num)),
    process_spectra_group specobj catalog = Ok (Table rows) ->
    Forall (fun row =>
              exists entry,
                In entry (entries catalog) /\
                In (TARGETID entry) (fibermap_TARGETID specobj) /\
                r_TARGETID row = TARGETID entry /\
                r_RA row = TARGET_RA entry /\ r_DEC row = TARGET_DEC entry /\
                r_Z row = Z_QSO entry) rows.
Proof.
  intros so catalog rows. unfold process_spectra_group.
  destruct (catalog_loop _ _ _ _) as [[|r rs]|] eqn:E; cbn [bind];
    try discriminate.
  intros H. injection H as <-.
  destruct (catalog_loop_rows _ _ _ _ _ E) as [rows' [Hr Hall]].
  cbn [app] in Hr. rewrite Hr. exact Hall.
Qed.

(** X20. The rows are not selected by acceptance: when the first entry of
    [zdla] is rejected (it is -1) and a later one is accepted, a row is built
    all the same from entry 0, so the table reports a rejected entry. *)
Theorem build_rows_reports_rejected_first_entry :
  forall (entry : CatalogEntry num) (fit : FitOutput num) (flags : list Z)
         (flux_search ivar_search : list num) (z0 : num),
    nth_error (zdla fit) 0 = Some z0 ->
    accepted z0 = false ->
    existsb accepted (zdla fit) = true ->
    length flux_search = length ivar_search ->
    (Z.to_nat (ndla (zdla fit)) <= shortest_array fit flags)%nat ->
    exists rows row,
      build_rows entry fit flags flux_search ivar_search
                 (seq 0 (Z.to_nat (ndla (zdla fit)))) = Ok rows /\
      nth_error rows 0 = Some row /\
      r_Z_DLA row = z0 /\ accepted (r_Z_DLA row) = false.
Proof.
  intros entry fit flags fs ivs z0 Hz0 Hrej Hany Hs Hshort.
  assert (Hpos : (0 < Z.to_nat (ndla (zdla fit)))%nat).
  { unfold ndla, count_true. rewrite Nat2Z.id.
    apply existsb_exists in Hany. destruct Hany as [z [Hin Hacc]].
    assert (Hf : In true (filter (fun b : bool => b) (map accepted (zdla fit)))).
    { apply filter_In. split; [|reflexivity].
      apply in_map_iff. exists z. split; assumption. }
    destruct (filter _ _); [destruct Hf|cbn; lia]. }
  destruct (build_rows_returns entry fit flags fs ivs
              (seq 0 (Z.to_nat (ndla (zdla fit))))) as [rows Hrows].
  { intros n Hn. apply in_seq in Hn. unfold shortest_array in Hshort.
    apply build_row_returns; try assumption; lia. }
  destruct (build_rows_nth _ _ _ _ _ _ _ Hrows 0%nat 0%nat) as [row [Hrow Hb]].
  { destruct (Z.to_nat (ndla (zdla fit))); [lia|reflexivity]. }
  exists rows, row. split; [exact Hrows|]. split; [exact Hrow|].
  destruct (build_row_inv _ _ _ _ _ _ _ Hb) as [_ [_ [_ [_ [_ [H1 _]]]]]].
  rewrite Hz0 in H1. injection H1 as <-. split; [reflexivity|exact Hrej].
Qed.

(** *** Inputs on which the run returns *)














(* ------------------------------------------------------------------ *)
(** *** The drivers: [dlasearch_hpx] and [dlasearch_mock] *)

(** A spectra file as the drivers use it: the fibermap that
    [desispec.io.read_fibermap] returns, and the coadded spectra
    [process_spectra_group] works on once it has read the file for the given
    target identifiers. *)
Record SpectraFile : Type := {
  fm_TARGETID : list Z;
  read_spectra : list Z -> Spectra num;
}.

(** [os.path.join] on two components (POSIX). *)
Definition ends_with_sep (path : string) : bool :=
  (String.substring (String.length path - 1) 1 path =? "/")%string.

Definition path_join (path b : string) : string :=
  if String.prefix "/" b then b
  else if ((path =? "")%string || ends_with_sep path)%bool then (path ++ b)%string
  else (path ++ "/" ++ b)%string.

(** [os.path.join(datapath, str(healpix // 100), str(healpix), coaddname)] *)
Definition coadd_path (healpix : Z) (survey program datapath : string) : string :=
  let coaddname :=
    ("coadd-" ++ survey ++ "-" ++ program ++ "-" ++ str_of_Z healpix ++ ".fits")%string in
  path_join (path_join (path_join datapath (str_of_Z (healpix / 100)))
                       (str_of_Z healpix))
            coaddname.

(** [dlasearch_hpx]: the file system is a partial map from paths to files
    ([os.path.exists] is its domain).  The pool is handed to the fitter and
    the timing goes to the log; neither changes what is returned. *)
Definition dlasearch_hpx (fs : string -> option SpectraFile)
                         (healpix : Z) (survey program datapath : string)
                         (hpxcat : Catalog num) : result (FitResults num) :=
  let coadd := coadd_path healpix survey program datapath in
  match fs coadd with
  | Some file =>
      process_spectra_group
        (read_spectra file (map TARGETID (entries hpxcat))) hpxcat
  | None =>
      (* log.error(f"could not locate coadd file for healpix {healpix}") *)
      Ok EmptyTuple
  end.

(** [catalog[np.in1d(catalog["TARGETID"], fm["TARGETID"])]] *)
Definition pare_catalog (fm : list Z) (catalog : Catalog num) : Catalog num :=
  {| has_NCIV_450 := has_NCIV_450 catalog;
     entries := filter (fun entry => existsb (Z.eqb (TARGETID entry)) fm)
                       (entries catalog) |}.

(** [dlasearch_mock].  Its handler for a missing file formats [healpix],
    which is not a name of this function either. *)
Definition dlasearch_mock (fs : string -> option SpectraFile)
                          (specfile : string) (catalog : Catalog num)
  : result (FitResults num) :=
  match fs specfile with
  | Some file =>
      (* pare catalog to match spectra file fibermap *)
      let catalog := pare_catalog (fm_TARGETID file) catalog in
      if (Z.of_nat (length (entries catalog)) <? 1)%Z then
        (* no objects *)
        Ok EmptyTuple
      else
        process_spectra_group
          (read_spectra file (map TARGETID (entries catalog))) catalog
  | None => Raise NameError
  end.

Lemma existsb_eqb_in (tid : Z) (fm : list Z) :
  existsb (Z.eqb tid) fm = true <-> In tid fm.
Proof.
  rewrite existsb_exists. split.
  - intros [t [Hin Heq]]. apply Z.eqb_eq in Heq. subst. exact Hin.
  - intros Hin. exists tid. split; [exact Hin|apply Z.eqb_refl].
Qed.

Lemma pare_catalog_entries (fm : list Z) (catalog : Catalog num)
                           (entry : CatalogEntry num) :
  In entry (entries (pare_catalog fm catalog)) <->
  In entry (entries catalog) /\ In (TARGETID entry) fm.
Proof.
  unfold pare_catalog. cbn [entries]. rewrite filter_In, existsb_eqb_in.
  reflexivity.
Qed.

(** X22. Paring keeps exactly the catalog entries whose target the
    fibermap lists, in catalog order, and is idempotent; a catalog none of
    whose targets is listed makes [dlasearch_mock] return the empty tuple,
    whatever the file's spectra are. *)
Theorem dlasearch_mock_pares_catalog :
  forall (fs : string -> option SpectraFile) (specfile : string)
         (file : SpectraFile) (catalog : Catalog num),
    fs specfile = Some file ->
    let pared := pare_catalog (fm_TARGETID file) catalog in
    (forall entry,
        In entry (entries pared) <->
        In entry (entries catalog) /\ In (TARGETID entry) (fm_TARGETID file)) /\
    pare_catalog (fm_TARGETID file) pared = pared /\
    dlasearch_mock fs specfile pared = dlasearch_mock fs specfile catalog /\
    ((forall entry, In entry (entries catalog) ->
                    ~ In (TARGETID entry) (fm_TARGETID file)) ->
     dlasearch_mock fs specfile catalog = Ok EmptyTuple).
Proof.
  intros fs specfile file catalog Hfs pared.
  assert (Hidem : pare_catalog (fm_TARGETID file) pared = pared).
  { unfold pared, pare_catalog. cbn [entries has_NCIV_450]. f_equal.
    induction (entries catalog) as [|e es IH]; cbn [filter]; [reflexivity|].
    destruct (existsb (Z.eqb (TARGETID e)) (fm_TARGETID file)) eqn:E;
      cbn [filter]; [rewrite E; f_equal|]; exact IH. }
  split; [intros entry; apply pare_catalog_entries|].
  split; [exact Hidem|]. split.
  - unfold dlasearch_mock. rewrite Hfs. cbv zeta. rewrite Hidem. reflexivity.
  - intros Hnone. unfold dlasearch_mock. rewrite Hfs. cbv zeta.
    fold pared.
    assert (E : entries pared = []).
    { destruct (entries pared) as [|e es] eqn:Ee; [reflexivity|]. exfalso.
      assert (Hin : In e (entries pared)) by (rewrite Ee; left; reflexivity).
      apply pare_catalog_entries in Hin. destruct Hin as [Hin Hfm].
      exact (Hnone e Hin Hfm). }
    rewrite E. reflexivity.
Qed.

(** X23. A missing file: [dlasearch_hpx] logs the error and returns the
    empty tuple; [dlasearch_mock] raises [NameError] from its handler. *)
Theorem dlasearch_missing_file :
  forall (fs : string -> option SpectraFile) (healpix : Z)
         (survey program datapath specfile : string) (catalog : Catalog num),
    fs (coadd_path healpix survey program datapath) = None ->
    fs specfile = None ->
    dlasearch_hpx fs healpix survey program datapath catalog = Ok EmptyTuple /\
    dlasearch_mock fs specfile catalog = Raise NameError.
Proof.
  intros fs healpix survey program datapath specfile catalog Hc Hs.
  unfold dlasearch_hpx, dlasearch_mock. cbv zeta. rewrite Hc, Hs.
  split; reflexivity.
Qed.

(** X24. A table returned by [dlasearch_mock] has rows for pared targets
    only: the file exists, and every row carries the [TARGETID] of a catalog
    entry that both fibermaps list, the file's and the one of the spectra
    read. *)
Theorem dlasearch_mock_rows_from_pared_catalog :
  forall (fs : string -> option SpectraFile) (specfile : string)
         (catalog : Catalog num) (rows : list (Row num)),
    dlasearch_mock fs specfile catalog = Ok (Table rows) ->
    exists file,
      fs specfile = Some file /\
      rows <> [] /\
      Forall (fun row =>
                exists entry,
                  In entry (entries catalog) /\
                  In (TARGETID entry) (fm_TARGETID file) /\
                  r_TARGETID row = TARGETID entry) rows.
Proof.
  intros fs specfile catalog rows. unfold dlasearch_mock.
  destruct (fs specfile) as [file|]; [|discriminate]. cbv zeta.
  destruct (Z.of_nat (length (entries (pare_catalog (fm_TARGETID file) catalog)))
            <? 1)%Z; [discriminate|].
  unfold process_spectra_group.
  destruct (catalog_loop _ _ _ _) as [[|r rs]|] eqn:E; cbn [bind];
    try discriminate.
  intros H. injection H as <-. exists file. split; [reflexivity|].
  split; [discriminate|].
  destruct (catalog_loop_rows _ _ _ _ _ E) as [rows' [Hr Hall]].
  cbn [app] in Hr. rewrite Hr. eapply Forall_impl; [|exact Hall].
  intros row [entry [Hin [_ [Hid _]]]].
  apply pare_catalog_entries in Hin. destruct Hin as [Hin Hfm].
  exists entry. repeat split; assumption.
Qed.


End Behaviour.

(* ------------------------------------------------------------------ *)
(** *** The fit and search masks over the reals *)

Lemma bool_index_map_filter {A : Type} (g : A -> bool) (l : list A) :
  map snd (filter fst (combine (map g l) l)) = filter g l.
Proof.
  induction l as [|a l IH]; cbn; [reflexivity|].
  destruct (g a); cbn; [f_equal|]; exact IH.
Qed.

Lemma filter_map_comm {A B : Type} (f : A -> B) (g : B -> bool) (l : list A) :
  filter g (map f l) = map f (filter (fun a => g (f a)) l).
Proof.
  induction l as [|a l IH]; cbn; [reflexivity|].
  destruct (g (f a)); cbn; [f_equal|]; exact IH.
Qed.


(** X27. Over the reals, with [search_minlam <= search_maxlam]: a pixel is
    fitted exactly when its rest-frame wavelength is strictly above
    [search_minlam], and a fitted pixel is in the search window exactly when
    its rest-frame wavelength is at most [search_maxlam].  The window is open
    below and closed above. *)
Theorem prepare_search_window :
  forall (K : Constants R) (specobj : Spectra R) (entry : CatalogEntry R)
         (idx : nat),
    (search_minlam (Constants := K) <= search_maxlam (Constants := K))%R ->
    (idx < length (flux specobj))%nat ->
    (idx < length (ivar specobj))%nat ->
    let rest := fun w : R => (w / (1 + Z_QSO entry))%R in
    exists p,
      prepare (K := K) false specobj entry idx = Ok p /\
      p_fitmask p = map (fun w => Rltb (search_minlam (Constants := K)) (rest w)) (wave specobj) /\
      p_searchmask p
      = map (fun w => Rleb (rest w) (search_maxlam (Constants := K)))
            (filter (fun w => Rltb (search_minlam (Constants := K)) (rest w)) (wave specobj)).
Proof.
  intros K so entry idx Hle Hf Hi rest. unfold prepare.
  rewrite (index_nth (flux so) idx [] Hf), (index_nth (ivar so) idx [] Hi).
  cbn [bind]. unfold bool_index. rewrite !length_map, Nat.eqb_refl. cbn [bind].
  eexists. split; [reflexivity|]. cbn [p_fitmask p_searchmask]. split.
  - rewrite map_map. reflexivity.
  - rewrite bool_index_map_filter, filter_map_comm.
    unfold masked_inside_mask. cbn [nltb nleb RealNum].
    assert (E : Rltb search_maxlam search_minlam = false)
      by (apply Rltb_false; exact Hle).
    rewrite E, map_map. apply map_ext_in. intros w Hw.
    apply filter_In in Hw. destruct Hw as [_ Hw].
    cbn [ndiv nadd of_int RealNum] in Hw.
    assert (E1 : Rleb search_minlam (w / (1 + Z_QSO entry)) = true).
    { apply Rleb_true. apply Rltb_true in Hw. unfold rest in Hw. lra. }
    cbn [ndiv nadd of_int RealNum]. rewrite E1. reflexivity.
Qed.

Lemma prepare_search_window_witness :
  let rest := fun w : R => (w / (1 + Z_QSO real_entry))%R in
  exists p,
    prepare (K := real_constants) false real_spectra real_entry 0 = Ok p /\
    p_fitmask p
    = map (fun w => Rltb (search_minlam (Constants := real_constants)) (rest w))
          (wave real_spectra) /\
    p_searchmask p
    = map (fun w => Rleb (rest w) (search_maxlam (Constants := real_constants)))
          (filter (fun w => Rltb (search_minlam (Constants := real_constants))
                                 (rest w))
                  (wave real_spectra)).
Proof.
  exact (prepare_search_window real_constants real_spectra real_entry 0
           ltac:(cbn; lra) ltac:(cbn; lia) ltac:(cbn; lia)).
Defined.


(* ------------------------------------------------------------------ *)
(** *** Concrete runs (binary64) *)

(** One pass of the loop over [bal_entry]. *)
Definition bal_pass : result (Spectra float * Outcome float) :=
  Eval vm_compute in
    process_entry (S := float_special) (K := float_constants) (F := fitter_one)
                  true bal_spectra bal_entry.

Definition bal_pass_spectra : Spectra float :=
  Eval vm_compute in
    match bal_pass with Ok (specobj, _) => specobj | Raise _ => bal_spectra end.

Definition bal_pass_outcome : Outcome float :=
  Eval vm_compute in
    match bal_pass with Ok (_, o) => o | Raise _ => TooMasked end.

Definition bal_catalog : Catalog float :=
  {| has_NCIV_450 := true; entries := [bal_entry] |}.

Definition bal_table_rows : list (Row float) :=
  Eval vm_compute in rows_of bal_pass_outcome.

(** The same spectra under another target identifier. *)
Definition other_spectra : Spectra float := {|
  wave := wave bal_spectra;
  fibermap_TARGETID := [1%Z];
  flux := flux bal_spectra;
  ivar := ivar bal_spectra;
|}.

(** Two features announced, one velocity range given. *)
Definition short_bal_entry : CatalogEntry float := {|
  TARGETID := 39627;
  TARGET_RA := 150%float;
  TARGET_DEC := 2%float;
  Z_QSO := 2.5%float;
  NCIV_450 := 2;
  VMAX_CIV_450 := [25000%float];
  VMIN_CIV_450 := [1000%float];
|}.

(** A fit whose accepted absorber is not in the first place. *)
Definition gap_absorber : FitOutput float := {|
  zdla := [(-1)%float; 2.5%float; (-1)%float];
  zerr := [0%float; 0.001%float; 0%float];
  nhi := [0%float; 20.3%float; 0%float];
  nhierr := [0%float; 0.05%float; 0%float];
  dchi2 := [0%float; 50%float; 0%float];
  fitwarn := [0%Z; 0%Z; 0%Z];
  coeff_dla := [[]; [1%float]; []];
|}.


(** A file system with one mock file. *)
Definition mock_file : SpectraFile (num := float) := {|
  fm_TARGETID := [39627%Z];
  read_spectra := fun _ => bal_spectra;
|}.

Definition mock_fs (path : string) : option (SpectraFile (num := float)) :=
  if (path =? "spectra-16-0.fits")%string then Some mock_file else None.



Lemma process_entry_frame_witness :
  wave bal_pass_spectra = wave bal_spectra /\
  fibermap_TARGETID bal_pass_spectra = fibermap_TARGETID bal_spectra /\
  flux bal_pass_spectra = flux bal_spectra /\
  length (ivar bal_pass_spectra) = length (ivar bal_spectra) /\
  (exists idx,
      first_index (TARGETID bal_entry) (fibermap_TARGETID bal_spectra) = Some idx /\
      forall j, j <> idx ->
                nth_error (ivar bal_pass_spectra) j = nth_error (ivar bal_spectra) j) /\
  (true = false -> bal_pass_spectra = bal_spectra).
Proof.
  exact (process_entry_frame (N := FloatNum) (S := float_special) (K := float_constants)
           (F := fitter_one) true bal_spectra bal_pass_spectra bal_entry
           bal_pass_outcome ltac:(vm_compute; reflexivity)).
Defined.

Lemma process_spectra_group_missing_target_raises_witness :
  (exists e,
      process_spectra_group (S := float_special) (K := float_constants)
                            (F := fitter_one) other_spectra bal_catalog
      = Raise e) /\
  (hd_error (entries bal_catalog) = Some bal_entry ->
   process_spectra_group (S := float_special) (K := float_constants)
                         (F := fitter_one) other_spectra bal_catalog
   = Raise NameError).
Proof.
  exact (process_spectra_group_missing_target_raises
           (N := FloatNum) (S := float_special) (K := float_constants) (F := fitter_one)
           other_spectra bal_catalog bal_entry
           (or_introl eq_refl)
           ltac:(cbn; intros [H|[]]; discriminate)).
Defined.

Lemma bal_mask_idempotent_witness :
  exists ivar' bal_locs,
    bal_mask (K := float_constants) rest_grid bal_entry
             [1%float; 1%float; 1%float; 1%float; 1%float] = Ok (ivar', bal_locs) /\
    bal_mask (K := float_constants) rest_grid bal_entry ivar' = Ok (ivar', bal_locs).
Proof.
  exact (bal_mask_idempotent (K := float_constants) rest_grid bal_entry
           [1%float; 1%float; 1%float; 1%float; 1%float]
           eq_refl (le_n 1) (le_n 1)).
Defined.

Lemma bal_mask_short_velocity_column_raises_witness :
  bal_mask (K := float_constants) rest_grid short_bal_entry
           [1%float; 1%float; 1%float; 1%float; 1%float] = Raise IndexError.
Proof.
  exact (bal_mask_short_velocity_column_raises
           (K := float_constants) rest_grid short_bal_entry
           [1%float; 1%float; 1%float; 1%float; 1%float]
           eq_refl (or_introl (le_n 2))).
Defined.


Lemma build_rows_returns_iff_arrays_long_enough_witness :
  if (4 <=? shortest_array one_absorber [4%Z; 0%Z; 0%Z])%nat
  then exists rows,
      build_rows (S := float_special) bal_entry one_absorber [4%Z; 0%Z; 0%Z]
                 [1%float; 0.5%float] [4%float; 4%float] (seq 0 4) = Ok rows
  else build_rows (S := float_special) bal_entry one_absorber [4%Z; 0%Z; 0%Z]
                  [1%float; 0.5%float] [4%float; 4%float] (seq 0 4)
       = Raise IndexError.
Proof.
  exact (build_rows_returns_iff_arrays_long_enough (N := FloatNum) (S := float_special)
           bal_entry one_absorber [4%Z; 0%Z; 0%Z]
           [1%float; 0.5%float] [4%float; 4%float] 4 eq_refl).
Defined.

Lemma process_spectra_group_rows_from_catalog_witness :
  Forall (fun row =>
            exists entry,
              In entry (entries bal_catalog) /\
              In (TARGETID entry) (fibermap_TARGETID bal_spectra) /\
              r_TARGETID row = TARGETID entry /\
              r_RA row = TARGET_RA entry /\ r_DEC row = TARGET_DEC entry /\
              r_Z row = Z_QSO entry) bal_table_rows.
Proof.
  exact (process_spectra_group_rows_from_catalog
           (N := FloatNum) (S := float_special) (K := float_constants) (F := fitter_one)
           bal_spectra bal_catalog bal_table_rows
           ltac:(vm_compute; reflexivity)).
Defined.

Lemma build_rows_reports_rejected_first_entry_witness :
  exists rows row,
    build_rows (S := float_special) bal_entry gap_absorber [0%Z; 4%Z; 0%Z]
               [1%float; 0.5%float] [4%float; 4%float]
               (seq 0 (Z.to_nat (ndla (zdla gap_absorber)))) = Ok rows /\
    nth_error rows 0 = Some row /\
    r_Z_DLA row = (-1)%float /\ accepted (r_Z_DLA row) = false.
Proof.
  exact (build_rows_reports_rejected_first_entry (N := FloatNum) (S := float_special)
           bal_entry gap_absorber [0%Z; 4%Z; 0%Z]
           [1%float; 0.5%float] [4%float; 4%float] (-1)%float
           eq_refl eq_refl eq_refl eq_refl
           ltac:(vm_compute; lia)).
Defined.


Lemma dlasearch_mock_pares_catalog_witness :
  let pared := pare_catalog (fm_TARGETID mock_file) bal_catalog in
  (forall entry,
      In entry (entries pared) <->
      In entry (entries bal_catalog) /\ In (TARGETID entry) (fm_TARGETID mock_file)) /\
  pare_catalog (fm_TARGETID mock_file) pared = pared /\
  dlasearch_mock (S := float_special) (K := float_constants) (F := fitter_one)
                 mock_fs "spectra-16-0.fits" pared
  = dlasearch_mock (S := float_special) (K := float_constants) (F := fitter_one)
                   mock_fs "spectra-16-0.fits" bal_catalog /\
  ((forall entry, In entry (entries bal_catalog) ->
                  ~ In (TARGETID entry) (fm_TARGETID mock_file)) ->
   dlasearch_mock (S := float_special) (K := float_constants) (F := fitter_one)
                  mock_fs "spectra-16-0.fits" bal_catalog = Ok EmptyTuple).
Proof.
  exact (dlasearch_mock_pares_catalog
           (N := FloatNum) (S := float_special) (K := float_constants) (F := fitter_one)
           mock_fs "spectra-16-0.fits" mock_file bal_catalog eq_refl).
Defined.

Lemma dlasearch_missing_file_witness :
  dlasearch_hpx (S := float_special) (K := float_constants) (F := fitter_one)
                mock_fs 12345 "main" "dark" "/data" bal_catalog = Ok EmptyTuple /\
  dlasearch_mock (S := float_special) (K := float_constants) (F := fitter_one)
                 mock_fs "spectra-16-1.fits" bal_catalog = Raise NameError.
Proof.
  exact (dlasearch_missing_file
           (N := FloatNum) (S := float_special) (K := float_constants) (F := fitter_one)
           mock_fs 12345 "main" "dark" "/data" "spectra-16-1.fits" bal_catalog
           eq_refl eq_refl).
Defined.

Lemma dlasearch_mock_rows_from_pared_catalog_witness :
  exists file,
    mock_fs "spectra-16-0.fits" = Some file /\
    bal_table_rows <> [] /\
    Forall (fun row =>
              exists entry,
                In entry (entries bal_catalog) /\
                In (TARGETID entry) (fm_TARGETID file) /\
                r_TARGETID row = TARGETID entry) bal_table_rows.
Proof.
  exact (dlasearch_mock_rows_from_pared_catalog
           (N := FloatNum) (S := float_special) (K := float_constants) (F := fitter_one)
           mock_fs "spectra-16-0.fits" bal_catalog bal_table_rows
           ltac:(vm_compute; reflexivity)).
Defined.


(** The coadd file of healpix 12345 lies in the directory of its group,
    123. *)
Example coadd_path_of_healpix :
  coadd_path 12345 "main" "dark" "/data"
  = "/data/123/12345/coadd-main-dark-12345.fits"%string /\
  coadd_path 7 "sv1" "bright" "/data/"
  = "/data/0/7/coadd-sv1-bright-7.fits"%string.
Proof. vm_compute. split; reflexivity. Qed.

(** With the accepted absorber in second place the row reported is the one
    of the first, rejected entry: [Z_DLA] is -1. *)
Example search_reports_rejected_entry :
  exists row,
    process_spectra_group (S := float_special) (K := float_constants)
                          (F := {| fit_spectrum_DLA := fun _ _ _ _ _ => Ok gap_absorber |})
                          bal_spectra bal_catalog
    = Ok (Table [row]) /\
    r_Z_DLA row = (-1)%float /\ r_NHI row = 0%float.
Proof. eexists. split; [vm_compute; reflexivity|]. split; reflexivity. Qed.


(* ------------------------------------------------------------------ *)
(** *** binary64: a target without a pixel in the search window *)

Lemma bool_index_no_true {A : Type} (a : list A) (mask : list bool)
                         (r : list A) :
  count_true mask = 0%Z -> bool_index a mask = Ok r -> r = [].
Proof.
  unfold count_true, bool_index. intros H.
  destruct (length mask =? length a)%nat; [|discriminate].
  intros E. injection E as <-.
  assert (Hf : filter (fun b : bool => b) mask = []).
  { destruct (filter (fun b : bool => b) mask); [reflexivity|].
    cbn [length] in H. lia. }
  clear H. revert a Hf.
  induction mask as [|b mask IH]; intros [|x a] Hf; cbn in *; try reflexivity.
  destruct b; cbn in *; [discriminate|]. apply IH. exact Hf.
Qed.

(** X29. A target with no pixel in the search window is not skipped: both
    counts are zero, [0 / 0] is NaN in binary64, and [nan < 0.2] is false, so
    the masked-fraction test lets the target through to the fitter. *)
Theorem search_empty_window_is_not_skipped :
  forall (S : Special float) (K : Constants float) (F : Fitter float)
         (has_bal : bool) (specobj : Spectra float)
         (entry : CatalogEntry float) (p : Prepared),
    count_true (p_searchmask p) = 0%Z ->
    search (S := S) (K := K) (F := F) has_bal specobj entry p <> Ok TooMasked.
Proof.
  intros S K F has_bal so entry p H Hs.
  destruct (search_window_ivar p) as [ivar_search|e] eqn:E.
  - apply (search_too_masked_iff (S := S) (K := K) (F := F)
             has_bal so entry p ivar_search E) in Hs.
    assert (Hn : ivar_search = []).
    { unfold search_window_ivar in E.
      destruct (bool_index (p_ivar p) (p_fitmask p)) as [ivar_fit|];
        cbn [bind] in E; [|discriminate].
      exact (bool_index_no_true _ _ _ H E). }
    rewrite Hn, H in Hs. vm_compute in Hs. discriminate.
  - unfold search in Hs. rewrite E in Hs. discriminate.
Qed.

(** A target redward of the whole grid: no pixel is fitted. *)
Definition prepared_empty_window : Prepared (num := float) := {|
  p_idx := 0;
  p_flux := [1%float; 1%float];
  p_ivar := [4%float; 4%float];
  p_fitmask := [false; false];
  p_searchmask := [];
  p_bal_locs := [];
|}.

Lemma search_empty_window_is_not_skipped_witness :
  count_true (p_searchmask prepared_empty_window) = 0%Z /\
  search (S := float_special) (K := float_constants) (F := fitter_one)
         false bal_spectra bal_entry prepared_empty_window <> Ok TooMasked.
Proof.
  split; [reflexivity|].
  exact (search_empty_window_is_not_skipped
           float_special float_constants fitter_one
           false bal_spectra bal_entry prepared_empty_window eq_refl).
Defined.


End DlaSearch.
